(** * Matchmaking and session life cycle of the anonymous chat

    A shallow embedding of the chat engine: the client hook [useChat]
    (the revision that tracks online presence, and after it the first
    revision, without heartbeats, under names that start with [legacy_]),
    the handlers of the pages that call the hook, the SQL schema it talks to
    and the stored procedures [cleanup_offline_participants] and
    [update_participant_heartbeat].

    Conventions of the embedding.
    - A UUID is an integer; the value [gen_random_uuid()] hands out for an
      insert is an input of the operation (field of the [Oracle]), and an
      insert whose key is already present fails on the primary key.
    - A timestamp is an integer number of milliseconds.  One client
      operation runs at one instant [now]: the client clock ([Date.now()],
      [new Date()]) and the server clock ([now()]) agree and do not advance
      while the operation runs.
    - A table is the list of its rows in store order.  [ORDER BY k] is a
      stable sort of the selected rows on [k]: rows with equal keys keep their
      store order, no further column decides between them.  The query
      leaves the order of such rows open; the store order stands for the
      one the store happens to answer.
    - A JavaScript string is the list of its UTF-16 code units.
    - Every request may be answered with an error; at which call sites is
      an input too ([fails] of the [Oracle]).  A request that fails has not
      reached the store and changes nothing, with one exception: the two
      writes of [createMatchedSession], whose errors the hook answers by
      giving up or by a compensating delete.  For them [lost] of the
      [Oracle] tells whether the store had carried the request out when
      the error came back (the answer was lost on the way).
    - A supabase query builder is a thenable: the HTTP request is issued by
      its [then] method, that is when the builder is awaited.  A builder that
      is built and dropped (no [await], no [then]) sends nothing.
    - Row level security policies are not part of the embedding: a request
      acts on every row its filters select. *)

From Stdlib Require Import ZArith NArith List Bool Lia String Ascii.
From Stdlib Require Import Sorting.Sorted Sorting.Permutation.
Import ListNotations.
Local Open Scope Z_scope.

(** ** Data model (types/chat.ts and the migrations) *)

Definition Id := Z.
Definition Timestamp := Z.
Definition jsstring := list N.

Inductive GenderType := male | female | any.
Inductive ChatType := text | audio | video.
Inductive SessionStatus := waiting | matched | ended.

Definition GenderType_eqb (a b : GenderType) : bool :=
  match a, b with
  | male, male | female, female | any, any => true
  | _, _ => false
  end.

Definition SessionStatus_eqb (a b : SessionStatus) : bool :=
  match a, b with
  | waiting, waiting | matched, matched | ended, ended => true
  | _, _ => false
  end.

Record ChatSession := mkSession {
  cs_id : Id;
  cs_session_type : ChatType;
  cs_status : SessionStatus;
  cs_created_at : Timestamp;
  cs_ended_at : option Timestamp;
  cs_updated_at : Timestamp
}.

Record Participant := mkParticipant {
  p_id : Id;
  p_session_id : option Id;
  p_name : jsstring;
  p_gender : GenderType;
  p_preferred_gender : GenderType;
  p_is_waiting : bool;
  p_joined_at : Timestamp;
  p_left_at : option Timestamp;
  p_last_seen : Timestamp;
  p_is_online : bool
}.

Record Message := mkMessage {
  m_id : Id;
  m_session_id : Id;
  m_participant_id : Id;
  m_content : jsstring;
  m_sent_at : Timestamp
}.

Record DB := mkDB {
  chat_sessions : list ChatSession;
  participants : list Participant;
  messages : list Message
}.

(** ** Strings *)

(** ECMAScript WhiteSpace and LineTerminator code points, the ones
    [String.prototype.trim] strips. *)
Definition is_js_space (c : N) : bool :=
  (N.eqb c 9 || N.eqb c 10 || N.eqb c 11 || N.eqb c 12 || N.eqb c 13 ||
   N.eqb c 32 || N.eqb c 160 || N.eqb c 5760 ||
   (N.leb 8192 c && N.leb c 8202) ||
   N.eqb c 8232 || N.eqb c 8233 || N.eqb c 8239 || N.eqb c 8287 ||
   N.eqb c 12288 || N.eqb c 65279)%bool.

Fixpoint drop_while (f : N -> bool) (s : jsstring) : jsstring :=
  match s with
  | [] => []
  | c :: r => if f c then drop_while f r else s
  end.

Definition strip (f : N -> bool) (s : jsstring) : jsstring :=
  rev (drop_while f (rev (drop_while f s))).

(** [s.trim()] *)
Definition trim (s : jsstring) : jsstring := strip is_js_space s.

(** SQL [trim(s)]: strips the blank (U+0020) only. *)
Definition pg_trim (s : jsstring) : jsstring := strip (N.eqb 32) s.

Definition js (s : string) : jsstring :=
  map N_of_ascii (list_ascii_of_string s).

(** ** ORDER BY and Array.prototype.sort: a stable insertion sort *)

Section Sort.
Context {A : Type} (key : A -> Z).

Fixpoint insert_by (x : A) (l : list A) : list A :=
  match l with
  | [] => [x]
  | y :: r => if key x <=? key y then x :: l else y :: insert_by x r
  end.

Fixpoint sort_by (l : list A) : list A :=
  match l with
  | [] => []
  | x :: r => insert_by x (sort_by r)
  end.
End Sort.

(** ** The store: outcome of a request, faults, generated keys *)

Inductive StoreError :=
  | Unavailable
  | UniqueViolation
  | CheckViolation
  | ForeignKeyViolation
  | UntranslatableCharacter
  | NotSingleRow.

Inductive Response (A : Type) :=
  | Data (a : A)
  | Error (e : StoreError).
Arguments Data {A} a.
Arguments Error {A} e.

Inductive Site :=
  | InsertParticipant | InsertSession | InsertMessage
  | UpdateSession | UpdateParticipant | BindParticipants | DeleteSession
  | SelectCandidates | SelectMessages | SelectSession | SelectPartners
  | RpcCleanup | RpcHeartbeat.

Record Oracle := mkOracle {
  now : Timestamp;
  uuid_participant : Id;
  uuid_session : Id;
  uuid_message : Id;
  fails : Site -> bool;
  lost : Site -> bool
}.

Definition Request (A : Type) := DB -> Response A * DB.

(** ** SQL statements *)

Definition has_session (sid : Id) (d : DB) : bool :=
  existsb (fun s => cs_id s =? sid) (chat_sessions d).

Definition has_participant (pid : Id) (d : DB) : bool :=
  existsb (fun p => p_id p =? pid) (participants d).

Definition has_message (mid : Id) (d : DB) : bool :=
  existsb (fun m => m_id m =? mid) (messages d).

Definition find_session (sid : Id) (d : DB) : option ChatSession :=
  find (fun s => cs_id s =? sid) (chat_sessions d).

Definition find_participant (pid : Id) (d : DB) : option Participant :=
  find (fun p => p_id p =? pid) (participants d).

(** [.single()]: exactly one row, anything else is an error. *)
Definition single {A : Type} (rows : list A) : Response A :=
  match rows with
  | [r] => Data r
  | _ => Error NotSingleRow
  end.

(** INSERT INTO chat_sessions (session_type, status) ... RETURNING *;
    the other columns take their defaults. *)
Definition insert_session (o : Oracle) (ty : ChatType) (st : SessionStatus)
  : Request ChatSession := fun d =>
  if has_session (uuid_session o) d then (Error UniqueViolation, d)
  else
    let s := mkSession (uuid_session o) ty st (now o) None (now o) in
    (Data s, mkDB (chat_sessions d ++ [s]) (participants d) (messages d)).

(** INSERT INTO participants (name, gender, preferred_gender, is_waiting,
    is_online, last_seen) ... RETURNING *; CHECK (length(trim(name)) > 0). *)
Definition insert_participant (o : Oracle) (name : jsstring)
    (g pg : GenderType) (w onl : bool) (seen : Timestamp)
  : Request Participant := fun d =>
  if has_participant (uuid_participant o) d then (Error UniqueViolation, d)
  else if (List.length (pg_trim name) =? 0)%nat then (Error CheckViolation, d)
  else
    let p := mkParticipant (uuid_participant o) None name g pg w (now o)
               None seen onl in
    (Data p, mkDB (chat_sessions d) (participants d ++ [p]) (messages d)).

(** The code unit 0, which PostgreSQL refuses in a [text] value: a message
    whose content holds it is not stored. *)
Definition has_nul (s : jsstring) : bool := existsb (N.eqb 0) s.

(** INSERT INTO messages (session_id, participant_id, content);
    both references are foreign keys; CHECK (length(trim(content)) > 0). *)
Definition insert_message (o : Oracle) (sid pid : Id) (c : jsstring)
  : Request unit := fun d =>
  if has_nul c then (Error UntranslatableCharacter, d)
  else if has_message (uuid_message o) d then (Error UniqueViolation, d)
  else if negb (has_session sid d && has_participant pid d)
       then (Error ForeignKeyViolation, d)
  else if (List.length (pg_trim c) =? 0)%nat then (Error CheckViolation, d)
  else
    let m := mkMessage (uuid_message o) sid pid c (now o) in
    (Data tt, mkDB (chat_sessions d) (participants d) (messages d ++ [m])).

(** UPDATE chat_sessions SET status = 'ended', ended_at = <now> WHERE id = sid;
    the trigger update_chat_sessions_updated_at stamps updated_at. *)
Definition end_row (t : Timestamp) (s : ChatSession) : ChatSession :=
  mkSession (cs_id s) (cs_session_type s) ended (cs_created_at s) (Some t) t.

Definition end_session (o : Oracle) (sid : Id) : Request unit := fun d =>
  (Data tt,
   mkDB (map (fun s => if cs_id s =? sid then end_row (now o) s else s)
             (chat_sessions d))
        (participants d) (messages d)).

(** UPDATE participants SET session_id = sid, is_waiting = false,
    last_seen = <now> WHERE id IN (a, b). *)
Definition bind_row (sid : Id) (t : Timestamp) (p : Participant) : Participant :=
  mkParticipant (p_id p) (Some sid) (p_name p) (p_gender p)
    (p_preferred_gender p) false (p_joined_at p) (p_left_at p) t (p_is_online p).

Definition bind_participants (o : Oracle) (sid a b : Id) : Request unit :=
  fun d =>
  (Data tt,
   mkDB (chat_sessions d)
        (map (fun p => if (p_id p =? a) || (p_id p =? b)
                       then bind_row sid (now o) p else p)
             (participants d))
        (messages d)).

(** UPDATE participants SET session_id = NULL, is_waiting = true,
    last_seen = <now> WHERE id = pid RETURNING *, read with [.single()]. *)
Definition requeue_row (t : Timestamp) (p : Participant) : Participant :=
  mkParticipant (p_id p) None (p_name p) (p_gender p)
    (p_preferred_gender p) true (p_joined_at p) (p_left_at p) t (p_is_online p).

Definition requeue_participant (o : Oracle) (pid : Id) : Request Participant :=
  fun d =>
  match single (filter (fun p => p_id p =? pid) (participants d)) with
  | Data p =>
      (Data (requeue_row (now o) p),
       mkDB (chat_sessions d)
            (map (fun q => if p_id q =? pid then requeue_row (now o) q else q)
                 (participants d))
            (messages d))
  | Error e => (Error e, d)
  end.

(** UPDATE participants SET is_waiting = false, is_online = false,
    left_at = <now> WHERE id = pid. *)
Definition leave_row (t : Timestamp) (p : Participant) : Participant :=
  mkParticipant (p_id p) (p_session_id p) (p_name p) (p_gender p)
    (p_preferred_gender p) false (p_joined_at p) (Some t) (p_last_seen p) false.

Definition leave_participant (o : Oracle) (pid : Id) : Request unit := fun d =>
  (Data tt,
   mkDB (chat_sessions d)
        (map (fun p => if p_id p =? pid then leave_row (now o) p else p)
             (participants d))
        (messages d)).

(** DELETE FROM chat_sessions WHERE id = sid; participants.session_id,
    messages.session_id and messages.participant_id are ON DELETE CASCADE. *)
Definition refers (sid : Id) (r : option Id) : bool :=
  match r with
  | Some x => x =? sid
  | None => false
  end.

Definition delete_session (sid : Id) : Request unit := fun d =>
  let gone := filter (fun p => refers sid (p_session_id p)) (participants d) in
  (Data tt,
   mkDB (filter (fun s => negb (cs_id s =? sid)) (chat_sessions d))
        (filter (fun p => negb (refers sid (p_session_id p))) (participants d))
        (filter (fun m => negb ((m_session_id m =? sid) ||
                                existsb (fun p => p_id p =? m_participant_id m) gone))
                (messages d))).

(** *** cleanup_offline_participants() *)

(** First statement: UPDATE participants SET is_online = false,
    is_waiting = false WHERE last_seen < now() - interval '30 seconds'
    AND is_online = true. *)
Definition stale (t : Timestamp) (p : Participant) : bool :=
  (p_last_seen p <? t - 30000) && p_is_online p.

Definition offline_row (p : Participant) : Participant :=
  mkParticipant (p_id p) (p_session_id p) (p_name p) (p_gender p)
    (p_preferred_gender p) false (p_joined_at p) (p_left_at p)
    (p_last_seen p) false.

Definition mark_offline (t : Timestamp) (ps : list Participant) : list Participant :=
  map (fun p => if stale t p then offline_row p else p) ps.

(** SELECT session_id FROM participants WHERE session_id IS NOT NULL
    GROUP BY session_id HAVING bool_and(NOT is_online): membership of [sid]
    in the result. *)
Definition group_all_offline (ps : list Participant) (sid : Id) : bool :=
  let grp := filter (fun p => refers sid (p_session_id p)) ps in
  negb (List.length grp =? 0)%nat && forallb (fun p => negb (p_is_online p)) grp.

(** Second statement: UPDATE chat_sessions SET status = 'ended',
    ended_at = now() WHERE status = 'matched' AND id IN (...). *)
Definition reap_sessions (t : Timestamp) (ps : list Participant)
    (ss : list ChatSession) : list ChatSession :=
  map (fun s => if SessionStatus_eqb (cs_status s) matched &&
                   group_all_offline ps (cs_id s)
                then end_row t s else s) ss.

Definition cleanup_offline_participants (t : Timestamp) (d : DB) : DB :=
  let ps := mark_offline t (participants d) in
  mkDB (reap_sessions t ps (chat_sessions d)) ps (messages d).

(** *** update_participant_heartbeat(participant_uuid) *)

Definition beat_row (t : Timestamp) (p : Participant) : Participant :=
  mkParticipant (p_id p) (p_session_id p) (p_name p) (p_gender p)
    (p_preferred_gender p) (p_is_waiting p) (p_joined_at p) (p_left_at p) t true.

Definition update_participant_heartbeat (t : Timestamp) (pid : Id) (d : DB) : DB :=
  mkDB (chat_sessions d)
       (map (fun p => if p_id p =? pid then beat_row t p else p) (participants d))
       (messages d).

Definition rpc_cleanup (o : Oracle) : Request unit := fun d =>
  (Data tt, cleanup_offline_participants (now o) d).

Definition rpc_heartbeat (o : Oracle) (pid : Id) : Request unit := fun d =>
  (Data tt, update_participant_heartbeat (now o) pid d).

(** SELECT * FROM participants WHERE is_waiting AND is_online AND id <> me
    AND last_seen >= <now - 30000 ms> ORDER BY joined_at ASC LIMIT 20. *)
Definition eligible (t : Timestamp) (me : Participant) (p : Participant) : bool :=
  p_is_waiting p && p_is_online p && negb (p_id p =? p_id me) &&
  (t - 30000 <=? p_last_seen p).

Definition candidate_window (t : Timestamp) (me : Participant) (d : DB)
  : list Participant :=
  firstn 20 (sort_by p_joined_at (filter (eligible t me) (participants d))).

Definition select_candidates (o : Oracle) (me : Participant)
  : Request (list Participant) := fun d =>
  (Data (candidate_window (now o) me d), d).

(** SELECT * FROM messages WHERE session_id = sid ORDER BY sent_at ASC. *)
Definition history (sid : Id) (d : DB) : list Message :=
  sort_by m_sent_at (filter (fun m => m_session_id m =? sid) (messages d)).

Definition select_messages (sid : Id) : Request (list Message) := fun d =>
  (Data (history sid d), d).

(** SELECT * FROM chat_sessions WHERE id = sid, read with [.single()]. *)
Definition select_session (sid : Id) : Request ChatSession := fun d =>
  (single (filter (fun s => cs_id s =? sid) (chat_sessions d)), d).

(** SELECT * FROM participants WHERE session_id = sid AND id <> me
    AND is_online. *)
Definition select_partners (sid me : Id) : Request (list Participant) := fun d =>
  (Data (filter (fun p => refers sid (p_session_id p) &&
                          negb (p_id p =? me) && p_is_online p)
                (participants d)), d).

(** ** The client: React state, notices, exceptions *)

Inductive Toast :=
  | Connected (name : jsstring)
  | Searching
  | StartFailed
  | MessageFailed
  | Skipped
  | NewConnection (name : jsstring)
  | SkipFailed
  | PartnerDisconnected (name : jsstring).

Record Client := mkClient {
  currentSession : option ChatSession;
  currentParticipant : option Participant;
  partner : option Participant;
  messages_state : list Message;
  isConnected : bool;
  isSearching : bool;
  heartbeatInterval : option Id
}.

Record World := mkWorld {
  db : DB;
  ui : Client;
  toasts : list Toast
}.

Inductive Exn :=
  | StoreExn (e : StoreError)
  | JsError (msg : string).

Inductive Completion (A : Type) :=
  | Normal (a : A)
  | Thrown (e : Exn).
Arguments Normal {A} a.
Arguments Thrown {A} e.

Definition M (A : Type) := World -> Completion A * World.

Definition ret {A : Type} (a : A) : M A := fun w => (Normal a, w).

Definition bind {A B : Type} (m : M A) (k : A -> M B) : M B := fun w =>
  match m w with
  | (Normal a, w') => k a w'
  | (Thrown e, w') => (Thrown e, w')
  end.

Definition throw {A : Type} (e : Exn) : M A := fun w => (Thrown e, w).

Definition try_catch {A : Type} (body : M A) (handler : Exn -> M A) : M A :=
  fun w =>
  match body w with
  | (Normal a, w') => (Normal a, w')
  | (Thrown e, w') => handler e w'
  end.

Declare Scope chat_scope.
Delimit Scope chat_scope with chat.
Notation "x <- m ;; k" := (bind m (fun x => k))
  (at level 100, m at next level, right associativity) : chat_scope.
Notation "m ;; k" := (bind m (fun _ => k))
  (at level 100, right associativity) : chat_scope.
Local Open Scope chat_scope.

(** [await builder]: the request is sent; a fault of the store at this call
    site comes back as an error and leaves the store as it was. *)
Definition await {A : Type} (o : Oracle) (site : Site) (r : Request A)
  : M (Response A) := fun w =>
  if fails o site then (Normal (Error Unavailable), w)
  else let (a, d) := r (db w) in (Normal a, mkWorld d (ui w) (toasts w)).

(** [await] for a write of [createMatchedSession]: when the error comes
    back the store may have carried the request out all the same. *)
Definition await_lossy {A : Type} (o : Oracle) (site : Site) (r : Request A)
  : M (Response A) := fun w =>
  if fails o site then
    (Normal (Error Unavailable),
     if lost o site then mkWorld (snd (r (db w))) (ui w) (toasts w) else w)
  else let (a, d) := r (db w) in (Normal a, mkWorld d (ui w) (toasts w)).

(** A builder that is neither awaited nor chained with [then]: its request
    [r] is never issued, the store does not see it. *)
Definition dropped {A : Type} (r : Request A) : M unit := ret tt.

Definition modify_ui (f : Client -> Client) : M unit := fun w =>
  (Normal tt, mkWorld (db w) (f (ui w)) (toasts w)).

Definition setCurrentSession (v : option ChatSession) : M unit :=
  modify_ui (fun c => mkClient v (currentParticipant c) (partner c)
    (messages_state c) (isConnected c) (isSearching c) (heartbeatInterval c)).

Definition setCurrentParticipant (v : option Participant) : M unit :=
  modify_ui (fun c => mkClient (currentSession c) v (partner c)
    (messages_state c) (isConnected c) (isSearching c) (heartbeatInterval c)).

Definition setPartner (v : option Participant) : M unit :=
  modify_ui (fun c => mkClient (currentSession c) (currentParticipant c) v
    (messages_state c) (isConnected c) (isSearching c) (heartbeatInterval c)).

Definition setMessages (f : list Message -> list Message) : M unit :=
  modify_ui (fun c => mkClient (currentSession c) (currentParticipant c)
    (partner c) (f (messages_state c)) (isConnected c) (isSearching c)
    (heartbeatInterval c)).

Definition setIsConnected (v : bool) : M unit :=
  modify_ui (fun c => mkClient (currentSession c) (currentParticipant c)
    (partner c) (messages_state c) v (isSearching c) (heartbeatInterval c)).

Definition setIsSearching (v : bool) : M unit :=
  modify_ui (fun c => mkClient (currentSession c) (currentParticipant c)
    (partner c) (messages_state c) (isConnected c) v (heartbeatInterval c)).

Definition setHeartbeatInterval (v : option Id) : M unit :=
  modify_ui (fun c => mkClient (currentSession c) (currentParticipant c)
    (partner c) (messages_state c) (isConnected c) (isSearching c) v).

Definition toast (t : Toast) : M unit := fun w =>
  (Normal tt, mkWorld (db w) (ui w) (toasts w ++ [t])).

Definition get_ui : M Client := fun w => (Normal (ui w), w).

(** ** The hook useChat *)

(** startHeartbeat: the interval is armed; the "initial heartbeat" builder
    is not awaited. *)
Definition startHeartbeat (o : Oracle) (participantId : Id) : M unit :=
  setHeartbeatInterval (Some participantId);;
  dropped (rpc_heartbeat o participantId).

Definition stopHeartbeat : M unit := setHeartbeatInterval None.

(** One firing of the 15 s interval. *)
Definition heartbeatTick (o : Oracle) : M unit :=
  c <- get_ui;;
  match heartbeatInterval c with
  | Some pid =>
      try_catch (_ <- await o RpcHeartbeat (rpc_heartbeat o pid);; ret tt)
                (fun _ => ret tt)
  | None => ret tt
  end.

Definition mutually_compatible (participant partner : Participant) : bool :=
  let partnerWantsMe :=
    GenderType_eqb (p_preferred_gender partner) any ||
    GenderType_eqb (p_preferred_gender partner) (p_gender participant) in
  let iWantPartner :=
    GenderType_eqb (p_preferred_gender participant) any ||
    GenderType_eqb (p_preferred_gender participant) (p_gender partner) in
  partnerWantsMe && iWantPartner.

Definition findOnlineCompatiblePartner (o : Oracle) (participant : Participant)
    (chatType : ChatType) : M (option Participant) :=
  try_catch
    (_ <- await o RpcCleanup (rpc_cleanup o);;
     r <- await o SelectCandidates (select_candidates o participant);;
     match r with
     | Error _ => ret None
     | Data compatibleParticipants =>
         if (List.length compatibleParticipants =? 0)%nat then ret None
         else
           let mutuallyCompatible :=
             filter (mutually_compatible participant) compatibleParticipants in
           ret (hd_error mutuallyCompatible)
     end)
    (fun _ => ret None).

Definition createMatchedSession (o : Oracle) (participant1 participant2 : Participant)
    (chatType : ChatType) : M (option ChatSession) :=
  try_catch
    (r <- await_lossy o InsertSession (insert_session o chatType matched);;
     match r with
     | Error sessionError => throw (StoreExn sessionError)
     | Data session =>
         u <- await_lossy o BindParticipants
                (bind_participants o (cs_id session)
                   (p_id participant1) (p_id participant2));;
         match u with
         | Error updateError =>
             _ <- await o DeleteSession (delete_session (cs_id session));;
             throw (StoreExn updateError)
         | Data _ => ret (Some session)
         end
     end)
    (fun _ => ret None).

(** One run of the async function.  The interval that [startHeartbeat]
    arms is in place when the function is through; the cleanup that the
    commit of the new participant triggers ([unmount] below) is a step of
    its own. *)
Definition startChat (o : Oracle) (name : jsstring)
    (gender preferredGender : GenderType) (chatType : ChatType) : M unit :=
  try_catch
    (setIsSearching true;;
     r <- await o InsertParticipant
            (insert_participant o (trim name) gender preferredGender
               true true (now o));;
     match r with
     | Error participantError => throw (StoreExn participantError)
     | Data participant =>
         setCurrentParticipant (Some participant);;
         startHeartbeat o (p_id participant);;
         compatiblePartner <- findOnlineCompatiblePartner o participant chatType;;
         match compatiblePartner with
         | Some found =>
             session <- createMatchedSession o participant found chatType;;
             match session with
             | Some s =>
                 setCurrentSession (Some s);;
                 setPartner (Some found);;
                 setIsConnected true;;
                 setIsSearching false;;
                 toast (Connected (p_name found))
             | None => throw (JsError "Failed to create session")
             end
         | None => toast Searching
         end
     end)
    (fun _ =>
       setIsSearching false;;
       stopHeartbeat;;
       toast StartFailed).

Definition sendMessage (o : Oracle) (content : jsstring) : M unit :=
  c <- get_ui;;
  match currentSession c, currentParticipant c with
  | Some session, Some participant =>
      if (List.length (trim content) =? 0)%nat then ret tt
      else
        let trimmedContent := trim content in
        try_catch
          (r <- await o InsertMessage
                  (insert_message o (cs_id session) (p_id participant)
                     trimmedContent);;
           match r with
           | Error e => throw (StoreExn e)
           | Data _ =>
               _ <- await o RpcHeartbeat (rpc_heartbeat o (p_id participant));;
               ret tt
           end)
          (fun _ => toast MessageFailed)
  | _, _ => ret tt
  end.

Definition skipChat (o : Oracle) : M unit :=
  c <- get_ui;;
  match currentSession c, currentParticipant c with
  | Some session, Some participant =>
      try_catch
        (_ <- await o UpdateSession (end_session o (cs_id session));;
         r <- await o UpdateParticipant
                (requeue_participant o (p_id participant));;
         match r with
         | Error updateError => throw (StoreExn updateError)
         | Data updatedParticipant =>
             setCurrentSession None;;
             setPartner None;;
             setMessages (fun _ => []);;
             setIsConnected false;;
             setIsSearching true;;
             setCurrentParticipant (Some updatedParticipant);;
             toast Skipped;;
             compatiblePartner <-
               findOnlineCompatiblePartner o updatedParticipant text;;
             match compatiblePartner with
             | Some found =>
                 s <- createMatchedSession o updatedParticipant found text;;
                 match s with
                 | Some newSession =>
                     setCurrentSession (Some newSession);;
                     setPartner (Some found);;
                     setIsConnected true;;
                     setIsSearching false;;
                     toast (NewConnection (p_name found))
                 | None => ret tt
                 end
             | None => ret tt
             end
         end)
        (fun _ => toast SkipFailed)
  | _, _ => ret tt
  end.

Definition stopChat (o : Oracle) : M unit :=
  c <- get_ui;;
  try_catch
    (stopHeartbeat;;
     match currentParticipant c with
     | Some participant =>
         match currentSession c with
         | Some session =>
             _ <- await o UpdateSession (end_session o (cs_id session));;
             ret tt
         | None => ret tt
         end;;
         _ <- await o UpdateParticipant
                (leave_participant o (p_id participant));;
         ret tt
     | None => ret tt
     end;;
     setCurrentSession None;;
     setCurrentParticipant None;;
     setPartner None;;
     setMessages (fun _ => []);;
     setIsConnected false;;
     setIsSearching false)
    (fun _ => ret tt).

(** *** Realtime subscriptions *)

(** participants INSERT, filter is_waiting=eq.true; the subscription exists
    while the client has a waiting participant and is not connected. *)
Definition onParticipantInsert (o : Oracle) (newParticipant : Participant)
  : M unit :=
  c <- get_ui;;
  match currentParticipant c with
  | Some me =>
      if negb (p_is_waiting me && negb (isConnected c)) then ret tt
      else if negb (p_is_waiting newParticipant) then ret tt
      else if (p_id newParticipant =? p_id me) ||
              negb (p_is_online newParticipant) then ret tt
      else if mutually_compatible me newParticipant &&
              match currentSession c with None => true | Some _ => false end
      then
        session <- createMatchedSession o me newParticipant text;;
        match session with
        | Some s =>
            setCurrentSession (Some s);;
            setPartner (Some newParticipant);;
            setIsConnected true;;
            setIsSearching false;;
            toast (Connected (p_name newParticipant))
        | None => ret tt
        end
      else ret tt
  | None => ret tt
  end.

(** participants UPDATE, filter id=eq.<own id>; same subscription. *)
Definition onParticipantUpdate (o : Oracle) (updatedParticipant : Participant)
  : M unit :=
  c <- get_ui;;
  match currentParticipant c with
  | Some me =>
      if negb (p_is_waiting me && negb (isConnected c)) then ret tt
      else if negb (p_id updatedParticipant =? p_id me) then ret tt
      else
        setCurrentParticipant (Some updatedParticipant);;
        match p_session_id updatedParticipant, currentSession c with
        | Some sid, None =>
            try_catch
              (rs <- await o SelectSession (select_session sid);;
               rp <- await o SelectPartners (select_partners sid (p_id me));;
               match rs, rp with
               | Data session, Data (p0 :: _) =>
                   setCurrentSession (Some session);;
                   setPartner (Some p0);;
                   setIsConnected true;;
                   setIsSearching false;;
                   toast (Connected (p_name p0))
               | _, _ => ret tt
               end)
              (fun _ => ret tt)
        | _, _ => ret tt
        end
  | None => ret tt
  end.

(** The updater passed to setMessages by the messages INSERT subscription. *)
Definition appendMessage (newMessage : Message) (prev : list Message)
  : list Message :=
  if existsb (fun msg => m_id msg =? m_id newMessage) prev then prev
  else sort_by m_sent_at (prev ++ [newMessage]).

(** messages INSERT, filter session_id=eq.<current session>. *)
Definition onMessageInsert (newMessage : Message) : M unit :=
  c <- get_ui;;
  match currentSession c with
  | Some session =>
      if m_session_id newMessage =? cs_id session
      then setMessages (appendMessage newMessage)
      else ret tt
  | None => ret tt
  end.

Definition loadMessages (o : Oracle) : M unit :=
  c <- get_ui;;
  match currentSession c with
  | Some session =>
      try_catch
        (r <- await o SelectMessages (select_messages (cs_id session));;
         match r with
         | Error e => throw (StoreExn e)
         | Data data => setMessages (fun _ => data)
         end)
        (fun _ => setMessages (fun _ => []))
  | None => setMessages (fun _ => [])
  end.

(** participants UPDATE, filter id=eq.<partner id>.  The builder that would
    end the session is built and dropped. *)
Definition onPartnerUpdate (o : Oracle) (updatedPartner : Participant)
  : M unit :=
  c <- get_ui;;
  match partner c, currentSession c with
  | Some pt, Some session =>
      if negb (p_id updatedPartner =? p_id pt) then ret tt
      else if negb (p_is_online updatedPartner) then
        toast (PartnerDisconnected (p_name pt));;
        dropped (end_session o (cs_id session));;
        setIsConnected false;;
        setPartner None
      else setPartner (Some updatedPartner)
  | _, _ => ret tt
  end.

(** The cleanup of the effect keyed on [currentParticipant]: it runs on
    unmount and whenever [currentParticipant] changes, hence also once
    [startChat] or [skipChat] have set a participant.  Its builder is
    dropped as well. *)
Definition unmount (o : Oracle) : M unit :=
  c <- get_ui;;
  stopHeartbeat;;
  match currentParticipant c with
  | Some me => dropped (leave_participant o (p_id me))
  | None => ret tt
  end.

(** The scheduled sweep: one call of cleanup_offline_participants(). *)
Definition reaper (o : Oracle) : M unit :=
  _ <- await o RpcCleanup (rpc_cleanup o);; ret tt.

(** ** The system as a labelled transition system *)

Inductive Action :=
  | StartChat (name : jsstring) (gender preferredGender : GenderType)
      (chatType : ChatType)
  | SendMessage (content : jsstring)
  | SkipChat
  | StopChat
  | HeartbeatTick
  | ParticipantInserted (p : Participant)
  | ParticipantUpdated (p : Participant)
  | MessageInserted (m : Message)
  | LoadMessages
  | PartnerUpdated (p : Participant)
  | Unmount
  | Reaper.

Definition perform (o : Oracle) (a : Action) : M unit :=
  match a with
  | StartChat n g pg ty => startChat o n g pg ty
  | SendMessage c => sendMessage o c
  | SkipChat => skipChat o
  | StopChat => stopChat o
  | HeartbeatTick => heartbeatTick o
  | ParticipantInserted p => onParticipantInsert o p
  | ParticipantUpdated p => onParticipantUpdate o p
  | MessageInserted m => onMessageInsert m
  | LoadMessages => loadMessages o
  | PartnerUpdated p => onPartnerUpdate o p
  | Unmount => unmount o
  | Reaper => reaper o
  end.

Definition run {A : Type} (m : M A) (w : World) : World := snd (m w).
Definition result {A : Type} (m : M A) (w : World) : Completion A := fst (m w).

Definition step (o : Oracle) (a : Action) (w : World) : World :=
  run (perform o a) w.

(** ** Vocabulary of the statements *)

Definition no_faults (o : Oracle) : Prop := forall s, fails o s = false.

Definition healthy : Site -> bool := fun _ => false.

Definition session_status (d : DB) (sid : Id) : option SessionStatus :=
  option_map cs_status (find_session sid d).

Definition idle : Client := mkClient None None None [] false false None.

(** The ordering key (sent timestamp, identifier), lexicographic. *)
Definition key_le (a b : Message) : Prop :=
  m_sent_at a < m_sent_at b \/ (m_sent_at a = m_sent_at b /\ m_id a <= m_id b).

(** A list in non-decreasing order of [key]. *)
Definition key_ordered {A : Type} (key : A -> Z) : list A -> Prop :=
  StronglySorted (fun a b => key a <= key b).

(** An online participant whose liveness timestamp is older than the
    30 s threshold at time [t]. *)
Definition liveness_expired (t : Timestamp) (p : Participant) : Prop :=
  p_is_online p = true /\ p_last_seen p < t - 30000.

(** A matched session that has bound participants, all of them offline. *)
Definition abandoned (ps : list Participant) (s : ChatSession) : Prop :=
  cs_status s = matched /\
  (exists q, In q ps /\ p_session_id q = Some (cs_id s)) /\
  (forall q, In q ps -> p_session_id q = Some (cs_id s) -> p_is_online q = false).

(** Foreign keys of the schema: a bound-session reference and the two
    references of a message point at existing rows. *)
Definition referential_integrity (d : DB) : Prop :=
  (forall p sid, In p (participants d) -> p_session_id p = Some sid ->
                 has_session sid d = true) /\
  (forall m, In m (messages d) ->
             has_session (m_session_id m) d = true /\
             has_participant (m_participant_id m) d = true).

(** The row [createMatchedSession] inserts. *)
Definition new_session (o : Oracle) (ty : ChatType) : ChatSession :=
  mkSession (uuid_session o) ty matched (now o) None (now o).

(** ** Scenarios *)

(** A seeker as [startChat] inserts it: unbound, waiting, online. *)
Definition person (i : Id) (g pg : GenderType) (joined seen : Timestamp)
  : Participant :=
  mkParticipant i None (js "anon") g pg true joined None seen true.

(** A participant bound into session [sid]. *)
Definition paired (sid : Id) (p : Participant) : Participant :=
  mkParticipant (p_id p) (Some sid) (p_name p) (p_gender p)
    (p_preferred_gender p) false (p_joined_at p) (p_left_at p)
    (p_last_seen p) (p_is_online p).

(** A reachable store at time [t] that hands out [u] as the next key. *)
Definition at_time (t : Timestamp) (u : Id) : Oracle :=
  mkOracle t u u u healthy healthy.

(** The same, with the requests of one call site failing. *)
Definition failing (site : Site) (t : Timestamp) (u : Id) : Oracle :=
  mkOracle t u u u
    (fun s => match s, site with
              | InsertParticipant, InsertParticipant
              | InsertSession, InsertSession
              | InsertMessage, InsertMessage
              | UpdateSession, UpdateSession
              | UpdateParticipant, UpdateParticipant
              | BindParticipants, BindParticipants
              | DeleteSession, DeleteSession
              | SelectCandidates, SelectCandidates
              | SelectMessages, SelectMessages
              | SelectSession, SelectSession
              | SelectPartners, SelectPartners
              | RpcCleanup, RpcCleanup
              | RpcHeartbeat, RpcHeartbeat => true
              | _, _ => false
              end)
    healthy.

(** The same again, but the store carried the request out and only its
    answer was lost. *)
Definition answer_lost (site : Site) (t : Timestamp) (u : Id) : Oracle :=
  mkOracle t u u u (fails (failing site t u)) (fails (failing site t u)).

Definition alice : Participant := person 1 female male 10 1000.
Definition bob : Participant := person 2 male female 20 1000.
Definition carol : Participant := person 3 female male 30 1000.

(** Three seekers, nobody paired yet. *)
Definition lobby : World :=
  mkWorld (mkDB [] [alice; bob; carol] []) idle [].

(** Alice's matcher and Carol's matcher both picked Bob; Alice's pairing
    runs first. *)
Definition alice_pairs : M (option ChatSession) :=
  createMatchedSession (at_time 1000 10) alice bob text.
Definition carol_pairs : M (option ChatSession) :=
  createMatchedSession (at_time 1001 11) carol bob text.

(** Session 10 between Alice and Bob, seen from Alice's client. *)
Definition session10 : ChatSession := mkSession 10 text matched 1000 None 1000.

Definition chatting : World :=
  mkWorld (mkDB [session10] [paired 10 alice; paired 10 bob] [])
          (mkClient (Some session10) (Some (paired 10 alice))
             (Some (paired 10 bob)) [] true false (Some 1))
          [].

(** The same session seen from Bob's client. *)
Definition bobs_view : World :=
  mkWorld (db chatting)
          (mkClient (Some session10) (Some (paired 10 bob))
             (Some (paired 10 alice)) [] true false (Some 2))
          [].

(** Bob skips at time 5000: the session is ended in the store; Alice's
    client has not noticed and still holds it. *)
Definition session10_ended : ChatSession :=
  mkSession 10 text ended 1000 (Some 5000) 5000.

Definition left_behind : World :=
  mkWorld (db (step (at_time 5000 11) SkipChat bobs_view)) (ui chatting) [].

(** Bob's heartbeats stop instead.  Alice's client beats at 40000 and a
    sweep at 40000 marks Bob offline; Alice is online, so the sweep leaves
    session 10 matched. *)
Definition bob_gone : Participant :=
  mkParticipant 2 (Some 10) (js "anon") male female false 20 None 1000 false.

Definition partner_lost : World :=
  step (at_time 40000 0) Reaper (step (at_time 40000 0) HeartbeatTick chatting).

(** A pool for the matcher at time 100000: a seeker, a participant whose
    heartbeats stopped long ago, and two candidates who joined at the same
    instant, the one with the larger id first in store order. *)
Definition seeker : Participant := person 1 any any 10 100000.
Definition ghost : Participant := person 2 any any 5 0.
Definition late_id : Participant := person 9 any any 50 100000.
Definition small_id : Participant := person 3 any any 50 100000.

Definition pool : World :=
  mkWorld (mkDB [] [seeker; ghost; late_id; small_id] []) idle [].
Definition pool_swapped : World :=
  mkWorld (mkDB [] [seeker; ghost; small_id; late_id] []) idle [].

(** Two messages of session 10 sent at the same instant, the one with the
    larger id first in store order. *)
Definition msg (i : Id) (t : Timestamp) : Message :=
  mkMessage i 10 1 (js "hi") t.

Definition tied_messages : DB :=
  mkDB [session10] [paired 10 alice; paired 10 bob] [msg 2 7; msg 1 7].

(** *** The claims in the words of the specification *)

(** 4.3: the bind is guarded by [seeking = true]; when a participant of the
    pair is no longer seeking, the pairing fails and changes nothing. *)
Definition claimed_guarded_pairing (o : Oracle) (a b : Participant)
    (ty : ChatType) (w : World) : Prop :=
  (exists p, In p (participants (db w)) /\
             (p_id p = p_id a \/ p_id p = p_id b) /\ p_is_waiting p = false) ->
  result (createMatchedSession o a b ty) w = Normal None /\
  db (run (createMatchedSession o a b ty) w) = db w.

(** 4.2: the search is a read-only query. *)
Definition claimed_read_only (o : Oracle) (me : Participant) (w : World) : Prop :=
  db (run (findOnlineCompatiblePartner o me text) w) = db w.

(** 4.2: the answer is the earliest-joined surviving candidate, ties broken
    by identifier. *)
Definition claimed_first_by_joined_then_id (o : Oracle) (me : Participant)
    (w : World) : Prop :=
  forall p, result (findOnlineCompatiblePartner o me text) w = Normal (Some p) ->
  forall q, In q (participants (db w)) ->
            eligible (now o) me q = true -> mutually_compatible me q = true ->
            p_joined_at p < p_joined_at q \/
            (p_joined_at p = p_joined_at q /\ p_id p <= p_id q).

(** 8, message ordering: the history is non-decreasing by the key
    (sent timestamp, identifier). *)
Definition claimed_history_by_key (sid : Id) (d : DB) : Prop :=
  Sorted key_le (history sid d).

(** The change feed delivers [feed] to the messages subscription, one
    event after the other, repeats included. *)
Definition deliver (feed : list Message) (w : World) : World :=
  fold_left (fun acc m => run (onMessageInsert m) acc) feed w.


(** A message of 501 letters. *)
Definition long_content : jsstring := repeat 120%N 501.

(** 4.4 (b): after a skip the other bound participant is released to
    [seeking = true]. *)
Definition claimed_skip_releases_partner (o : Oracle) (w : World) : Prop :=
  forall s me q,
    currentSession (ui w) = Some s -> currentParticipant (ui w) = Some me ->
    In q (participants (db w)) -> p_session_id q = Some (cs_id s) ->
    p_id q <> p_id me ->
    exists q', In q' (participants (db (run (skipChat o) w))) /\
               p_id q' = p_id q /\ p_is_waiting q' = true.

(** The client right after the skip was written to the store. *)
Definition searching_again (c : Client) (me' : Participant) : Client :=
  mkClient None (Some me') None [] false true (heartbeatInterval c).

(** The client after a skip that found a new partner at once. *)
Definition reconnected (c : Client) (me' : Participant) (ns : ChatSession)
    (f : Participant) : Client :=
  mkClient (Some ns) (Some me') (Some f) [] true false (heartbeatInterval c).

(** The row [startChat] inserts. *)
Definition joined (o : Oracle) (name : jsstring) (g pg : GenderType)
  : Participant :=
  mkParticipant (uuid_participant o) None (trim name) g pg true (now o) None
    (now o) true.

(** The client after [startChat] gave up: not searching, no heartbeat. *)
Definition gave_up (c : Client) (cp : option Participant) : Client :=
  mkClient (currentSession c) cp (partner c) (messages_state c)
    (isConnected c) false None.

(** Dave and Erin, who arrive in the lobby later on. *)
Definition dave_name : jsstring := js " dave ".
Definition dave : Participant := joined (failing BindParticipants 2000 50) dave_name male female.

(** An ended row is kept: its successor is ended too and, when [exact],
    is the very same row. *)
Definition row_kept (exact : bool) (r r' : ChatSession) : Prop :=
  cs_status r' = ended /\ (exact = true -> r' = r).

Definition ended_kept (exact : bool) (d d' : DB) : Prop :=
  forall sid r, find_session sid d = Some r -> cs_status r = ended ->
  exists r', find_session sid d' = Some r' /\ row_kept exact r r'.

Definition keeps_ended (exact : bool) {A : Type} (m : M A) : Prop :=
  forall w, ended_kept exact (db w) (db (snd (m w))).

(** 5: ending an already-ended session is a no-op; here for stop. *)
Definition claimed_end_is_noop (o : Oracle) (w : World) : Prop :=
  forall s r, currentSession (ui w) = Some s ->
              find_session (cs_id s) (db w) = Some r -> cs_status r = ended ->
              find_session (cs_id s) (db (step o StopChat w)) = Some r.

(** ** The pages that call the hook *)

(** ChatRoom.tsx: the local state its handlers write ([lastMessageTime] is
    written by a display effect only). *)
Record ChatRoomState := mkChatRoom {
  messageInput : jsstring;
  showSkipDialog : bool;
  isTyping : bool
}.

(** handleInputChange: a value longer than 500 code units is not taken. *)
Definition handleInputChange (value : jsstring) (r : ChatRoomState)
  : ChatRoomState :=
  if (List.length value <=? 500)%nat
  then mkChatRoom value (showSkipDialog r) (0 <? List.length value)%nat
  else r.

(** handleSendMessage: [onSendMessage] is the hook's [sendMessage]. *)
Definition handleSendMessage (o : Oracle) (r : ChatRoomState) : M ChatRoomState :=
  c <- get_ui;;
  let trimmedMessage := trim (messageInput r) in
  if negb (List.length trimmedMessage =? 0)%nat && isConnected c &&
     (List.length trimmedMessage <=? 500)%nat
  then
    sendMessage o trimmedMessage;;
    ret (mkChatRoom [] (showSkipDialog r) false)
  else ret r.

(** handleSkip: the dialog closes and [onSkip] is the hook's [skipChat]. *)
Definition handleSkip (o : Oracle) (r : ChatRoomState) : M ChatRoomState :=
  skipChat o;;
  ret (mkChatRoom (messageInput r) false (isTyping r)).

(** UserSetup.tsx: the form and its start button. *)
Record UserSetupState := mkUserSetup {
  us_name : jsstring;
  us_gender : GenderType;
  us_preferredGender : GenderType
}.

(** Index page: [onStart] of the form is [handleUserSetup]. *)
Inductive AppState := welcome | setup | chat.

Record IndexState := mkIndex {
  appState : AppState;
  selectedChatType : ChatType
}.

Definition handleUserSetup (o : Oracle) (name : jsstring)
    (gender preferredGender : GenderType) (i : IndexState) : M IndexState :=
  startChat o name gender preferredGender (selectedChatType i);;
  ret (mkIndex chat (selectedChatType i)).

Definition handleStart (o : Oracle) (f : UserSetupState) (i : IndexState)
  : M IndexState :=
  if negb (List.length (trim (us_name f)) =? 0)%nat
  then handleUserSetup o (trim (us_name f)) (us_gender f) (us_preferredGender f) i
  else ret i.

Definition handleStop (o : Oracle) (i : IndexState) : M IndexState :=
  stopChat o;;
  ret (mkIndex welcome (selectedChatType i)).

(** ** The first revision of the hook (hooks/useChat.ts)

    It has no heartbeat, no sweep and no rollback; the columns [is_online]
    and [last_seen] of a row it inserts take their defaults. *)

(** UPDATE participants SET session_id = sid, is_waiting = false
    WHERE id IN (a, b). *)
Definition legacy_bind_row (sid : Id) (p : Participant) : Participant :=
  mkParticipant (p_id p) (Some sid) (p_name p) (p_gender p)
    (p_preferred_gender p) false (p_joined_at p) (p_left_at p)
    (p_last_seen p) (p_is_online p).

Definition legacy_bind_participants (sid a b : Id) : Request unit := fun d =>
  (Data tt,
   mkDB (chat_sessions d)
        (map (fun p => if (p_id p =? a) || (p_id p =? b)
                       then legacy_bind_row sid p else p)
             (participants d))
        (messages d)).

(** UPDATE participants SET session_id = NULL, is_waiting = true,
    left_at = <now> WHERE id = pid. *)
Definition legacy_requeue_row (t : Timestamp) (p : Participant) : Participant :=
  mkParticipant (p_id p) None (p_name p) (p_gender p)
    (p_preferred_gender p) true (p_joined_at p) (Some t)
    (p_last_seen p) (p_is_online p).

Definition legacy_requeue_participant (o : Oracle) (pid : Id) : Request unit :=
  fun d =>
  (Data tt,
   mkDB (chat_sessions d)
        (map (fun p => if p_id p =? pid then legacy_requeue_row (now o) p else p)
             (participants d))
        (messages d)).

(** UPDATE participants SET is_waiting = false, left_at = <now>
    WHERE id = pid. *)
Definition legacy_leave_row (t : Timestamp) (p : Participant) : Participant :=
  mkParticipant (p_id p) (p_session_id p) (p_name p) (p_gender p)
    (p_preferred_gender p) false (p_joined_at p) (Some t)
    (p_last_seen p) (p_is_online p).

Definition legacy_leave_participant (o : Oracle) (pid : Id) : Request unit :=
  fun d =>
  (Data tt,
   mkDB (chat_sessions d)
        (map (fun p => if p_id p =? pid then legacy_leave_row (now o) p else p)
             (participants d))
        (messages d)).

(** SELECT * FROM participants WHERE is_waiting AND id <> me
    AND (preferred_gender = 'any' OR preferred_gender = <gender>)
    AND (gender = 'any' OR gender = <preferredGender>) LIMIT 1;
    there is no ORDER BY, the first row in store order is taken. *)
Definition legacy_accepts (me : Id) (gender preferredGender : GenderType)
    (p : Participant) : bool :=
  p_is_waiting p && negb (p_id p =? me) &&
  (GenderType_eqb (p_preferred_gender p) any ||
   GenderType_eqb (p_preferred_gender p) gender) &&
  (GenderType_eqb (p_gender p) any ||
   GenderType_eqb (p_gender p) preferredGender).

Definition legacy_select_waiting (me : Id) (gender preferredGender : GenderType)
  : Request (list Participant) := fun d =>
  (Data (firstn 1 (filter (legacy_accepts me gender preferredGender)
                     (participants d))), d).

(** SELECT * FROM participants WHERE session_id = sid AND id <> me. *)
Definition legacy_select_partners (sid me : Id) : Request (list Participant) :=
  fun d =>
  (Data (filter (fun p => refers sid (p_session_id p) && negb (p_id p =? me))
           (participants d)), d).

Definition legacy_startChat (o : Oracle) (name : jsstring)
    (gender preferredGender : GenderType) (chatType : ChatType) : M unit :=
  try_catch
    (setIsSearching true;;
     r <- await o InsertParticipant
            (insert_participant o name gender preferredGender true true (now o));;
     match r with
     | Error participantError => throw (StoreExn participantError)
     | Data participant =>
         setCurrentParticipant (Some participant);;
         rs <- await o SelectCandidates
                 (legacy_select_waiting (p_id participant) gender preferredGender);;
         match rs with
         | Error searchError => throw (StoreExn searchError)
         | Data (waitingPartner :: _) =>
             rsn <- await o InsertSession (insert_session o chatType matched);;
             match rsn with
             | Error sessionError => throw (StoreExn sessionError)
             | Data session =>
                 _ <- await o BindParticipants
                        (legacy_bind_participants (cs_id session)
                           (p_id participant) (p_id waitingPartner));;
                 setCurrentSession (Some session);;
                 setPartner (Some waitingPartner);;
                 setIsConnected true;;
                 setIsSearching false;;
                 toast (Connected (p_name waitingPartner))
             end
         | Data [] => toast Searching
         end
     end)
    (fun _ =>
       setIsSearching false;;
       toast StartFailed).

Definition legacy_sendMessage (o : Oracle) (content : jsstring) : M unit :=
  c <- get_ui;;
  match currentSession c, currentParticipant c with
  | Some session, Some participant =>
      try_catch
        (r <- await o InsertMessage
                (insert_message o (cs_id session) (p_id participant) content);;
         match r with
         | Error e => throw (StoreExn e)
         | Data _ => ret tt
         end)
        (fun _ => toast MessageFailed)
  | _, _ => ret tt
  end.

(** skipChat of the first revision; it answers the participant for whom the
    one-second timer is armed. *)
Definition legacy_skipChat (o : Oracle) : M (option Participant) :=
  c <- get_ui;;
  match currentSession c, currentParticipant c with
  | Some session, Some participant =>
      try_catch
        (_ <- await o UpdateSession (end_session o (cs_id session));;
         _ <- await o UpdateParticipant
                (legacy_requeue_participant o (p_id participant));;
         setCurrentSession None;;
         setPartner None;;
         setMessages (fun _ => []);;
         setIsConnected false;;
         setIsSearching true;;
         ret (Some participant))
        (fun _ => toast SkipFailed;; ret None)
  | _, _ => ret None
  end.

(** The timer fires: [startChat] is called again with the old name and
    genders, for a text chat. *)
Definition legacy_skipTimer (o : Oracle) (p : Participant) : M unit :=
  legacy_startChat o (p_name p) (p_gender p) (p_preferred_gender p) text.

Definition legacy_stopChat (o : Oracle) : M unit :=
  c <- get_ui;;
  match currentParticipant c with
  | Some participant =>
      try_catch
        (match currentSession c with
         | Some session =>
             _ <- await o UpdateSession (end_session o (cs_id session));;
             ret tt
         | None => ret tt
         end;;
         _ <- await o UpdateParticipant
                (legacy_leave_participant o (p_id participant));;
         setCurrentSession None;;
         setCurrentParticipant None;;
         setPartner None;;
         setMessages (fun _ => []);;
         setIsConnected false;;
         setIsSearching false)
        (fun _ => ret tt)
  | None => ret tt
  end.

(** participants UPDATE, filter id=eq.<own id>; subscribed while the client
    has a participant. *)
Definition legacy_onParticipantUpdate (o : Oracle) (updatedParticipant : Participant)
  : M unit :=
  c <- get_ui;;
  match currentParticipant c with
  | Some me =>
      if negb (p_id updatedParticipant =? p_id me) then ret tt
      else
        setCurrentParticipant (Some updatedParticipant);;
        match p_session_id updatedParticipant, currentSession c with
        | Some sid, None =>
            rs <- await o SelectSession (select_session sid);;
            rp <- await o SelectPartners (legacy_select_partners sid (p_id me));;
            match rs with
            | Data session =>
                setCurrentSession (Some session);;
                setIsConnected true;;
                setIsSearching false
            | Error _ => ret tt
            end;;
            match rp with
            | Data (p0 :: _) =>
                setPartner (Some p0);;
                toast (Connected (p_name p0))
            | _ => ret tt
            end
        | _, _ => ret tt
        end
  | None => ret tt
  end.

(** messages INSERT, filter session_id=eq.<current session>: the new
    message is appended to what is shown. *)
Definition legacy_onMessageInsert (newMessage : Message) : M unit :=
  c <- get_ui;;
  match currentSession c with
  | Some session =>
      if m_session_id newMessage =? cs_id session
      then setMessages (fun prev => prev ++ [newMessage])
      else ret tt
  | None => ret tt
  end.

Definition legacy_loadMessages (o : Oracle) : M unit :=
  c <- get_ui;;
  match currentSession c with
  | Some session =>
      r <- await o SelectMessages (select_messages (cs_id session));;
      match r with
      | Data data => setMessages (fun _ => data)
      | Error _ => ret tt
      end
  | None => ret tt
  end.

Definition legacy_deliver (feed : list Message) (w : World) : World :=
  fold_left (fun acc m => run (legacy_onMessageInsert m) acc) feed w.

(** ** Invariants of the store *)

(** Every step of [m] relates the store before to the store after by [R]. *)
Definition steps (R : DB -> DB -> Prop) {A : Type} (m : M A) : Prop :=
  forall w, R (db w) (db (snd (m w))).

Definition seeking_unbound (d : DB) : Prop :=
  forall p, In p (participants d) ->
            p_is_waiting p = true -> p_session_id p = None.

Definition offline_idle (d : DB) : Prop :=
  forall p, In p (participants d) ->
            p_is_online p = false -> p_is_waiting p = false.

Definition unique_keys (d : DB) : Prop :=
  NoDup (map cs_id (chat_sessions d)) /\
  NoDup (map p_id (participants d)) /\
  NoDup (map m_id (messages d)).

Definition well_formed (d : DB) : Prop :=
  unique_keys d /\ referential_integrity d.

(** From a well-formed store to a well-formed store in which nothing that
    was stored is gone: the messages are the old ones followed by new ones,
    and so are the keys of participants and sessions. *)
Definition evolves (d d' : DB) : Prop :=
  well_formed d ->
  well_formed d' /\
  (exists l, messages d' = messages d ++ l) /\
  (exists l, map p_id (participants d') = map p_id (participants d) ++ l) /\
  (exists l, map cs_id (chat_sessions d') = map cs_id (chat_sessions d) ++ l).

Definition keeps (I : DB -> Prop) (d d' : DB) : Prop := I d -> I d'.

(** [P] holds of every participant row. *)
Definition rows_all (P : Participant -> Prop) (d : DB) : Prop :=
  forall p, In p (participants d) -> P p.

Definition empty_store : DB := mkDB [] [] [].

(** One move of the system: some client, in whatever local state [c] it
    is, performs an action on the shared store at the instant of [o]. *)
Record Move := mkMove {
  mv_oracle : Oracle;
  mv_client : Client;
  mv_action : Action
}.

Definition move (d : DB) (mv : Move) : DB :=
  db (step (mv_oracle mv) (mv_action mv) (mkWorld d (mv_client mv) [])).

(** A run of the system: the moves of all clients, interleaved. *)
Definition run_moves (tr : list Move) (d : DB) : DB := fold_left move tr d.

(** The row the first revision's [startChat] inserts: the name is stored
    as given. *)
Definition legacy_joined (o : Oracle) (name : jsstring) (g pg : GenderType)
  : Participant :=
  mkParticipant (uuid_participant o) None name g pg true (now o) None (now o)
    true.

(** The first revision's client once [startChat] has a participant. *)
Definition legacy_started (c : Client) (p : Participant) (searching : bool)
  : Client :=
  mkClient (currentSession c) (Some p) (partner c) (messages_state c)
    (isConnected c) searching (heartbeatInterval c).

(** The store does not take the insert of a message. *)
Definition message_refused (o : Oracle) (s : ChatSession) (me : Participant)
    (c : jsstring) (d : DB) : bool :=
  fails o InsertMessage || has_nul c || has_message (uuid_message o) d ||
  negb (has_session (cs_id s) d && has_participant (p_id me) d).


(** No move of the run has the bind of a pairing carried out and reported
    as failed. *)
Definition no_lost_bind (tr : list Move) : Prop :=
  Forall (fun mv => lost (mv_oracle mv) BindParticipants = false) tr.

(** 4.4 (a): a stop releases both bound participants, with
    [seeking = false]: afterwards neither refers to the session. *)
Definition claimed_stop_releases_both (o : Oracle) (w : World) : Prop :=
  forall s q,
    currentSession (ui w) = Some s ->
    In q (participants (db w)) -> p_session_id q = Some (cs_id s) ->
    exists q', In q' (participants (db (run (stopChat o) w))) /\
               p_id q' = p_id q /\ p_session_id q' = None /\
               p_is_waiting q' = false.

(** 4.4 (a): when a bound participant stops, its session is ended. *)
Definition claimed_stop_ends_session (o : Oracle) (w : World) : Prop :=
  forall me row sid,
    currentParticipant (ui w) = Some me ->
    In row (participants (db w)) -> p_id row = p_id me ->
    p_session_id row = Some sid ->
    session_status (db (run (stopChat o) w)) sid = Some ended.

(** Session 10 was made by Bob's side; Alice's row is bound to it, her
    client has not been told yet and still waits. *)
Definition unaware : World :=
  mkWorld (db chatting)
          (mkClient None (Some alice) None [] false true (Some 1))
          [].

(** * Properties *)

(** ** Sorting *)

Section SortFacts.
Context {A : Type} (key : A -> Z).

Lemma insert_by_perm x l : Permutation (x :: l) (insert_by key x l).
Proof.
  induction l as [|y r IH]; simpl; [reflexivity|].
  destruct (key x <=? key y); [reflexivity|].
  rewrite perm_swap. now constructor.
Qed.

Lemma sort_by_perm l : Permutation l (sort_by key l).
Proof.
  induction l as [|x r IH]; simpl; [constructor|].
  rewrite <- insert_by_perm. now constructor.
Qed.

Lemma insert_by_ordered x l :
  key_ordered key l -> key_ordered key (insert_by key x l).
Proof.
  unfold key_ordered.
  induction l as [|y r IH]; simpl; intros Hs.
  - repeat constructor.
  - destruct (key x <=? key y) eqn:E.
    + apply Z.leb_le in E. constructor; [exact Hs|].
      inversion Hs as [|? ? _ Hall]; subst.
      constructor; [exact E|].
      eapply Forall_impl; [|exact Hall]. simpl; intros; lia.
    + apply Z.leb_gt in E.
      inversion Hs as [|? ? Hr Hall]; subst.
      constructor; [now apply IH|].
      rewrite Forall_forall in *. intros z Hz.
      apply (Permutation_in _ (Permutation_sym (insert_by_perm x r))) in Hz.
      destruct Hz as [<-|Hz]; [lia|now apply Hall].
Qed.

Lemma sort_by_ordered l : key_ordered key (sort_by key l).
Proof.
  induction l as [|x r IH]; simpl; [constructor|].
  now apply insert_by_ordered.
Qed.

Lemma sort_by_In x l : In x (sort_by key l) <-> In x l.
Proof.
  split; intros H.
  - eapply Permutation_in; [apply Permutation_sym, sort_by_perm|exact H].
  - eapply Permutation_in; [apply sort_by_perm|exact H].
Qed.

Lemma In_firstn (x : A) n l : In x (firstn n l) -> In x l.
Proof.
  intros H. rewrite <- (firstn_skipn n l). apply in_or_app. now left.
Qed.

Lemma key_ordered_firstn n l : key_ordered key l -> key_ordered key (firstn n l).
Proof.
  unfold key_ordered. revert l.
  induction n as [|n IH]; intros [|x r] Hs; simpl; try constructor.
  - inversion Hs; subst. now apply IH.
  - inversion Hs as [|? ? _ Hall]; subst.
    rewrite Forall_forall in *. intros z Hz.
    apply Hall. eapply In_firstn. exact Hz.
Qed.

Lemma key_ordered_filter f l : key_ordered key l -> key_ordered key (filter f l).
Proof.
  unfold key_ordered.
  induction l as [|x r IH]; simpl; intros Hs; [constructor|].
  inversion Hs as [|? ? Hr Hall]; subst.
  destruct (f x); [|now apply IH].
  constructor; [now apply IH|].
  rewrite Forall_forall in *. intros z Hz.
  apply filter_In in Hz. now apply Hall.
Qed.

Lemma key_ordered_hd x l :
  key_ordered key l -> hd_error l = Some x ->
  forall y, In y l -> key x <= key y.
Proof.
  unfold key_ordered. intros Hs Hh y Hy.
  destruct l as [|z r]; [discriminate|].
  simpl in Hh. injection Hh as ->.
  inversion Hs as [|? ? _ Hall]; subst.
  destruct Hy as [<-|Hy]; [lia|].
  rewrite Forall_forall in Hall. now apply Hall.
Qed.
End SortFacts.

(** ** The reaper *)

Lemma stale_offline_row t p : stale t (offline_row p) = false.
Proof. unfold stale. simpl. apply andb_false_r. Qed.

Lemma mark_offline_idem t ps :
  mark_offline t (mark_offline t ps) = mark_offline t ps.
Proof.
  unfold mark_offline. rewrite map_map. apply map_ext. intros p.
  destruct (stale t p) eqn:E.
  - now rewrite stale_offline_row.
  - now rewrite E.
Qed.

Lemma reap_sessions_idem t ps ss :
  reap_sessions t ps (reap_sessions t ps ss) = reap_sessions t ps ss.
Proof.
  unfold reap_sessions. rewrite map_map. apply map_ext. intros s.
  destruct (SessionStatus_eqb (cs_status s) matched &&
            group_all_offline ps (cs_id s)) eqn:E.
  - reflexivity.
  - now rewrite E.
Qed.

Lemma cleanup_idem t d :
  cleanup_offline_participants t (cleanup_offline_participants t d) =
  cleanup_offline_participants t d.
Proof.
  unfold cleanup_offline_participants. simpl.
  now rewrite mark_offline_idem, reap_sessions_idem.
Qed.

Lemma SessionStatus_eqb_eq a b : SessionStatus_eqb a b = true <-> a = b.
Proof. destruct a, b; simpl; split; congruence. Qed.

Lemma refers_eq sid r : refers sid r = true <-> r = Some sid.
Proof.
  destruct r as [x|]; simpl; [|split; congruence].
  rewrite Z.eqb_eq. split; congruence.
Qed.

Lemma group_all_offline_spec ps sid :
  group_all_offline ps sid = true <->
  (exists q, In q ps /\ p_session_id q = Some sid) /\
  (forall q, In q ps -> p_session_id q = Some sid -> p_is_online q = false).
Proof.
  unfold group_all_offline.
  rewrite andb_true_iff, negb_true_iff, Nat.eqb_neq, forallb_forall.
  split.
  - intros [Hne Hall]. split.
    + destruct (filter _ ps) as [|q r] eqn:E; [now elim Hne|].
      exists q. rewrite <- refers_eq.
      apply (filter_In (fun p => refers sid (p_session_id p))).
      rewrite E. now left.
    + intros q Hq Hs. apply negb_true_iff, Hall.
      apply filter_In. split; [exact Hq|now apply refers_eq].
  - intros [[q [Hq Hs]] Hall]. split.
    + intros Hlen. apply length_zero_iff_nil in Hlen.
      assert (Hin : In q (filter (fun p => refers sid (p_session_id p)) ps))
        by (apply filter_In; split; [exact Hq|now apply refers_eq]).
      rewrite Hlen in Hin. exact Hin.
    + intros x Hx. apply filter_In in Hx. destruct Hx as [Hx Hr].
      apply negb_true_iff, Hall; [exact Hx|now apply refers_eq].
Qed.

Lemma stale_spec t p : stale t p = true <-> liveness_expired t p.
Proof.
  unfold stale, liveness_expired.
  rewrite andb_true_iff, Z.ltb_lt. tauto.
Qed.

Lemma abandoned_spec ps s :
  SessionStatus_eqb (cs_status s) matched && group_all_offline ps (cs_id s) = true
  <-> abandoned ps s.
Proof.
  unfold abandoned.
  rewrite andb_true_iff, SessionStatus_eqb_eq, group_all_offline_spec. tauto.
Qed.

Lemma Forall2_map_self {A : Type} (R : A -> A -> Prop) (f : A -> A) l :
  (forall x, R x (f x)) -> Forall2 R l (map f l).
Proof. intros H. induction l; simpl; constructor; auto. Qed.

(** C8.  One run of the sweep at time [now] (1) turns [is_online] and
    [is_waiting] off on every online participant whose [last_seen] is older
    than 30 s and leaves every other participant row as it is, (2) ends
    (status, [ended_at], [updated_at]) every matched session that has bound
    participants which are all offline after (1) and leaves every other
    session row as it is, (3) leaves the messages, the client state and the
    notices alone; and the entry point is idempotent: a second run at the
    same instant, whether or not the store is reachable, changes nothing. *)
Theorem reaper_sweep_idempotent (o : Oracle) (w : World) :
  let t := now o in
  let d := db w in
  let d' := cleanup_offline_participants t d in
  Forall2 (fun p p' =>
             (liveness_expired t p ->
              p' = mkParticipant (p_id p) (p_session_id p) (p_name p)
                     (p_gender p) (p_preferred_gender p) false (p_joined_at p)
                     (p_left_at p) (p_last_seen p) false) /\
             (~ liveness_expired t p -> p' = p))
          (participants d) (participants d') /\
  Forall2 (fun s s' =>
             (abandoned (participants d') s ->
              s' = mkSession (cs_id s) (cs_session_type s) ended
                     (cs_created_at s) (Some t) t) /\
             (~ abandoned (participants d') s -> s' = s))
          (chat_sessions d) (chat_sessions d') /\
  messages d' = messages d /\
  run (reaper o) w =
    (if fails o RpcCleanup then w else mkWorld d' (ui w) (toasts w)) /\
  run (reaper o) (run (reaper o) w) = run (reaper o) w.
Proof.
  cbv zeta. repeat split.
  - unfold cleanup_offline_participants, mark_offline; simpl.
    apply Forall2_map_self. intros p.
    destruct (stale (now o) p) eqn:E.
    + split; [reflexivity|]. intros H. elim H. now apply stale_spec.
    + split; [|reflexivity]. intros H. apply stale_spec in H. congruence.
  - unfold cleanup_offline_participants, reap_sessions; simpl.
    apply Forall2_map_self. intros s.
    match goal with |- context [if ?c then _ else _] => destruct c eqn:E end.
    + split; [reflexivity|]. intros H. elim H. now apply abandoned_spec.
    + split; [|reflexivity]. intros H. apply abandoned_spec in H.
      rewrite H in E. discriminate.
  - unfold run, reaper, bind, await, rpc_cleanup.
    destruct (fails o RpcCleanup); reflexivity.
  - unfold run, reaper, bind, await, rpc_cleanup.
    destruct (fails o RpcCleanup) eqn:F; simpl; rewrite ?F; simpl;
      [reflexivity|].
    now rewrite cleanup_idem.
Qed.

(** ** The matcher *)

Lemma hd_error_filter_none {A : Type} (f : A -> bool) l :
  hd_error (filter f l) = None <-> forall x, In x l -> f x = false.
Proof.
  induction l as [|a r IH]; simpl.
  - split; [intros _ x []|reflexivity].
  - destruct (f a) eqn:E; simpl.
    + split; [discriminate|]. intros H. specialize (H a (or_introl eq_refl)).
      congruence.
    + rewrite IH. split.
      * intros H x [<-|Hx]; auto.
      * intros H x Hx. apply H. now right.
Qed.

Lemma hd_error_In {A : Type} (x : A) l : hd_error l = Some x -> In x l.
Proof. destruct l; simpl; [discriminate|]. intros [= ->]. now left. Qed.

Lemma GenderType_eqb_eq a b : GenderType_eqb a b = true <-> a = b.
Proof. destruct a, b; simpl; split; congruence. Qed.

Lemma mutually_compatible_spec me p :
  mutually_compatible me p = true <->
  (p_preferred_gender p = any \/ p_preferred_gender p = p_gender me) /\
  (p_preferred_gender me = any \/ p_preferred_gender me = p_gender p).
Proof.
  unfold mutually_compatible.
  now rewrite andb_true_iff, !orb_true_iff, !GenderType_eqb_eq.
Qed.

Lemma eligible_spec t me p :
  eligible t me p = true <->
  p_is_waiting p = true /\ p_is_online p = true /\ p_id p <> p_id me /\
  t - 30000 <= p_last_seen p.
Proof.
  unfold eligible.
  rewrite !andb_true_iff, negb_true_iff, Z.eqb_neq, Z.leb_le. tauto.
Qed.

Lemma candidate_window_In t me d p :
  In p (candidate_window t me d) ->
  In p (participants d) /\ eligible t me p = true.
Proof.
  unfold candidate_window. intros H.
  apply In_firstn, sort_by_In, filter_In in H. exact H.
Qed.

Lemma candidate_window_length t me d :
  (List.length (candidate_window t me d) <= 20)%nat.
Proof. unfold candidate_window. apply firstn_le_length. Qed.

Lemma ordered_split {A : Type} (key : A -> Z) n l :
  key_ordered key l ->
  forall x y, In x (firstn n l) -> In y (skipn n l) -> key x <= key y.
Proof.
  unfold key_ordered. revert l.
  induction n as [|n IH]; intros [|a r] Hs x y Hx Hy; simpl in *;
    try contradiction.
  inversion Hs as [|? ? Hr Hall]; subst.
  destruct Hx as [<-|Hx].
  - rewrite Forall_forall in Hall. apply Hall.
    rewrite <- (firstn_skipn n r). apply in_or_app. now right.
  - now apply (IH r).
Qed.

Lemma candidate_window_earliest t me d p q :
  In p (candidate_window t me d) ->
  In q (participants d) -> eligible t me q = true ->
  ~ In q (candidate_window t me d) ->
  p_joined_at p <= p_joined_at q.
Proof.
  unfold candidate_window. intros Hp Hq He Hn.
  set (l := sort_by p_joined_at (filter (eligible t me) (participants d))) in *.
  assert (Hl : In q l) by (apply sort_by_In, filter_In; now split).
  rewrite <- (firstn_skipn 20 l) in Hl.
  apply in_app_or in Hl. destruct Hl as [Hl|Hl]; [contradiction|].
  eapply ordered_split; eauto. apply sort_by_ordered.
Qed.

(** What one search does to the world and what it answers. *)
Lemma findOnlineCompatiblePartner_run o me ty w :
  findOnlineCompatiblePartner o me ty w =
  let d1 := if fails o RpcCleanup then db w
            else cleanup_offline_participants (now o) (db w) in
  (Normal (if fails o SelectCandidates then None
           else hd_error (filter (mutually_compatible me)
                            (candidate_window (now o) me d1))),
   mkWorld d1 (ui w) (toasts w)).
Proof.
  unfold findOnlineCompatiblePartner, try_catch, bind, await, rpc_cleanup,
    select_candidates, ret.
  destruct w as [d c ts]; simpl.
  destruct (fails o RpcCleanup); simpl;
    destruct (fails o SelectCandidates); simpl; try reflexivity.
  - destruct (candidate_window (now o) me d) eqn:E; simpl; reflexivity.
  - destruct (candidate_window (now o) me
                (cleanup_offline_participants (now o) d)) eqn:E;
      simpl; reflexivity.
Qed.

(** The scenario of the specification: Alice (female, wants male) searches
    the lobby; Bob (male, wants female) is the earliest compatible seeker,
    Carol is not compatible. *)
Example alice_finds_bob :
  result (findOnlineCompatiblePartner (at_time 1000 10) alice text) lobby
  = Normal (Some bob).
Proof. reflexivity. Qed.

(** A stale candidate is never answered. *)
Example ghost_is_not_answered :
  result (findOnlineCompatiblePartner (at_time 100000 50) seeker text)
    (mkWorld (mkDB [] [seeker; ghost] []) idle [])
  = Normal None.
Proof. reflexivity. Qed.

(** The window is the first 20 of the eligible rows in the order of their
    joining: it and the rows left out make up the eligible rows, and it is
    as long as it can be. *)
Lemma candidate_window_complete t me d :
  let all := filter (eligible t me) (participants d) in
  let win := candidate_window t me d in
  key_ordered p_joined_at win /\
  List.length win = Nat.min 20 (List.length all) /\
  exists rest,
    Permutation (win ++ rest) all /\
    forall p q, In p win -> In q rest -> p_joined_at p <= p_joined_at q.
Proof.
  cbv zeta. unfold candidate_window.
  set (all := filter (eligible t me) (participants d)).
  pose proof (sort_by_perm p_joined_at all) as Hperm.
  split; [apply key_ordered_firstn, sort_by_ordered|].
  split.
  { rewrite length_firstn. f_equal. symmetry. now apply Permutation_length. }
  exists (skipn 20 (sort_by p_joined_at all)). split.
  - rewrite firstn_skipn. now apply Permutation_sym.
  - intros p q Hp Hq. eapply ordered_split; eauto. apply sort_by_ordered.
Qed.

(** C2, as the code has it.  A search first runs the sweep
    [cleanup_offline_participants] on the store (its only mutation), then
    looks at a window of rows: the rows that are waiting, online, not the
    seeker and seen within the last 30 s, in the order of their joining,
    all of them when they are 20 or fewer and else 20 of them such that no
    row left out joined earlier than a row of the window.  It
    answers none exactly when the select fails or no row of the window is
    mutually compatible; otherwise it answers a row of the window that is
    mutually compatible with the seeker and joined no later than any other
    mutually compatible row of the window.  It never throws. *)
Theorem findOnlineCompatiblePartner_spec
    (o : Oracle) (me : Participant) (ty : ChatType) (w : World) :
  let d1 := if fails o RpcCleanup then db w
            else cleanup_offline_participants (now o) (db w) in
  let win := candidate_window (now o) me d1 in
  let all := filter (eligible (now o) me) (participants d1) in
  let search := findOnlineCompatiblePartner o me ty in
  run search w = mkWorld d1 (ui w) (toasts w) /\
  List.length win = Nat.min 20 (List.length all) /\
  key_ordered p_joined_at win /\
  (exists rest,
     Permutation (win ++ rest) all /\
     forall p q, In p win -> In q rest -> p_joined_at p <= p_joined_at q) /\
  ((List.length all <= 20)%nat ->
   forall q, In q (participants d1) -> eligible (now o) me q = true ->
             In q win) /\
  (forall p, In p win ->
     In p (participants d1) /\ p_is_waiting p = true /\ p_is_online p = true /\
     p_id p <> p_id me /\ now o - 30000 <= p_last_seen p) /\
  (forall p q, In p win -> In q (participants d1) ->
     eligible (now o) me q = true -> ~ In q win ->
     p_joined_at p <= p_joined_at q) /\
  (exists r, result search w = Normal r) /\
  (result search w = Normal None <->
     fails o SelectCandidates = true \/
     forall p, In p win -> mutually_compatible me p = false) /\
  (forall p, result search w = Normal (Some p) ->
     In p win /\
     (p_preferred_gender p = any \/ p_preferred_gender p = p_gender me) /\
     (p_preferred_gender me = any \/ p_preferred_gender me = p_gender p) /\
     forall q, In q win -> mutually_compatible me q = true ->
               p_joined_at p <= p_joined_at q).
Proof.
  cbv zeta. unfold run, result.
  rewrite findOnlineCompatiblePartner_run. cbv zeta. simpl.
  set (d1 := if fails o RpcCleanup then db w
             else cleanup_offline_participants (now o) (db w)).
  split; [reflexivity|].
  destruct (candidate_window_complete (now o) me d1) as (Hord & Hlen & Hrest).
  split; [exact Hlen|]. split; [exact Hord|]. split; [exact Hrest|].
  split.
  { intros Hfew q Hq He. destruct Hrest as (rest & Hperm & _).
    assert (Hnil : rest = []).
    { apply Permutation_length in Hperm. rewrite length_app, Hlen in Hperm.
      apply length_zero_iff_nil. lia. }
    subst rest. rewrite app_nil_r in Hperm.
    eapply Permutation_in; [apply Permutation_sym; exact Hperm|].
    apply filter_In. now split. }
  split.
  { intros p Hp. apply candidate_window_In in Hp. destruct Hp as [Hin He].
    apply eligible_spec in He. tauto. }
  split.
  { intros p q Hp Hq He Hn. eapply candidate_window_earliest; eauto. }
  split; [eexists; reflexivity|].
  split.
  { destruct (fails o SelectCandidates).
    - split; [now left|reflexivity].
    - split.
      + intros [= H]. right. now apply hd_error_filter_none.
      + intros [H|H]; [discriminate|].
        f_equal. now apply hd_error_filter_none. }
  intros p H. destruct (fails o SelectCandidates); [discriminate|].
  injection H as H.
  pose proof (hd_error_In _ _ H) as Hin. apply filter_In in Hin.
  destruct Hin as [Hin Hc]. split; [exact Hin|].
  apply mutually_compatible_spec in Hc. destruct Hc as [Hc1 Hc2].
  split; [exact Hc1|]. split; [exact Hc2|].
  intros q Hq Hqc.
  eapply (key_ordered_hd p_joined_at); [|exact H|].
  - apply key_ordered_filter. unfold candidate_window.
    apply key_ordered_firstn, sort_by_ordered.
  - apply filter_In. now split.
Qed.

(** C2 fails as stated.  In [pool] the search marks the stale participant
    offline, so the store is not what it was; and of two compatible
    candidates that joined at the same instant it answers the one with the
    larger id, the first in store order (swap the two rows and it answers
    the other). *)
Lemma findPartner_mutates_and_ignores_ids :
  ~ claimed_read_only (at_time 100000 50) seeker pool /\
  ~ claimed_first_by_joined_then_id (at_time 100000 50) seeker pool /\
  result (findOnlineCompatiblePartner (at_time 100000 50) seeker text) pool
    = Normal (Some late_id) /\
  result (findOnlineCompatiblePartner (at_time 100000 50) seeker text) pool_swapped
    = Normal (Some small_id).
Proof.
  split; [|split; [|split]].
  - unfold claimed_read_only. vm_compute. discriminate.
  - unfold claimed_first_by_joined_then_id. intros H.
    specialize (H late_id eq_refl small_id).
    assert (Hin : In small_id (participants (db pool)))
      by (simpl; tauto).
    specialize (H Hin eq_refl eq_refl).
    vm_compute in H. destruct H as [H|[_ H]]; [discriminate|]. now apply H.
  - reflexivity.
  - reflexivity.
Qed.

(** ** The pairing transaction *)

Lemma createMatchedSession_run o p1 p2 ty w :
  createMatchedSession o p1 p2 ty w =
  let s := new_session o ty in
  let d1 := mkDB (chat_sessions (db w) ++ [s]) (participants (db w))
              (messages (db w)) in
  if fails o InsertSession || has_session (uuid_session o) (db w)
  then (Normal None,
        if fails o InsertSession && lost o InsertSession &&
           negb (has_session (uuid_session o) (db w))
        then mkWorld d1 (ui w) (toasts w) else w)
  else
    if fails o BindParticipants then
      let d2 := if lost o BindParticipants
                then snd (bind_participants o (uuid_session o) (p_id p1)
                            (p_id p2) d1)
                else d1 in
      (Normal None,
       mkWorld (if fails o DeleteSession then d2
                else snd (delete_session (uuid_session o) d2))
               (ui w) (toasts w))
    else
      (Normal (Some s),
       mkWorld (snd (bind_participants o (uuid_session o) (p_id p1) (p_id p2) d1))
               (ui w) (toasts w)).
Proof.
  unfold createMatchedSession, try_catch, bind, await, await_lossy,
    insert_session, throw, ret, new_session.
  destruct w as [d c ts]; simpl.
  destruct (fails o InsertSession); simpl.
  { destruct (lost o InsertSession); simpl; [|reflexivity].
    destruct (has_session (uuid_session o) d); reflexivity. }
  destruct (has_session (uuid_session o) d); simpl; [reflexivity|].
  destruct (fails o BindParticipants); simpl; [|reflexivity].
  destruct (lost o BindParticipants), (fails o DeleteSession); simpl;
    reflexivity.
Qed.

Lemma existsb_false_forall {A : Type} (f : A -> bool) l :
  existsb f l = false <-> forall x, In x l -> f x = false.
Proof.
  induction l as [|a r IH]; simpl.
  - split; [intros _ x []|reflexivity].
  - rewrite orb_false_iff, IH. split.
    + intros [Ha Hr] x [<-|Hx]; auto.
    + intros H. split; [apply H; now left|]. intros x Hx. apply H. now right.
Qed.

Lemma filter_all {A : Type} (f : A -> bool) l :
  (forall x, In x l -> f x = true) -> filter f l = l.
Proof.
  induction l as [|a r IH]; simpl; intros H; [reflexivity|].
  rewrite (H a (or_introl eq_refl)). f_equal. apply IH.
  intros x Hx. apply H. now right.
Qed.

Lemma filter_none {A : Type} (f : A -> bool) l :
  (forall x, In x l -> f x = false) -> filter f l = [].
Proof.
  induction l as [|a r IH]; simpl; intros H; [reflexivity|].
  rewrite (H a (or_introl eq_refl)). apply IH.
  intros x Hx. apply H. now right.
Qed.

(** Deleting a session that was just inserted under a fresh key restores the
    store: no row can refer to it yet. *)
Lemma rollback_restores o ty d :
  referential_integrity d ->
  has_session (uuid_session o) d = false ->
  snd (delete_session (uuid_session o)
         (mkDB (chat_sessions d ++ [new_session o ty]) (participants d)
               (messages d))) = d.
Proof.
  intros [Hp Hm] Hfresh. unfold delete_session; simpl.
  assert (Hno : forall p, In p (participants d) ->
                          refers (uuid_session o) (p_session_id p) = false).
  { intros p Hin. destruct (refers _ _) eqn:E; [|reflexivity].
    apply refers_eq in E. specialize (Hp p _ Hin E). congruence. }
  rewrite (filter_none _ (participants d) Hno).
  rewrite filter_app; simpl. rewrite Z.eqb_refl; simpl.
  rewrite app_nil_r.
  rewrite filter_all.
  2:{ intros x Hx. unfold has_session in Hfresh.
      rewrite existsb_false_forall in Hfresh. now rewrite (Hfresh x Hx). }
  rewrite filter_all.
  2:{ intros x Hx. now rewrite (Hno x Hx). }
  rewrite filter_all.
  2:{ intros m Hin. simpl. rewrite orb_false_r.
      destruct (m_session_id m =? uuid_session o) eqn:E; [|reflexivity].
      apply Z.eqb_eq in E. destruct (Hm m Hin) as [Hs _].
      rewrite E in Hs. congruence. }
  destruct d; reflexivity.
Qed.

Ltac by_rows :=
  repeat match goal with
         | H : In _ (_ :: _) |- _ => destruct H as [<-|H]
         | H : In _ [] |- _ => destruct H
         end.

Lemma lobby_integrity : referential_integrity (db lobby).
Proof.
  split.
  - intros p sid Hin Hs. unfold lobby, db, participants in Hin.
    by_rows; vm_compute in Hs; discriminate.
  - intros m Hin. simpl in Hin. destruct Hin.
Defined.

(** When the bind was carried out, the compensating delete takes the two
    participants with it: their rows refer to the session, and the rows of
    [participants] and [messages] that refer to a deleted row go too. *)
Lemma rollback_cascades o ty ida idb d :
  referential_integrity d ->
  has_session (uuid_session o) d = false ->
  snd (delete_session (uuid_session o)
         (snd (bind_participants o (uuid_session o) ida idb
                 (mkDB (chat_sessions d ++ [new_session o ty]) (participants d)
                       (messages d)))))
  = mkDB (chat_sessions d)
         (filter (fun p => negb ((p_id p =? ida) || (p_id p =? idb)))
                 (participants d))
         (filter (fun m => negb ((m_participant_id m =? ida) ||
                                 (m_participant_id m =? idb)))
                 (messages d)).
Proof.
  intros [Hp Hm] Hfresh. unfold delete_session, bind_participants.
  cbn [snd chat_sessions participants messages].
  assert (Hno : forall p, In p (participants d) ->
                          refers (uuid_session o) (p_session_id p) = false).
  { intros p Hin. destruct (refers _ _) eqn:E; [|reflexivity].
    apply refers_eq in E. specialize (Hp p _ Hin E). congruence. }
  set (B := fun p => if (p_id p =? ida) || (p_id p =? idb)
                     then bind_row (uuid_session o) (now o) p else p).
  assert (HB : forall p, In p (participants d) ->
                         refers (uuid_session o) (p_session_id (B p))
                         = ((p_id p =? ida) || (p_id p =? idb))).
  { intros p Hin. unfold B.
    destruct ((p_id p =? ida) || (p_id p =? idb)).
    - simpl. apply Z.eqb_refl.
    - now apply Hno. }
  assert (Hid : forall p, p_id (B p) = p_id p).
  { intros p. unfold B. destruct ((p_id p =? ida) || (p_id p =? idb));
      reflexivity. }
  f_equal.
  - rewrite filter_app; simpl. rewrite Z.eqb_refl; simpl. rewrite app_nil_r.
    apply filter_all. intros x Hx. unfold has_session in Hfresh.
    rewrite existsb_false_forall in Hfresh. now rewrite (Hfresh x Hx).
  - assert (Hgen : forall ps,
              (forall p, In p ps ->
                         refers (uuid_session o) (p_session_id (B p))
                         = ((p_id p =? ida) || (p_id p =? idb))) ->
              filter (fun p => negb (refers (uuid_session o) (p_session_id p)))
                (map B ps)
              = filter (fun p => negb ((p_id p =? ida) || (p_id p =? idb))) ps).
    { clear. induction ps as [|p ps IH]; intros H; [reflexivity|].
      simpl. rewrite H by now left.
      assert (Hq : (p_id p =? ida) || (p_id p =? idb) = false -> B p = p).
      { unfold B. intros ->. reflexivity. }
      destruct ((p_id p =? ida) || (p_id p =? idb)); simpl.
      - apply IH. intros q Hq'. apply H. now right.
      - rewrite Hq by reflexivity. f_equal.
        apply IH. intros q Hq'. apply H. now right. }
    apply Hgen. exact HB.
  - apply filter_ext_in. intros m Hin. f_equal.
    destruct (Hm m Hin) as [Hs Hpart].
    assert (E : (m_session_id m =? uuid_session o) = false).
    { apply Z.eqb_neq. intros E. rewrite E in Hs. congruence. }
    rewrite E. cbn [orb].
    apply eq_iff_eq_true. rewrite existsb_exists, orb_true_iff. split.
    + intros [p [Hin' He]]. apply filter_In in Hin'. destruct Hin' as [Hin' Hr].
      apply in_map_iff in Hin'. destruct Hin' as [p0 [<- Hin0]].
      rewrite (HB p0 Hin0) in Hr. rewrite Hid in He. apply Z.eqb_eq in He.
      rewrite <- He. now apply orb_true_iff.
    + intros Hor. unfold has_participant in Hpart.
      apply existsb_exists in Hpart. destruct Hpart as [p0 [Hin0 He]].
      exists (B p0). split.
      * apply filter_In. split; [now apply in_map|].
        rewrite (HB p0 Hin0). apply Z.eqb_eq in He. rewrite He.
        now apply orb_true_iff.
      * now rewrite Hid.
Qed.

(** C1, as the code has it.  With the foreign keys of the store intact,
    [createMatchedSession a b mode] never throws and answers the new
    session or nothing.
    - It succeeds exactly when the key of the session is free and the
      store answers the session insert and the bind update without error.
      Then the store gains exactly one session row, new and in matched
      status, and every participant row whose id is [a]'s or [b]'s gets
      that session as bound session, [is_waiting = false] and a fresh
      [last_seen], whatever its seeking flag was; every other participant
      row and every message is unchanged.
    - When the session insert did not reach the store, or the key was
      taken, the store is unchanged.  When it was carried out and only its
      answer was lost, the session stays in the store, nobody bound to it.
    - When the bind update did not reach the store, no participant and no
      message changes, and the store as a whole is unchanged when the
      compensating delete reaches the store; otherwise the session stays.
    - When the bind update was carried out and only its answer was lost,
      the compensating delete removes the session and with it every row of
      [a] and of [b] and every message they wrote; when that delete does
      not reach the store the pair stays bound as after a success.
    Nothing is decided on the participants' current [is_waiting]. *)
Theorem createMatchedSession_spec
    (o : Oracle) (a b : Participant) (ty : ChatType) (w : World)
    (Hfk : referential_integrity (db w)) :
  let pair := createMatchedSession o a b ty in
  let d := db w in
  let d' := db (run pair w) in
  let s := new_session o ty in
  let taken := has_session (uuid_session o) d in
  let bound := fun p =>
    if (p_id p =? p_id a) || (p_id p =? p_id b)
    then mkParticipant (p_id p) (Some (cs_id s)) (p_name p) (p_gender p)
           (p_preferred_gender p) false (p_joined_at p) (p_left_at p)
           (now o) (p_is_online p)
    else p in
  ui (run pair w) = ui w /\ toasts (run pair w) = toasts w /\
  (result pair w = Normal (Some s) \/ result pair w = Normal None) /\
  (result pair w = Normal (Some s) <->
   taken = false /\ fails o InsertSession = false /\
   fails o BindParticipants = false) /\
  (result pair w = Normal (Some s) ->
   chat_sessions d' = chat_sessions d ++ [s] /\
   participants d' = map bound (participants d) /\
   messages d' = messages d) /\
  (taken = true \/
   (fails o InsertSession = true /\ lost o InsertSession = false) ->
   d' = d) /\
  (taken = false -> fails o InsertSession = true ->
   lost o InsertSession = true ->
   d' = mkDB (chat_sessions d ++ [s]) (participants d) (messages d)) /\
  (taken = false -> fails o InsertSession = false ->
   fails o BindParticipants = true ->
   (lost o BindParticipants = false ->
    participants d' = participants d /\ messages d' = messages d /\
    if fails o DeleteSession
    then chat_sessions d' = chat_sessions d ++ [s]
    else d' = d) /\
   (lost o BindParticipants = true ->
    if fails o DeleteSession
    then chat_sessions d' = chat_sessions d ++ [s] /\
         participants d' = map bound (participants d) /\
         messages d' = messages d
    else chat_sessions d' = chat_sessions d /\
         participants d'
           = filter (fun p => negb ((p_id p =? p_id a) || (p_id p =? p_id b)))
               (participants d) /\
         messages d'
           = filter (fun m => negb ((m_participant_id m =? p_id a) ||
                                    (m_participant_id m =? p_id b)))
               (messages d))).
Proof.
  cbv zeta. unfold run, result. rewrite createMatchedSession_run. cbv zeta.
  destruct (has_session (uuid_session o) (db w)) eqn:Hfresh.
  { rewrite orb_true_r, andb_false_r. cbn [fst snd].
    split; [reflexivity|]. split; [reflexivity|]. split; [now right|].
    split; [split; [discriminate|intros [H _]; discriminate]|].
    split; [discriminate|]. split; [reflexivity|].
    split; [discriminate|]. discriminate. }
  rewrite orb_false_r, andb_true_r.
  destruct (fails o InsertSession) eqn:E1.
  { cbn [andb fst snd].
    destruct (lost o InsertSession) eqn:L1; cbn [fst snd db ui toasts].
    - split; [reflexivity|]. split; [reflexivity|]. split; [now right|].
      split; [split; [discriminate|intros (_ & H & _); discriminate]|].
      split; [discriminate|].
      split; [intros [H|[_ H]]; discriminate|].
      split; [reflexivity|]. discriminate.
    - split; [reflexivity|]. split; [reflexivity|]. split; [now right|].
      split; [split; [discriminate|intros (_ & H & _); discriminate]|].
      split; [discriminate|]. split; [reflexivity|].
      split; [discriminate|]. discriminate. }
  destruct (fails o BindParticipants) eqn:E2.
  - cbn [fst snd db ui toasts].
    split; [reflexivity|]. split; [reflexivity|]. split; [now right|].
    split; [split; [discriminate|intros (_ & _ & H); discriminate]|].
    split; [discriminate|].
    split; [intros [H|[H _]]; discriminate|].
    split; [discriminate|].
    intros _ _ _. split; intros L2; rewrite L2.
    + destruct (fails o DeleteSession).
      * repeat split.
      * rewrite (rollback_restores o ty (db w) Hfk Hfresh). repeat split.
    + destruct (fails o DeleteSession).
      * cbn [snd bind_participants chat_sessions participants messages].
        repeat split.
      * rewrite (rollback_cascades o ty (p_id a) (p_id b) (db w) Hfk Hfresh).
        repeat split.
  - cbn [fst snd db ui toasts bind_participants chat_sessions participants
         messages].
    split; [reflexivity|]. split; [reflexivity|]. split; [now left|].
    split; [split; [auto|reflexivity]|].
    split; [repeat split|].
    split; [intros [H|[H _]]; discriminate|].
    split; discriminate.
Qed.

Lemma createMatchedSession_spec_witness :
  referential_integrity (db lobby) /\
  ui (run alice_pairs lobby) = ui lobby /\
  result alice_pairs lobby = Normal (Some (new_session (at_time 1000 10) text)).
Proof.
  split; [exact lobby_integrity|].
  pose proof (createMatchedSession_spec (at_time 1000 10) alice bob text lobby
                lobby_integrity) as H.
  cbv zeta in H. destruct H as (Hui & _ & _ & Hiff & _).
  split; [exact Hui|]. apply Hiff. repeat split.
Defined.

(** C1 fails as stated.  Bob is already bound to session 10 and no longer
    seeking when Carol's pairing runs; the pairing succeeds all the same,
    moves Bob to session 11 and leaves session 10 matched with Alice alone. *)
Lemma pairing_is_not_guarded :
  ~ claimed_guarded_pairing (at_time 1001 11) carol bob text
      (run alice_pairs lobby) /\
  result alice_pairs lobby = Normal (Some (new_session (at_time 1000 10) text)) /\
  result carol_pairs (run alice_pairs lobby)
    = Normal (Some (new_session (at_time 1001 11) text)) /\
  option_map p_session_id (find_participant 2 (db (run alice_pairs lobby)))
    = Some (Some 10) /\
  option_map p_session_id
    (find_participant 2 (db (run carol_pairs (run alice_pairs lobby))))
    = Some (Some 11) /\
  session_status (db (run carol_pairs (run alice_pairs lobby))) 10 = Some matched.
Proof.
  split; [|repeat split; reflexivity].
  unfold claimed_guarded_pairing. intros H.
  assert (Hpre : exists p, In p (participants (db (run alice_pairs lobby))) /\
                           (p_id p = p_id carol \/ p_id p = p_id bob) /\
                           p_is_waiting p = false).
  { exists (paired 10 (mkParticipant 2 None (js "anon") male female true 20 None
                         1000 true)).
    vm_compute. tauto. }
  destruct (H Hpre) as [Hres _]. vm_compute in Hres. discriminate.
Qed.

(** ** The message channel *)

Lemma NoDup_ids_perm {A : Type} (f : A -> Z) l l' :
  Permutation l l' -> NoDup (map f l) -> NoDup (map f l').
Proof.
  intros Hp Hn. eapply Permutation_NoDup; [|exact Hn].
  now apply Permutation_map.
Qed.

Lemma NoDup_ids_filter {A : Type} (f : A -> Z) (g : A -> bool) l :
  NoDup (map f l) -> NoDup (map f (filter g l)).
Proof.
  induction l as [|a r IH]; simpl; intros Hn; [constructor|].
  inversion Hn as [|? ? Hnot Hr]; subst.
  destruct (g a); simpl; [|now apply IH].
  constructor; [|now apply IH].
  intros Hin. apply Hnot. apply in_map_iff in Hin.
  destruct Hin as [x [Hx Hin]]. apply filter_In in Hin.
  apply in_map_iff. exists x. tauto.
Qed.

Lemma history_unique sid d :
  NoDup (map m_id (messages d)) -> NoDup (map m_id (history sid d)).
Proof.
  intros H. unfold history.
  eapply NoDup_ids_perm; [apply sort_by_perm|].
  now apply NoDup_ids_filter.
Qed.

Lemma appendMessage_unique m prev :
  NoDup (map m_id prev) -> NoDup (map m_id (appendMessage m prev)).
Proof.
  intros H. unfold appendMessage.
  destruct (existsb (fun msg => m_id msg =? m_id m) prev) eqn:E; [exact H|].
  eapply NoDup_ids_perm; [apply sort_by_perm|].
  rewrite map_app; simpl.
  eapply Permutation_NoDup; [apply Permutation_cons_append|].
  constructor; [|exact H].
  intros Hin. apply in_map_iff in Hin. destruct Hin as [x [Hx Hin]].
  rewrite existsb_false_forall in E. specialize (E x Hin).
  apply Z.eqb_neq in E. congruence.
Qed.

Lemma appendMessage_ordered m prev :
  key_ordered m_sent_at prev -> key_ordered m_sent_at (appendMessage m prev).
Proof.
  intros H. unfold appendMessage.
  destruct (existsb _ prev); [exact H|apply sort_by_ordered].
Qed.

Lemma onMessageInsert_transcript m w :
  messages_state (ui (run (onMessageInsert m) w)) = messages_state (ui w) \/
  messages_state (ui (run (onMessageInsert m) w))
    = appendMessage m (messages_state (ui w)).
Proof.
  unfold run, onMessageInsert, bind, get_ui, setMessages, modify_ui, ret.
  simpl. destruct (currentSession (ui w)) as [s|]; simpl; [|now left].
  destruct (m_session_id m =? cs_id s); simpl; [now right|now left].
Qed.

Lemma deliver_transcript feed : forall w,
  NoDup (map m_id (messages_state (ui w))) ->
  key_ordered m_sent_at (messages_state (ui w)) ->
  NoDup (map m_id (messages_state (ui (deliver feed w)))) /\
  key_ordered m_sent_at (messages_state (ui (deliver feed w))).
Proof.
  unfold deliver.
  induction feed as [|m r IH]; intros w Hn Ho; simpl; [now split|].
  apply IH.
  - destruct (onMessageInsert_transcript m w) as [-> | ->];
      [exact Hn|now apply appendMessage_unique].
  - destruct (onMessageInsert_transcript m w) as [-> | ->];
      [exact Ho|now apply appendMessage_ordered].
Qed.

Lemma loadMessages_transcript o w :
  messages_state (ui (run (loadMessages o) w)) =
  match currentSession (ui w) with
  | Some s => if fails o SelectMessages then []
              else history (cs_id s) (db w)
  | None => []
  end.
Proof.
  unfold run, loadMessages, bind, get_ui, try_catch, await, select_messages,
    setMessages, modify_ui, throw.
  simpl. destruct (currentSession (ui w)) as [s|]; simpl; [|reflexivity].
  destruct (fails o SelectMessages); reflexivity.
Qed.

(** The scenario of the specification: "hi" at 10, "hello" at 11. *)
Example history_in_order :
  map m_content
    (history 10 (mkDB [session10] [paired 10 alice; paired 10 bob]
                   [mkMessage 21 10 2 (js "hello") 11;
                    mkMessage 20 10 1 (js "hi") 10]))
  = [js "hi"; js "hello"].
Proof. reflexivity. Qed.

Example trim_strips_both_ends : trim (js "  hello ") = js "hello".
Proof. reflexivity. Qed.

(** C6, as the code has it.  With message ids unique in the store (the
    primary key), the history of the client's session holds exactly the
    messages of that session, in non-decreasing order of the sent timestamp
    (the identifier is no part of the order); [loadMessages] puts it into
    the transcript; and whatever the change feed then delivers, however
    often, the transcript never holds a message id twice and stays ordered
    by sent timestamp. *)
Theorem history_by_time_transcript_deduplicated
    (o : Oracle) (w : World) (s : ChatSession) (feed : list Message)
    (Hpk : NoDup (map m_id (messages (db w))))
    (Hs : currentSession (ui w) = Some s) :
  key_ordered m_sent_at (history (cs_id s) (db w)) /\
  (forall m, In m (history (cs_id s) (db w)) <->
             In m (messages (db w)) /\ m_session_id m = cs_id s) /\
  messages_state (ui (run (loadMessages o) w))
    = (if fails o SelectMessages then [] else history (cs_id s) (db w)) /\
  NoDup (map m_id (messages_state (ui (deliver feed (run (loadMessages o) w))))) /\
  key_ordered m_sent_at
    (messages_state (ui (deliver feed (run (loadMessages o) w)))).
Proof.
  split; [apply sort_by_ordered|].
  split.
  { intros m. unfold history. rewrite sort_by_In, filter_In, Z.eqb_eq. tauto. }
  pose proof (loadMessages_transcript o w) as Hl. rewrite Hs in Hl.
  split; [exact Hl|].
  apply deliver_transcript; rewrite Hl.
  - destruct (fails o SelectMessages); [constructor|now apply history_unique].
  - destruct (fails o SelectMessages); [constructor|apply sort_by_ordered].
Qed.

Lemma history_by_time_transcript_deduplicated_witness :
  NoDup (map m_id (messages (db (mkWorld tied_messages (ui chatting) [])))) /\
  NoDup (map m_id (messages_state (ui
    (deliver [msg 3 9; msg 3 9; msg 2 7]
       (run (loadMessages (at_time 10 0))
            (mkWorld tied_messages (ui chatting) [])))))).
Proof.
  assert (Hpk : NoDup (map m_id
                  (messages (db (mkWorld tied_messages (ui chatting) []))))).
  { simpl. repeat constructor; simpl; intuition discriminate. }
  split; [exact Hpk|].
  exact (proj1 (proj2 (proj2 (proj2
    (history_by_time_transcript_deduplicated (at_time 10 0)
       (mkWorld tied_messages (ui chatting) []) session10
       [msg 3 9; msg 3 9; msg 2 7] Hpk eq_refl))))).
Defined.

(** C6 fails as stated.  Two messages of one session carry the same sent
    timestamp; the history lists id 2 before id 1. *)
Lemma history_ignores_ids :
  ~ claimed_history_by_key 10 tied_messages /\
  history 10 tied_messages = [msg 2 7; msg 1 7].
Proof.
  split; [|reflexivity].
  unfold claimed_history_by_key. intros H.
  change (history 10 tied_messages) with [msg 2 7; msg 1 7] in H.
  inversion H as [|? ? _ Hhd]; subst.
  inversion Hhd as [|? ? Hk]; subst.
  unfold key_le in Hk. simpl in Hk. lia.
Qed.

Lemma onMessageInsert_run m w s :
  currentSession (ui w) = Some s ->
  run (onMessageInsert m) w =
  mkWorld (db w)
    (mkClient (Some s) (currentParticipant (ui w)) (partner (ui w))
       (if m_session_id m =? cs_id s
        then appendMessage m (messages_state (ui w))
        else messages_state (ui w))
       (isConnected (ui w)) (isSearching (ui w)) (heartbeatInterval (ui w)))
    (toasts w).
Proof.
  intros Hs. destruct w as [d c ts]. destruct c as [cs cp pt ms ic isr hb].
  simpl in Hs. subst cs.
  unfold run, onMessageInsert, bind, get_ui, setMessages, modify_ui, ret.
  simpl. destruct (m_session_id m =? cs_id s); reflexivity.
Qed.

Lemma appendMessage_ids m prev i :
  In i (map m_id (appendMessage m prev)) <->
  In i (map m_id prev) \/ i = m_id m.
Proof.
  unfold appendMessage.
  destruct (existsb (fun msg => m_id msg =? m_id m) prev) eqn:E.
  - split; [tauto|]. intros [H| ->]; [exact H|].
    apply existsb_exists in E. destruct E as [x [Hx Hid]].
    apply Z.eqb_eq in Hid. rewrite <- Hid. now apply in_map.
  - rewrite !in_map_iff. split.
    + intros [x [Hid Hx]]. apply sort_by_In in Hx. apply in_app_or in Hx.
      destruct Hx as [Hx|[<-|[]]]; [left; now exists x|right; now symmetry].
    + intros [[x [Hid Hx]]| ->].
      * exists x. split; [exact Hid|]. apply sort_by_In, in_or_app. now left.
      * exists m. split; [reflexivity|]. apply sort_by_In, in_or_app.
        right. now left.
Qed.

(** ** Sending *)

Lemma drop_while_head f s c r : drop_while f s = c :: r -> f c = false.
Proof.
  induction s as [|a t IH]; simpl; [discriminate|].
  destruct (f a) eqn:E; [exact IH|]. intros [= <- <-]. exact E.
Qed.

Lemma drop_while_suffix f s : exists pre, s = pre ++ drop_while f s.
Proof.
  induction s as [|a t [pre IH]]; simpl; [now exists []|].
  destruct (f a); [|now exists []].
  exists (a :: pre). simpl. now f_equal.
Qed.

Lemma drop_while_keep f s c r : s = c :: r -> f c = false -> drop_while f s = s.
Proof. intros -> H. simpl. now rewrite H. Qed.

(** Stripping a smaller class of characters after a larger one is the
    identity. *)
Lemma strip_strip (f g : N -> bool) s :
  (forall c, g c = true -> f c = true) -> strip g (strip f s) = strip f s.
Proof.
  intros Hsub. unfold strip.
  assert (Hg : forall c, f c = false -> g c = false).
  { intros c Hc. destruct (g c) eqn:E; [|reflexivity].
    apply Hsub in E. congruence. }
  set (Y := drop_while f s).
  destruct (drop_while f (rev Y)) as [|z0 Z] eqn:EZ; [reflexivity|].
  pose proof (drop_while_head _ _ _ _ EZ) as Hz0.
  destruct (drop_while_suffix f (rev Y)) as [pre Hpre]. rewrite EZ in Hpre.
  assert (HY : Y = rev (z0 :: Z) ++ rev pre).
  { rewrite <- rev_app_distr, <- Hpre. now rewrite rev_involutive. }
  destruct (rev (z0 :: Z)) as [|t0 t] eqn:Et.
  { apply (f_equal (@List.length N)) in Et. rewrite length_rev in Et.
    discriminate. }
  assert (Ht0 : f t0 = false).
  { subst Y. simpl in HY. eapply drop_while_head. exact HY. }
  rewrite (drop_while_keep g (t0 :: t) t0 t eq_refl (Hg _ Ht0)).
  rewrite <- Et, rev_involutive.
  rewrite (drop_while_keep g (z0 :: Z) z0 Z eq_refl (Hg _ Hz0)).
  reflexivity.
Qed.

(** What the client sends passes CHECK (length(trim(content)) > 0). *)
Lemma pg_trim_trim s : pg_trim (trim s) = trim s.
Proof.
  apply strip_strip. intros c Hc. apply N.eqb_eq in Hc. now subst.
Qed.

Lemma length_eqb_0 {A : Type} (l : list A) :
  (List.length l =? 0)%nat = true <-> l = [].
Proof. rewrite Nat.eqb_eq. apply length_zero_iff_nil. Qed.

(** The message [sendMessage] inserts. *)
Lemma sendMessage_run o content w s me :
  currentSession (ui w) = Some s -> currentParticipant (ui w) = Some me ->
  trim content <> [] ->
  sendMessage o content w =
  if message_refused o s me (trim content) (db w)
  then (Normal tt, mkWorld (db w) (ui w) (toasts w ++ [MessageFailed]))
  else
    let m := mkMessage (uuid_message o) (cs_id s) (p_id me) (trim content) (now o) in
    let d1 := mkDB (chat_sessions (db w)) (participants (db w))
                (messages (db w) ++ [m]) in
    (Normal tt,
     mkWorld (if fails o RpcHeartbeat then d1
              else update_participant_heartbeat (now o) (p_id me) d1)
             (ui w) (toasts w)).
Proof.
  intros Hs Hp Hne.
  unfold sendMessage, bind, get_ui, try_catch, await, insert_message, throw,
    ret, toast, rpc_heartbeat, message_refused.
  simpl. rewrite Hs, Hp.
  destruct (List.length (trim content) =? 0)%nat eqn:E.
  { apply length_eqb_0 in E. contradiction. }
  rewrite pg_trim_trim, E.
  destruct (fails o InsertMessage); simpl; [reflexivity|].
  destruct (has_nul (trim content)); simpl; [reflexivity|].
  destruct (has_message (uuid_message o) (db w)); simpl; [reflexivity|].
  destruct (has_session (cs_id s) (db w) && has_participant (p_id me) (db w));
    simpl; [|reflexivity].
  destruct (fails o RpcHeartbeat); reflexivity.
Qed.

Lemma sendMessage_idle o content w :
  currentSession (ui w) = None \/ currentParticipant (ui w) = None \/
  trim content = [] ->
  sendMessage o content w = (Normal tt, w).
Proof.
  intros H.
  unfold sendMessage, bind, get_ui, ret. simpl.
  destruct (currentSession (ui w)) as [s|]; [|reflexivity].
  destruct (currentParticipant (ui w)) as [me|]; [|reflexivity].
  destruct H as [H|[H|H]]; try discriminate.
  rewrite H. reflexivity.
Qed.





(** ** Stop *)

Lemma stopChat_run o w me :
  currentParticipant (ui w) = Some me ->
  stopChat o w =
  let d1 := match currentSession (ui w) with
            | Some s => if fails o UpdateSession then db w
                        else snd (end_session o (cs_id s) (db w))
            | None => db w
            end in
  let d2 := if fails o UpdateParticipant then d1
            else snd (leave_participant o (p_id me) d1) in
  (Normal tt, mkWorld d2 idle (toasts w)).
Proof.
  intros Hp.
  unfold stopChat, bind, get_ui, try_catch, stopHeartbeat, setHeartbeatInterval,
    setCurrentSession, setCurrentParticipant, setPartner, setMessages,
    setIsConnected, setIsSearching, modify_ui, await, ret.
  simpl. rewrite Hp.
  destruct (currentSession (ui w)) as [s|]; simpl.
  - destruct (fails o UpdateSession); simpl;
      destruct (fails o UpdateParticipant); reflexivity.
  - destruct (fails o UpdateParticipant); reflexivity.
Qed.

(** C5, as the code has it.  A participant stops and the store is
    reachable.  Then the session its client holds, if it holds one, is
    ended at [now] in the store, and no other session row changes, the one
    the participant's row is bound to included when the client does not
    hold it; the rows of the invoker get [is_waiting = false],
    [is_online = false] and [left_at = now] and keep their bound-session
    reference; every other participant row, the partner's included, is
    exactly what it was: its reference, its seeking flag and its online
    flag are not written; no message changes, no notice is raised and
    the client's state is cleared. *)
Theorem stopChat_spec
    (o : Oracle) (w : World) (me : Participant)
    (Hok : no_faults o)
    (Hme : currentParticipant (ui w) = Some me) :
  let w' := run (stopChat o) w in
  Forall2 (fun r r' =>
             match currentSession (ui w) with
             | Some s =>
                 if cs_id r =? cs_id s
                 then r' = mkSession (cs_id r) (cs_session_type r) ended
                             (cs_created_at r) (Some (now o)) (now o)
                 else r' = r
             | None => r' = r
             end)
          (chat_sessions (db w)) (chat_sessions (db w')) /\
  Forall2 (fun q q' =>
             if p_id q =? p_id me
             then q' = mkParticipant (p_id q) (p_session_id q) (p_name q)
                         (p_gender q) (p_preferred_gender q) false
                         (p_joined_at q) (Some (now o)) (p_last_seen q) false
             else q' = q)
          (participants (db w)) (participants (db w')) /\
  (forall q, In q (participants (db w)) -> p_id q <> p_id me ->
             In q (participants (db w'))) /\
  (forall q' sid, In q' (participants (db w')) ->
                  p_session_id q' = Some sid ->
                  exists q, In q (participants (db w)) /\ p_id q = p_id q' /\
                            p_session_id q = Some sid) /\
  messages (db w') = messages (db w) /\
  toasts w' = toasts w /\
  ui w' = idle.
Proof.
  cbv zeta. unfold run. rewrite (stopChat_run o w me Hme).
  rewrite !Hok. cbv zeta. cbn [snd db ui toasts].
  assert (Hp : forall d, participants
                 (snd (leave_participant o (p_id me) d))
               = map (fun q => if p_id q =? p_id me
                               then leave_row (now o) q else q)
                   (participants d)) by reflexivity.
  assert (Hpd : participants
                  match currentSession (ui w) with
                  | Some s => snd (end_session o (cs_id s) (db w))
                  | None => db w
                  end = participants (db w))
    by (destruct (currentSession (ui w)); reflexivity).
  split.
  { cbn [leave_participant snd chat_sessions].
    destruct (currentSession (ui w)) as [s|]; cbn [end_session snd chat_sessions].
    - apply Forall2_map_self. intros r.
      destruct (cs_id r =? cs_id s); reflexivity.
    - rewrite <- (map_id (chat_sessions (db w))) at 2.
      apply Forall2_map_self. reflexivity. }
  rewrite Hp, Hpd.
  split.
  { apply Forall2_map_self. intros q. destruct (p_id q =? p_id me); reflexivity. }
  split.
  { intros q Hq Hne. apply in_map_iff. exists q. split; [|exact Hq].
    apply Z.eqb_neq in Hne. now rewrite Hne. }
  split.
  { intros q' sid Hq Hb. apply in_map_iff in Hq. destruct Hq as [q [Hq Hin]].
    exists q. split; [exact Hin|].
    destruct (p_id q =? p_id me); subst q'; simpl in *; auto. }
  split; [|split; reflexivity].
  cbn [leave_participant snd messages].
  destruct (currentSession (ui w)); reflexivity.
Qed.

Lemma stopChat_spec_witness :
  no_faults (at_time 9000 11) /\
  ui (run (stopChat (at_time 9000 11)) chatting) = idle /\
  messages (db (run (stopChat (at_time 9000 11)) chatting)) = [].
Proof.
  assert (Hok : no_faults (at_time 9000 11)) by (intros site; reflexivity).
  split; [exact Hok|].
  pose proof (stopChat_spec (at_time 9000 11) chatting (paired 10 alice)
                Hok eq_refl) as H.
  cbv zeta in H. destruct H as (_ & _ & _ & _ & Hm & _ & Hu).
  split; [exact Hu|exact Hm].
Defined.

(** C5 fails as stated.  Alice stops while chatting with Bob: session 10
    is ended, but nobody is released: both rows still refer to session 10.
    And when her row is bound to session 10 while her client does not hold
    the session yet (the pairing was made by Bob's side and the
    notification has not arrived), her stop leaves session 10 matched. *)
Lemma stop_releases_nobody :
  ~ claimed_stop_releases_both (at_time 9000 11) chatting /\
  ~ claimed_stop_ends_session (at_time 9000 11) unaware /\
  map p_session_id
    (participants (db (run (stopChat (at_time 9000 11)) chatting)))
  = [Some 10; Some 10] /\
  session_status (db (run (stopChat (at_time 9000 11)) chatting)) 10
  = Some ended /\
  session_status (db (run (stopChat (at_time 9000 11)) unaware)) 10
  = Some matched.
Proof.
  split; [|split; [|repeat split; reflexivity]].
  - intros H.
    destruct (H session10 (paired 10 bob) eq_refl) as (q' & Hin & Hid & Hs & _).
    + simpl; tauto.
    + reflexivity.
    + vm_compute in Hin. destruct Hin as [<-|[<-|[]]]; vm_compute in Hid, Hs;
        discriminate.
  - intros H.
    assert (Hin : In (paired 10 alice) (participants (db unaware)))
      by (simpl; tauto).
    specialize (H alice (paired 10 alice) 10 eq_refl Hin eq_refl eq_refl).
    vm_compute in H. discriminate.
Qed.

(** ** Skip *)

Lemma unique_row (ps : list Participant) a b :
  NoDup (map p_id ps) -> In a ps -> In b ps -> p_id a = p_id b -> a = b.
Proof.
  induction ps as [|x r IH]; simpl; intros Hn Ha Hb He; [contradiction|].
  inversion Hn as [|? ? Hnot Hr]; subst.
  destruct Ha as [<-|Ha], Hb as [<-|Hb]; auto.
  - elim Hnot. rewrite He. now apply in_map.
  - elim Hnot. rewrite <- He. now apply in_map.
Qed.

Lemma filter_unique_row (ps : list Participant) row :
  NoDup (map p_id ps) -> In row ps ->
  filter (fun p => p_id p =? p_id row) ps = [row].
Proof.
  induction ps as [|x r IH]; simpl; intros Hn Hin; [contradiction|].
  inversion Hn as [|? ? Hnot Hr]; subst.
  destruct Hin as [->|Hin].
  - rewrite Z.eqb_refl. f_equal. apply filter_none.
    intros y Hy. apply Z.eqb_neq. intros He. apply Hnot.
    rewrite <- He. now apply in_map.
  - destruct (p_id x =? p_id row) eqn:E; [|now apply IH].
    apply Z.eqb_eq in E. elim Hnot. rewrite E. now apply in_map.
Qed.

Lemma map_ids (g : Participant -> Participant) ps :
  (forall p, p_id (g p) = p_id p) -> map p_id (map g ps) = map p_id ps.
Proof. intros H. rewrite map_map. apply map_ext. exact H. Qed.

Lemma find_map_by_id {A : Type} (key : A -> Z) (g : A -> A) k l :
  (forall x, key (g x) = key x) ->
  find (fun x => key x =? k) (map g l)
  = option_map g (find (fun x => key x =? k) l).
Proof.
  intros H. induction l as [|a r IH]; simpl; [reflexivity|].
  rewrite H. destruct (key a =? k); [reflexivity|exact IH].
Qed.

Lemma find_app_some {A : Type} (f : A -> bool) l l' x :
  find f l = Some x -> find f (l ++ l') = Some x.
Proof.
  induction l as [|a r IH]; simpl; [discriminate|].
  destruct (f a); [auto|exact IH].
Qed.

Lemma find_exists {A : Type} (f : A -> bool) l :
  existsb f l = true -> exists x, find f l = Some x /\ f x = true.
Proof.
  induction l as [|a r IH]; simpl; [discriminate|].
  destruct (f a) eqn:E; [intros _; now exists a|exact IH].
Qed.

Lemma skipChat_run o w s me row :
  no_faults o ->
  currentSession (ui w) = Some s -> currentParticipant (ui w) = Some me ->
  filter (fun p => p_id p =? p_id me) (participants (db w)) = [row] ->
  let me' := requeue_row (now o) row in
  let d2 := snd (requeue_participant o (p_id me)
                   (snd (end_session o (cs_id s) (db w)))) in
  let d3 := cleanup_offline_participants (now o) d2 in
  let ns := new_session o text in
  run (skipChat o) w =
  match hd_error (filter (mutually_compatible me')
                    (candidate_window (now o) me' d3)) with
  | Some f =>
      if has_session (uuid_session o) d3
      then mkWorld d3 (searching_again (ui w) me') (toasts w ++ [Skipped])
      else mkWorld
             (snd (bind_participants o (uuid_session o) (p_id me') (p_id f)
                     (mkDB (chat_sessions d3 ++ [ns]) (participants d3)
                        (messages d3))))
             (reconnected (ui w) me' ns f)
             ((toasts w ++ [Skipped]) ++ [NewConnection (p_name f)])
  | None => mkWorld d3 (searching_again (ui w) me') (toasts w ++ [Skipped])
  end.
Proof.
  intros Hok Hs Hme Hrow. cbv zeta.
  unfold run, skipChat, bind, get_ui, try_catch, await.
  cbn [fst snd]. rewrite Hs, Hme. rewrite !Hok.
  cbn [end_session db ui toasts fst snd].
  unfold requeue_participant.
  cbn [participants chat_sessions messages db ui toasts].
  rewrite Hrow. cbn [single fst snd db ui toasts].
  unfold setCurrentSession, setPartner, setMessages, setIsConnected,
    setIsSearching, setCurrentParticipant, modify_ui, toast.
  cbn [fst snd db ui toasts currentSession currentParticipant partner
       messages_state isConnected isSearching heartbeatInterval].
  rewrite findOnlineCompatiblePartner_run.
  rewrite !Hok. cbv zeta. cbn [db ui toasts].
  match goal with
  | |- context [hd_error ?l] => destruct (hd_error l) as [f|] eqn:Ef
  end; [|reflexivity].
  rewrite createMatchedSession_run.
  rewrite !Hok. cbn [orb db ui toasts].
  match goal with
  | |- context [has_session ?u ?d] => destruct (has_session u d) eqn:Eh
  end; reflexivity.
Qed.

Lemma offline_or_same t p :
  let p' := if stale t p then offline_row p else p in
  p_id p' = p_id p /\ p_session_id p' = p_session_id p /\
  (p_is_waiting p = false -> p_is_waiting p' = false) /\
  (p_is_waiting p' = true -> p' = p).
Proof.
  cbv zeta. destruct (stale t p); simpl; repeat split; auto. discriminate.
Qed.

Lemma requeue_or_same t pid p :
  p_id (if p_id p =? pid then requeue_row t p else p) = p_id p.
Proof. destruct (p_id p =? pid); reflexivity. Qed.

Lemma bind_or_same sid t a b p :
  p_id (if (p_id p =? a) || (p_id p =? b) then bind_row sid t p else p) = p_id p.
Proof. destruct ((p_id p =? a) || (p_id p =? b)); reflexivity. Qed.

Lemma stale_requeued t p : stale t (requeue_row t p) = false.
Proof.
  unfold stale. simpl. apply andb_false_iff. left. apply Z.ltb_ge. lia.
Qed.

Lemma skipChat_effect
    (o : Oracle) (w : World) (s : ChatSession) (me row : Participant)
    (Hok : no_faults o)
    (Hs : currentSession (ui w) = Some s)
    (Hme : currentParticipant (ui w) = Some me)
    (Hpk : NoDup (map p_id (participants (db w))))
    (Hrow : In row (participants (db w)))
    (Hid : p_id row = p_id me)
    (Hsess : has_session (cs_id s) (db w) = true) :
  let w' := run (skipChat o) w in
  let me' := requeue_row (now o) row in
  let w2 := mkWorld
              (snd (requeue_participant o (p_id me)
                      (snd (end_session o (cs_id s) (db w)))))
              (searching_again (ui w) me') (toasts w ++ [Skipped]) in
  let search := findOnlineCompatiblePartner o me' text in
  session_status (db w') (cs_id s) = Some ended /\
  (p_is_waiting me' = true /\ p_session_id me' = None /\
   find_participant (p_id me) (db w2) = Some me') /\
  match result search w2 with
  | Normal (Some f) =>
      db w' = db (run (createMatchedSession o me' f text) (run search w2))
  | _ => w' = run search w2
  end /\
  (result search w2 = Normal None ->
   find_participant (p_id me) (db w') = Some me' /\
   isSearching (ui w') = true) /\
  map p_id (participants (db w')) = map p_id (participants (db w)) /\
  (forall q, In q (participants (db w)) ->
             p_id q <> p_id me -> p_is_waiting q = false ->
             In (if stale (now o) q then offline_row q else q)
                (participants (db w'))).
Proof.
  assert (Hrowf : filter (fun p => p_id p =? p_id me) (participants (db w))
                  = [row]).
  { rewrite <- Hid. now apply filter_unique_row. }
  cbv zeta. rewrite (skipChat_run o w s me row Hok Hs Hme Hrowf). cbv zeta.
  unfold result, run at 2 3 4.
  rewrite findOnlineCompatiblePartner_run. rewrite !Hok. cbv zeta.
  cbn [fst snd db ui toasts].
  unfold requeue_participant, end_session.
  cbn [fst snd participants chat_sessions messages].
  rewrite Hrowf. cbn [single fst snd].
  set (E := fun r : ChatSession =>
              if cs_id r =? cs_id s then end_row (now o) r else r).
  set (Q := fun q : Participant =>
              if p_id q =? p_id me then requeue_row (now o) q else q).
  set (d2 := mkDB (map E (chat_sessions (db w))) (map Q (participants (db w)))
               (messages (db w))).
  set (me' := requeue_row (now o) row).
  set (d3 := cleanup_offline_participants (now o) d2).
  assert (HQrow : Q row = me').
  { unfold Q. rewrite Hid, Z.eqb_refl. reflexivity. }
  assert (Hids3 : map p_id (participants d3) = map p_id (participants (db w))).
  { unfold d3, cleanup_offline_participants, mark_offline, d2; simpl.
    rewrite map_ids by (intros p; apply (offline_or_same (now o) p)).
    apply map_ids. intros p. apply requeue_or_same. }
  assert (Hst3 : session_status d3 (cs_id s) = Some ended).
  { unfold session_status, find_session, d3, cleanup_offline_participants,
      reap_sessions, d2; simpl.
    rewrite (find_map_by_id cs_id)
      by (intros r; match goal with |- context [if ?c then _ else _] =>
                                      destruct c end; reflexivity).
    rewrite (find_map_by_id cs_id)
      by (intros r; unfold E; destruct (cs_id r =? cs_id s); reflexivity).
    destruct (find_exists _ _ Hsess) as [r [Hr Hrid]]. rewrite Hr. simpl.
    unfold E. rewrite Hrid. simpl. reflexivity. }
  assert (Hother3 : forall q, In q (participants (db w)) ->
            p_id q <> p_id me -> p_is_waiting q = false ->
            In (if stale (now o) q then offline_row q else q)
               (participants d3)).
  { intros q Hq Hne Hw.
    unfold d3, cleanup_offline_participants, mark_offline, d2; simpl.
    apply in_map_iff. exists q. split; [reflexivity|].
    apply in_map_iff. exists q. split; [|exact Hq].
    unfold Q. apply Z.eqb_neq in Hne. now rewrite Hne. }
  assert (Hfind2 : find_participant (p_id me) d2 = Some me').
  { unfold find_participant, d2; simpl.
    rewrite (find_map_by_id p_id)
      by (intros p; apply requeue_or_same).
    assert (Hf : find (fun p => p_id p =? p_id me) (participants (db w))
                 = Some row).
    { revert Hrowf. generalize (participants (db w)).
      induction l as [|a r IH]; simpl; [discriminate|].
      destruct (p_id a =? p_id me); [now intros [= ->]|exact IH]. }
    rewrite Hf. simpl. now rewrite HQrow. }
  assert (Hfind3 : find_participant (p_id me) d3 = Some me').
  { unfold find_participant, d3, cleanup_offline_participants, mark_offline.
    cbn [participants].
    rewrite (find_map_by_id p_id)
      by (intros p; apply (offline_or_same (now o) p)).
    unfold find_participant in Hfind2. rewrite Hfind2. simpl.
    unfold me'. now rewrite stale_requeued. }
  destruct (hd_error (filter (mutually_compatible me')
                        (candidate_window (now o) me' d3))) as [f|] eqn:Ef.
  2:{ cbn [db ui searching_again isSearching]. repeat split; auto. }
  unfold run. rewrite createMatchedSession_run. rewrite !Hok.
  cbn [orb db ui toasts fst snd].
  destruct (has_session (uuid_session o) d3) eqn:Eh.
  { cbn [db snd]. repeat split; auto; discriminate. }
  cbv zeta. cbn [db snd fst bind_participants chat_sessions participants messages].
  split.
  { unfold session_status, find_session in *. cbn [chat_sessions].
    destruct (find (fun r => cs_id r =? cs_id s) (chat_sessions d3)) as [r|] eqn:Er;
      [|discriminate].
    now rewrite (find_app_some _ _ _ _ Er). }
  split; [repeat split; auto|].
  split; [reflexivity|].
  split; [discriminate|].
  split.
  { rewrite map_ids by (intros p; apply bind_or_same). exact Hids3. }
  intros q Hq Hne Hw.
  pose proof (Hother3 q Hq Hne Hw) as Hin3.
  destruct (offline_or_same (now o) q) as (Hid3 & _ & Hw3' & _).
  pose proof (Hw3' Hw) as Hw3. clear Hw3'.
  set (q3 := if stale (now o) q then offline_row q else q) in *.
  apply in_map_iff. exists q3. split; [|exact Hin3].
  assert (H1 : (p_id q3 =? p_id me') = false).
  { apply Z.eqb_neq. unfold me'. simpl. rewrite Hid3, Hid. exact Hne. }
  assert (H2 : (p_id q3 =? p_id f) = false).
  { apply Z.eqb_neq. intros Heq.
    pose proof (hd_error_In _ _ Ef) as Hf. apply filter_In in Hf.
    destruct Hf as [Hf _]. apply candidate_window_In in Hf.
    destruct Hf as [Hfin Hfe]. apply eligible_spec in Hfe.
    assert (Hq3 : q3 = f).
    { apply (unique_row (participants d3));
        [rewrite Hids3; exact Hpk|exact Hin3|exact Hfin|exact Heq]. }
    rewrite Hq3 in Hw3. destruct Hfe as [Hfw _]. congruence. }
  now rewrite H1, H2.
Qed.

(** C3, as the code has it.  A bound participant skips and the store is
    reachable (participant ids unique, the client's participant and session
    rows present).  Then the session is ended in the store; the invoker's
    row is rewritten to seeking and unbound; the matcher search for the
    invoker runs at once from that state and, when it finds a partner, so
    does the pairing; when it finds nobody the invoker stays in the store
    as a seeker and the client keeps searching; no participant row is added
    or removed; and a
    participant other than the invoker that was not seeking (the partner
    that was bound to the session) is not released: afterwards its one row
    is the row it was, still not seeking and with the same bound-session
    reference, but for [is_online], which the sweep that opens the new
    search turns off when the row was last seen more than 30 s ago.  No
    write of skip is addressed to the other side, and no search is started
    for it. *)
Theorem skipChat_spec
    (o : Oracle) (w : World) (s : ChatSession) (me row : Participant)
    (Hok : no_faults o)
    (Hs : currentSession (ui w) = Some s)
    (Hme : currentParticipant (ui w) = Some me)
    (Hpk : NoDup (map p_id (participants (db w))))
    (Hrow : In row (participants (db w)))
    (Hid : p_id row = p_id me)
    (Hsess : has_session (cs_id s) (db w) = true) :
  let w' := run (skipChat o) w in
  let me' := requeue_row (now o) row in
  let w2 := mkWorld
              (snd (requeue_participant o (p_id me)
                      (snd (end_session o (cs_id s) (db w)))))
              (searching_again (ui w) me') (toasts w ++ [Skipped]) in
  let search := findOnlineCompatiblePartner o me' text in
  session_status (db w') (cs_id s) = Some ended /\
  (p_is_waiting me' = true /\ p_session_id me' = None /\
   find_participant (p_id me) (db w2) = Some me') /\
  match result search w2 with
  | Normal (Some f) =>
      db w' = db (run (createMatchedSession o me' f text) (run search w2))
  | _ => w' = run search w2
  end /\
  (result search w2 = Normal None ->
   find_participant (p_id me) (db w') = Some me' /\
   isSearching (ui w') = true) /\
  map p_id (participants (db w')) = map p_id (participants (db w)) /\
  (forall q, In q (participants (db w)) ->
             p_id q <> p_id me -> p_is_waiting q = false ->
             let q' := mkParticipant (p_id q) (p_session_id q) (p_name q)
                         (p_gender q) (p_preferred_gender q) false
                         (p_joined_at q) (p_left_at q) (p_last_seen q)
                         (p_is_online q &&
                          negb (p_last_seen q <? now o - 30000)) in
             In q' (participants (db w')) /\
             forall r, In r (participants (db w')) -> p_id r = p_id q ->
                       r = q').
Proof.
  cbv zeta.
  destruct (skipChat_effect o w s me row Hok Hs Hme Hpk Hrow Hid Hsess)
    as (H1 & H2 & H3 & H4 & H5 & H6).
  cbv zeta in H1, H2, H3, H4, H5, H6.
  split; [exact H1|]. split; [exact H2|]. split; [exact H3|].
  split; [exact H4|]. split; [exact H5|].
  intros q Hq Hne Hw.
  assert (Hrec : (if stale (now o) q then offline_row q else q)
                 = mkParticipant (p_id q) (p_session_id q) (p_name q)
                     (p_gender q) (p_preferred_gender q) false
                     (p_joined_at q) (p_left_at q) (p_last_seen q)
                     (p_is_online q &&
                      negb (p_last_seen q <? now o - 30000))).
  { unfold stale, offline_row. destruct q as [i sid n g pg wt j l seen onl].
    simpl in *. subst wt.
    destruct (seen <? now o - 30000), onl; reflexivity. }
  rewrite <- Hrec. split; [now apply H6|].
  intros r Hr Hrid.
  apply (unique_row (participants (db (run (skipChat o) w)))).
  - rewrite H5. exact Hpk.
  - exact Hr.
  - now apply H6.
  - rewrite Hrid. destruct (stale (now o) q); reflexivity.
Qed.

Lemma skipChat_spec_witness :
  no_faults (at_time 6000 11) /\
  NoDup (map p_id (participants (db chatting))) /\
  has_session (cs_id session10) (db chatting) = true /\
  session_status (db (run (skipChat (at_time 6000 11)) chatting)) 10 = Some ended.
Proof.
  assert (Hok : no_faults (at_time 6000 11)) by (intros site; reflexivity).
  assert (Hpk : NoDup (map p_id (participants (db chatting)))).
  { simpl. repeat constructor; simpl; intuition discriminate. }
  assert (Hrow : In (paired 10 alice) (participants (db chatting)))
    by (simpl; tauto).
  split; [exact Hok|]. split; [exact Hpk|]. split; [reflexivity|].
  exact (proj1 (skipChat_spec (at_time 6000 11) chatting session10
                  (paired 10 alice) (paired 10 alice)
                  Hok eq_refl eq_refl Hpk Hrow eq_refl eq_refl)).
Defined.

(** C3 fails as stated.  Alice skips; Bob, the other bound participant,
    stays as he was: not seeking and still referring to session 10. *)
Lemma skip_leaves_partner_bound :
  ~ claimed_skip_releases_partner (at_time 6000 11) chatting /\
  find_participant 2 (db (run (skipChat (at_time 6000 11)) chatting))
    = Some (paired 10 bob) /\
  p_is_waiting (paired 10 bob) = false /\
  p_session_id (paired 10 bob) = Some 10.
Proof.
  split; [|repeat split; reflexivity].
  intros H.
  destruct (H session10 (paired 10 alice) (paired 10 bob) eq_refl eq_refl)
    as (q' & Hin & Hid & Hw).
  - simpl; tauto.
  - reflexivity.
  - vm_compute. discriminate.
  - vm_compute in Hin. destruct Hin as [<-|[<-|[]]]; vm_compute in Hid, Hw;
      discriminate.
Qed.

(** ** Starting a chat *)

Lemma startChat_run o name g pg ty w :
  run (startChat o name g pg ty) w =
  if fails o InsertParticipant || has_participant (uuid_participant o) (db w) ||
     (List.length (pg_trim (trim name)) =? 0)%nat
  then mkWorld (db w) (gave_up (ui w) (currentParticipant (ui w)))
         (toasts w ++ [StartFailed])
  else
    let p := joined o name g pg in
    let d1 := mkDB (chat_sessions (db w)) (participants (db w) ++ [p])
                (messages (db w)) in
    let d2 := if fails o RpcCleanup then d1
              else cleanup_offline_participants (now o) d1 in
    let c1 := mkClient (currentSession (ui w)) (Some p) (partner (ui w))
                (messages_state (ui w)) (isConnected (ui w)) true
                (Some (p_id p)) in
    match (if fails o SelectCandidates then None
           else hd_error (filter (mutually_compatible p)
                            (candidate_window (now o) p d2))) with
    | None => mkWorld d2 c1 (toasts w ++ [Searching])
    | Some f =>
        match createMatchedSession o p f ty (mkWorld d2 c1 (toasts w)) with
        | (Normal (Some ns), w4) =>
            mkWorld (db w4)
              (mkClient (Some ns) (Some p) (Some f) (messages_state (ui w))
                 true false (Some (p_id p)))
              (toasts w ++ [Connected (p_name f)])
        | (_, w4) =>
            mkWorld (db w4) (gave_up (ui w) (Some p)) (toasts w ++ [StartFailed])
        end
    end.
Proof.
  unfold run, startChat, try_catch, bind, await, setIsSearching,
    setCurrentParticipant, startHeartbeat, stopHeartbeat, setHeartbeatInterval,
    dropped, modify_ui, toast, ret, throw, insert_participant, gave_up, joined.
  unfold bind.
  cbn [fst snd db ui toasts currentSession currentParticipant partner
       messages_state isConnected isSearching heartbeatInterval].
  destruct (fails o InsertParticipant); [reflexivity|].
  destruct (has_participant (uuid_participant o) (db w)); [reflexivity|].
  destruct (List.length (pg_trim (trim name)) =? 0)%nat; [reflexivity|].
  cbn [orb fst snd db ui toasts currentSession currentParticipant partner
       messages_state isConnected isSearching heartbeatInterval p_id].
  rewrite findOnlineCompatiblePartner_run. cbv zeta.
  cbn [fst snd db ui toasts currentSession currentParticipant partner
       messages_state isConnected isSearching heartbeatInterval p_id].
  match goal with
  | |- context [if fails o SelectCandidates then None else ?h] =>
      destruct (if fails o SelectCandidates then None else h) as [f|]
  end; [|reflexivity].
  rewrite !createMatchedSession_run. cbv zeta.
  cbn [fst snd db ui toasts].
  destruct (fails o InsertSession), (lost o InsertSession);
    cbn [orb andb negb];
    match goal with
    | |- context [has_session ?a ?b] => destruct (has_session a b)
    | _ => idtac
    end; cbn [orb andb negb]; try reflexivity;
    destruct (fails o BindParticipants); reflexivity.
Qed.

Lemma has_session_cleanup sid t d :
  has_session sid (cleanup_offline_participants t d) = has_session sid d.
Proof.
  unfold has_session, cleanup_offline_participants, reap_sessions.
  cbn [chat_sessions]. induction (chat_sessions d) as [|x r IH]; [reflexivity|].
  simpl. rewrite IH. f_equal.
  destruct (SessionStatus_eqb (cs_status x) matched && _); reflexivity.
Qed.

(** C9.  [startChat] inserted its participant row (the store was reachable,
    the key free, the trimmed name not empty) and then told the caller that
    the chat failed to start; the client has stopped searching and stopped
    the heartbeat.  What became of the inserted row depends on one thing:
    whether the bind update of the pairing was carried out by the store
    although it was reported as failed.
    - If not, the inserted row is still in the store, exactly as inserted:
      unbound, [is_waiting = true], [is_online = true]; for 30 s it passes
      the sweep and the eligibility filter of any other seeker's search.
    - If so, the compensating delete of the session takes the row with it:
      no row with the newcomer's id is left in the store; and when that
      delete does not reach the store either, every row of the newcomer
      is bound to the session and no longer waiting. *)
Theorem startChat_failure_and_the_inserted_row
    (o : Oracle) (name : jsstring) (g pg : GenderType) (ty : ChatType)
    (w : World)
    (Hreach : fails o InsertParticipant = false)
    (Hins : fst (insert_participant o (trim name) g pg true true (now o) (db w))
            = Data (joined o name g pg))
    (Hfail : toasts (run (startChat o name g pg ty) w)
             = toasts w ++ [StartFailed]) :
  let w' := run (startChat o name g pg ty) w in
  let p := joined o name g pg in
  let bind_ran := fails o InsertSession = false /\
                  has_session (uuid_session o) (db w) = false /\
                  fails o BindParticipants = true /\
                  lost o BindParticipants = true in
  isSearching (ui w') = false /\ heartbeatInterval (ui w') = None /\
  (~ bind_ran ->
   In p (participants (db w')) /\
   p_session_id p = None /\ p_is_waiting p = true /\ p_is_online p = true /\
   (forall t q, t - 30000 <= now o -> p_id q <> p_id p ->
      In p (participants (cleanup_offline_participants t (db w'))) /\
      eligible t q p = true)) /\
  (bind_ran ->
   if fails o DeleteSession
   then forall q, In q (participants (db w')) -> p_id q = p_id p ->
                  p_session_id q = Some (uuid_session o) /\
                  p_is_waiting q = false
   else forall q, In q (participants (db w')) -> p_id q <> p_id p).
Proof.
  cbv zeta.
  assert (Hcond : fails o InsertParticipant ||
                  has_participant (uuid_participant o) (db w) ||
                  (List.length (pg_trim (trim name)) =? 0)%nat = false).
  { rewrite Hreach. unfold insert_participant in Hins. simpl.
    destruct (has_participant (uuid_participant o) (db w)); [discriminate|].
    destruct (List.length (pg_trim (trim name)) =? 0)%nat; [discriminate|].
    reflexivity. }
  revert Hfail. rewrite startChat_run, Hcond. cbv zeta.
  set (p := joined o name g pg).
  set (d1 := mkDB (chat_sessions (db w)) (participants (db w) ++ [p])
               (messages (db w))).
  assert (Hd2 : In p (participants
                  (if fails o RpcCleanup then d1
                   else cleanup_offline_participants (now o) d1))).
  { destruct (fails o RpcCleanup); simpl.
    - apply in_or_app. right. now left.
    - unfold mark_offline. apply in_map_iff. exists p. split.
      + assert (Hs : stale (now o) p = false).
        { unfold stale, p, joined; simpl.
          apply andb_false_iff. left. apply Z.ltb_ge. lia. }
        now rewrite Hs.
      + apply in_or_app. right. now left. }
  assert (Hsess : has_session (uuid_session o)
                    (if fails o RpcCleanup then d1
                     else cleanup_offline_participants (now o) d1)
                  = has_session (uuid_session o) (db w)).
  { destruct (fails o RpcCleanup); [reflexivity|].
    now rewrite has_session_cleanup. }
  set (d2 := if fails o RpcCleanup then d1
             else cleanup_offline_participants (now o) d1) in *.
  assert (Hstay : forall d', In p (participants d') ->
            In p (participants d') /\
            p_session_id p = None /\ p_is_waiting p = true /\
            p_is_online p = true /\
            (forall t q, t - 30000 <= now o -> p_id q <> p_id p ->
               In p (participants (cleanup_offline_participants t d')) /\
               eligible t q p = true)).
  { intros d' Hin. repeat split; auto.
    - unfold cleanup_offline_participants, mark_offline; simpl.
      apply in_map_iff. exists p. split; [|exact Hin].
      assert (Hs : stale t p = false).
      { unfold stale, p, joined; simpl. apply andb_false_iff. left.
        apply Z.ltb_ge. lia. }
      now rewrite Hs.
    - apply eligible_spec. simpl. repeat split; auto. }
  destruct (if fails o SelectCandidates then None
            else hd_error (filter (mutually_compatible p)
                             (candidate_window (now o) p d2))) as [f|].
  2:{ simpl. intros Hf. apply app_inv_head in Hf. discriminate. }
  rewrite createMatchedSession_run. cbv zeta. cbn [db ui toasts].
  rewrite Hsess.
  destruct (fails o InsertSession) eqn:E1.
  { cbn [orb andb fst snd]. intros _.
    split; [reflexivity|]. split; [reflexivity|].
    split; [|intros (H & _); discriminate].
    intros _. apply Hstay.
    destruct (lost o InsertSession &&
              negb (has_session (uuid_session o) (db w))); exact Hd2. }
  destruct (has_session (uuid_session o) (db w)) eqn:E0.
  { cbn [orb andb fst snd]. intros _.
    split; [reflexivity|]. split; [reflexivity|].
    split; [|intros (_ & H & _); discriminate].
    intros _. apply Hstay. exact Hd2. }
  cbn [orb]. destruct (fails o BindParticipants) eqn:E2.
  2:{ simpl. intros Hf. apply app_inv_head in Hf. discriminate. }
  cbn [fst snd db ui toasts gave_up isSearching heartbeatInterval]. intros _.
  split; [reflexivity|]. split; [reflexivity|].
  destruct (lost o BindParticipants) eqn:L2.
  - split; [intros H; elim H; auto|]. intros _.
    destruct (fails o DeleteSession).
    + cbn [snd bind_participants participants]. intros q Hq Hid.
      apply in_map_iff in Hq. destruct Hq as [q0 [Hq0 _]].
      assert (Hq0id : p_id q0 = p_id p).
      { rewrite <- Hid, <- Hq0.
        destruct ((p_id q0 =? p_id p) || (p_id q0 =? p_id f)); reflexivity. }
      rewrite Hq0id, Z.eqb_refl in Hq0. cbn [orb] in Hq0. subst q.
      split; reflexivity.
    + cbn [snd bind_participants delete_session participants chat_sessions
           messages]. intros q Hq Hid.
      apply filter_In in Hq. destruct Hq as [Hq Hr].
      apply in_map_iff in Hq. destruct Hq as [q0 [Hq0 _]].
      assert (Hq0id : p_id q0 = p_id p).
      { rewrite <- Hid, <- Hq0.
        destruct ((p_id q0 =? p_id p) || (p_id q0 =? p_id f)); reflexivity. }
      rewrite Hq0id, Z.eqb_refl in Hq0. cbn [orb] in Hq0. subst q.
      simpl in Hr. rewrite Z.eqb_refl in Hr. discriminate.
  - split; [|intros (_ & _ & _ & H); discriminate].
    intros _. apply Hstay.
    destruct (fails o DeleteSession); cbn [snd delete_session participants];
      [exact Hd2|].
    apply filter_In. split; [exact Hd2|reflexivity].
Qed.

Lemma startChat_failure_and_the_inserted_row_witness :
  fails (answer_lost BindParticipants 2000 50) InsertParticipant = false /\
  toasts (run (startChat (answer_lost BindParticipants 2000 50) dave_name male
                 female text) lobby) = [StartFailed] /\
  participants (db (run (startChat (answer_lost BindParticipants 2000 50)
                           dave_name male female text) lobby))
  = [bob; carol] /\
  forall q, In q (participants
                    (db (run (startChat (answer_lost BindParticipants 2000 50)
                                dave_name male female text) lobby))) ->
            p_id q <> 50.
Proof.
  split; [reflexivity|]. split; [reflexivity|]. split; [reflexivity|].
  refine (proj2 (proj2 (proj2 (startChat_failure_and_the_inserted_row
            (answer_lost BindParticipants 2000 50) dave_name male female
            text lobby eq_refl eq_refl eq_refl))) _).
  repeat split.
Defined.

(** ** The scenarios are states of the system *)

Lemma chatting_is_reached :
  db chatting =
  db (run (createMatchedSession (at_time 1000 10) alice bob text)
        (mkWorld (mkDB [] [alice; bob] []) idle [])).
Proof. reflexivity. Qed.

Lemma left_behind_store :
  db left_behind =
  mkDB [session10_ended] [paired 10 alice; person 2 male female 20 5000] [].
Proof. reflexivity. Qed.

Lemma partner_lost_store :
  db partner_lost =
  mkDB [session10]
       [mkParticipant 1 (Some 10) (js "anon") female male false 10 None 40000 true;
        bob_gone] [] /\
  ui partner_lost = ui chatting.
Proof. split; reflexivity. Qed.

(** ** The partner-status subscription *)

Lemma onPartnerUpdate_store o p w : db (run (onPartnerUpdate o p) w) = db w.
Proof.
  unfold run, onPartnerUpdate, bind, get_ui, toast, dropped, setIsConnected,
    setPartner, modify_ui, ret.
  simpl. destruct (partner (ui w)) as [pt|]; [|reflexivity].
  destruct (currentSession (ui w)) as [s|]; [|reflexivity].
  destruct (negb (p_id p =? p_id pt)); [reflexivity|].
  destruct (negb (p_is_online p)); reflexivity.
Qed.

(** C10, the code at the failing input.  Alice's client is told that Bob
    went offline.  It shows the notice and drops the partner, but the
    request that would end session 10 is never sent: the store is what it
    was and the session is still matched, although the request, had it been
    awaited, would have ended it.  The same holds for every delivery: the
    handler never changes the store. *)
Theorem partner_offline_session_stays_matched :
  (forall o p w, db (run (onPartnerUpdate o p) w) = db w) /\
  p_is_online bob_gone = false /\
  session_status (db partner_lost) 10 = Some matched /\
  session_status (snd (end_session (at_time 41000 77) 10 (db partner_lost))) 10
    = Some ended /\
  session_status (db (step (at_time 41000 77) (PartnerUpdated bob_gone)
                        partner_lost)) 10 = Some matched /\
  toasts (step (at_time 41000 77) (PartnerUpdated bob_gone) partner_lost)
    = [PartnerDisconnected (js "anon")] /\
  isConnected (ui (step (at_time 41000 77) (PartnerUpdated bob_gone)
                     partner_lost)) = false.
Proof.
  split; [exact onPartnerUpdate_store|]. repeat split; reflexivity.
Qed.

(** ** Ended is terminal *)

Lemma ended_kept_refl e d : ended_kept e d d.
Proof. intros sid r Hf Hs. exists r. repeat split; auto. Qed.

Lemma ended_kept_trans e d1 d2 d3 :
  ended_kept e d1 d2 -> ended_kept e d2 d3 -> ended_kept e d1 d3.
Proof.
  intros H12 H23 sid r Hf Hs.
  destruct (H12 sid r Hf Hs) as (r2 & Hf2 & Hs2 & He2).
  destruct (H23 sid r2 Hf2 Hs2) as (r3 & Hf3 & Hs3 & He3).
  exists r3. repeat split; auto.
  intros He. rewrite (He3 He). now apply He2.
Qed.

Lemma ended_kept_weaken e d d' : ended_kept true d d' -> ended_kept e d d'.
Proof.
  intros H sid r Hf Hs. destruct (H sid r Hf Hs) as (r' & Hf' & Hs' & He').
  exists r'. repeat split; auto.
Qed.

Lemma ended_kept_same e d d' :
  chat_sessions d' = chat_sessions d -> ended_kept e d d'.
Proof.
  intros H sid r Hf Hs. exists r. unfold find_session in *. rewrite H.
  repeat split; auto.
Qed.

Lemma ended_kept_map e (g : ChatSession -> ChatSession) d d' :
  chat_sessions d' = map g (chat_sessions d) ->
  (forall r, cs_id (g r) = cs_id r) ->
  (forall r, cs_status r = ended -> row_kept e r (g r)) ->
  ended_kept e d d'.
Proof.
  intros H Hid Hg sid r Hf Hs. exists (g r). unfold find_session in *.
  rewrite H, (find_map_by_id cs_id) by exact Hid.
  rewrite Hf. split; [reflexivity|now apply Hg].
Qed.

Lemma ended_kept_append e d d' x :
  chat_sessions d' = chat_sessions d ++ [x] -> ended_kept e d d'.
Proof.
  intros H sid r Hf Hs. exists r. unfold find_session in *. rewrite H.
  split; [now apply find_app_some|repeat split; auto].
Qed.

Lemma keeps_weaken {A : Type} e (m : M A) : keeps_ended true m -> keeps_ended e m.
Proof. intros H w. apply ended_kept_weaken, H. Qed.

Lemma keeps_ret {A : Type} e (a : A) : keeps_ended e (ret a).
Proof. intros w. apply ended_kept_refl. Qed.

Lemma keeps_throw {A : Type} e (x : Exn) : keeps_ended e (@throw A x).
Proof. intros w. apply ended_kept_refl. Qed.

Lemma keeps_bind {A B : Type} e (m : M A) (k : A -> M B) :
  keeps_ended e m -> (forall a, keeps_ended e (k a)) -> keeps_ended e (bind m k).
Proof.
  intros Hm Hk w. unfold bind. specialize (Hm w).
  destruct (m w) as [[a|x] w1]; simpl in *; [|exact Hm].
  eapply ended_kept_trans; [exact Hm|apply Hk].
Qed.

Lemma keeps_try {A : Type} e (m : M A) (h : Exn -> M A) :
  keeps_ended e m -> (forall x, keeps_ended e (h x)) ->
  keeps_ended e (try_catch m h).
Proof.
  intros Hm Hh w. unfold try_catch. specialize (Hm w).
  destruct (m w) as [[a|x] w1]; simpl in *; [exact Hm|].
  eapply ended_kept_trans; [exact Hm|apply Hh].
Qed.

Lemma keeps_modify_ui e f : keeps_ended e (modify_ui f).
Proof. intros w. apply ended_kept_refl. Qed.

Lemma keeps_toast e t : keeps_ended e (toast t).
Proof. intros w. apply ended_kept_refl. Qed.

Lemma keeps_get_ui e : keeps_ended e get_ui.
Proof. intros w. apply ended_kept_refl. Qed.

Lemma keeps_dropped {A : Type} e (r : Request A) : keeps_ended e (dropped r).
Proof. intros w. apply ended_kept_refl. Qed.

Lemma keeps_await {A : Type} e o site (r : Request A) :
  (forall d, ended_kept e d (snd (r d))) -> keeps_ended e (await o site r).
Proof.
  intros H w. unfold await.
  destruct (fails o site); simpl; [apply ended_kept_refl|].
  specialize (H (db w)). destruct (r (db w)) as [a d]. exact H.
Qed.

(** The statements of the store, one by one. *)

Lemma insert_session_kept e o ty st d :
  ended_kept e d (snd (insert_session o ty st d)).
Proof.
  unfold insert_session. destruct (has_session (uuid_session o) d); simpl.
  - apply ended_kept_refl.
  - eapply ended_kept_append. reflexivity.
Qed.

Lemma insert_participant_kept e o n g pg wt onl seen d :
  ended_kept e d (snd (insert_participant o n g pg wt onl seen d)).
Proof.
  unfold insert_participant.
  destruct (has_participant (uuid_participant o) d); [apply ended_kept_refl|].
  destruct (List.length (pg_trim n) =? 0)%nat; [apply ended_kept_refl|].
  now apply ended_kept_same.
Qed.

Lemma insert_message_kept e o sid pid c d :
  ended_kept e d (snd (insert_message o sid pid c d)).
Proof.
  unfold insert_message.
  destruct (has_nul c); [apply ended_kept_refl|].
  destruct (has_message (uuid_message o) d); [apply ended_kept_refl|].
  destruct (negb (has_session sid d && has_participant pid d));
    [apply ended_kept_refl|].
  destruct (List.length (pg_trim c) =? 0)%nat; [apply ended_kept_refl|].
  now apply ended_kept_same.
Qed.

Lemma end_session_kept o sid d : ended_kept false d (snd (end_session o sid d)).
Proof.
  eapply ended_kept_map; [reflexivity| |]; cbv beta.
  - intros r. destruct (cs_id r =? sid); reflexivity.
  - intros r Hs. split; [|discriminate].
    destruct (cs_id r =? sid); [reflexivity|exact Hs].
Qed.

Lemma bind_participants_kept e o sid a b d :
  ended_kept e d (snd (bind_participants o sid a b d)).
Proof. now apply ended_kept_same. Qed.

Lemma requeue_participant_kept e o pid d :
  ended_kept e d (snd (requeue_participant o pid d)).
Proof.
  unfold requeue_participant.
  destruct (single _); [now apply ended_kept_same|apply ended_kept_refl].
Qed.

Lemma leave_participant_kept e o pid d :
  ended_kept e d (snd (leave_participant o pid d)).
Proof. now apply ended_kept_same. Qed.

Lemma cleanup_kept e t d : ended_kept e d (cleanup_offline_participants t d).
Proof.
  eapply ended_kept_map; [reflexivity| |]; cbv beta.
  - intros r. match goal with |- context [if ?c then _ else _] => destruct c end;
      reflexivity.
  - intros r Hs. rewrite Hs. simpl. split; auto.
Qed.

Lemma heartbeat_kept e t pid d :
  ended_kept e d (update_participant_heartbeat t pid d).
Proof. now apply ended_kept_same. Qed.

(** The two composite steps of the hook. *)

Lemma keeps_find e o me ty : keeps_ended e (findOnlineCompatiblePartner o me ty).
Proof.
  intros w. rewrite findOnlineCompatiblePartner_run. cbv zeta. simpl.
  destruct (fails o RpcCleanup); [apply ended_kept_refl|apply cleanup_kept].
Qed.

Lemma keeps_create e o a b ty : keeps_ended e (createMatchedSession o a b ty).
Proof.
  intros w. rewrite createMatchedSession_run. cbv zeta.
  destruct (fails o InsertSession || has_session (uuid_session o) (db w)) eqn:E1.
  { cbn [snd].
    destruct (fails o InsertSession && lost o InsertSession &&
              negb (has_session (uuid_session o) (db w)));
      [eapply ended_kept_append; reflexivity|apply ended_kept_refl]. }
  apply orb_false_iff in E1. destruct E1 as [_ Hfresh].
  assert (Hrb : filter (fun x => negb (cs_id x =? uuid_session o))
                  (chat_sessions (db w) ++ [new_session o ty])
                = chat_sessions (db w)).
  { rewrite filter_app; simpl. rewrite Z.eqb_refl; simpl.
    rewrite app_nil_r. apply filter_all.
    intros x Hx. unfold has_session in Hfresh.
    rewrite existsb_false_forall in Hfresh. now rewrite (Hfresh x Hx). }
  destruct (fails o BindParticipants); simpl.
  - destruct (lost o BindParticipants), (fails o DeleteSession); simpl;
      first [eapply ended_kept_append; reflexivity
            |apply ended_kept_same; simpl; exact Hrb].
  - eapply ended_kept_append. reflexivity.
Qed.

Ltac keeps_step :=
  first
    [ apply keeps_find
    | apply keeps_create
    | apply keeps_bind; [|intros ?]
    | apply keeps_try; [|intros ?]
    | apply keeps_ret
    | apply keeps_throw
    | apply keeps_modify_ui
    | apply keeps_toast
    | apply keeps_get_ui
    | apply keeps_dropped
    | apply keeps_await; intros ?;
      first [ apply insert_session_kept | apply insert_participant_kept
            | apply insert_message_kept | apply bind_participants_kept
            | apply requeue_participant_kept | apply leave_participant_kept
            | apply cleanup_kept | apply heartbeat_kept
            | apply end_session_kept | apply ended_kept_refl ]
    | match goal with
      | |- keeps_ended _ (match ?x with _ => _ end) => destruct x
      end ].

Ltac keeps :=
  unfold setCurrentSession, setCurrentParticipant, setPartner, setMessages,
    setIsConnected, setIsSearching, setHeartbeatInterval, stopHeartbeat,
    startHeartbeat, rpc_cleanup, rpc_heartbeat, select_candidates,
    select_messages, select_session, select_partners;
  repeat keeps_step.

Lemma keeps_startChat e o n g pg ty : keeps_ended e (startChat o n g pg ty).
Proof. unfold startChat. keeps. Qed.

Lemma keeps_sendMessage e o c : keeps_ended e (sendMessage o c).
Proof. unfold sendMessage. keeps. Qed.

Lemma keeps_skipChat o : keeps_ended false (skipChat o).
Proof. unfold skipChat. keeps. Qed.

Lemma keeps_stopChat o : keeps_ended false (stopChat o).
Proof. unfold stopChat. keeps. Qed.

Lemma keeps_heartbeatTick e o : keeps_ended e (heartbeatTick o).
Proof. unfold heartbeatTick. keeps. Qed.

Lemma keeps_onParticipantInsert e o p : keeps_ended e (onParticipantInsert o p).
Proof. unfold onParticipantInsert. keeps. Qed.

Lemma keeps_onParticipantUpdate e o p : keeps_ended e (onParticipantUpdate o p).
Proof. unfold onParticipantUpdate. keeps. Qed.

Lemma keeps_onMessageInsert e m : keeps_ended e (onMessageInsert m).
Proof. unfold onMessageInsert. keeps. Qed.

Lemma keeps_loadMessages e o : keeps_ended e (loadMessages o).
Proof. unfold loadMessages. keeps. Qed.

Lemma keeps_onPartnerUpdate e o p : keeps_ended e (onPartnerUpdate o p).
Proof. unfold onPartnerUpdate. keeps. Qed.

Lemma keeps_unmount e o : keeps_ended e (unmount o).
Proof. unfold unmount. keeps. Qed.

Lemma keeps_reaper e o : keeps_ended e (reaper o).
Proof. unfold reaper. keeps. Qed.

(** C7, as the code has it.  A session row that is ended stays in the store
    with status ended under every action of the system, with a reachable or
    an unreachable store; and every action other than skip and stop, the
    reaper sweep included, leaves the row exactly as it is. *)
Theorem ended_is_terminal
    (o : Oracle) (a : Action) (w : World) (sid : Id) (r : ChatSession)
    (Hrow : find_session sid (db w) = Some r)
    (Hended : cs_status r = ended) :
  exists r', find_session sid (db (step o a w)) = Some r' /\
             cs_status r' = ended /\
             (a <> SkipChat -> a <> StopChat -> r' = r).
Proof.
  assert (H : keeps_ended false (perform o a) /\
              (a <> SkipChat -> a <> StopChat -> keeps_ended true (perform o a))).
  { destruct a; simpl; split; intros;
      try congruence;
      first [ apply keeps_startChat | apply keeps_sendMessage
            | apply keeps_skipChat | apply keeps_stopChat
            | apply keeps_heartbeatTick | apply keeps_onParticipantInsert
            | apply keeps_onParticipantUpdate | apply keeps_onMessageInsert
            | apply keeps_loadMessages | apply keeps_onPartnerUpdate
            | apply keeps_unmount | apply keeps_reaper ]. }
  destruct H as [Hall Hexact].
  destruct (Hall w sid r Hrow Hended) as (r' & Hf & Hs & _).
  exists r'. unfold step, run. repeat split; auto.
  intros H1 H2.
  destruct (Hexact H1 H2 w sid r Hrow Hended) as (r'' & Hf' & _ & He).
  rewrite Hf in Hf'. injection Hf' as <-. now apply He.
Qed.

Lemma ended_is_terminal_witness :
  find_session 10 (db left_behind) = Some session10_ended /\
  exists r', find_session 10 (db (step (at_time 9000 11) Reaper left_behind))
               = Some r' /\
             cs_status r' = ended /\
             (Reaper <> SkipChat -> Reaper <> StopChat -> r' = session10_ended).
Proof.
  split; [reflexivity|].
  exact (ended_is_terminal (at_time 9000 11) Reaper left_behind 10
           session10_ended eq_refl eq_refl).
Defined.

(** C7 fails as stated.  Session 10 was ended at 5000; Alice's client still
    holds it and she stops at 9000: the row is written again, its
    [ended_at] is now 9000. *)
Lemma stop_rewrites_ended_timestamp :
  ~ claimed_end_is_noop (at_time 9000 11) left_behind /\
  option_map cs_ended_at (find_session 10 (db left_behind)) = Some (Some 5000) /\
  option_map cs_ended_at
    (find_session 10 (db (step (at_time 9000 11) StopChat left_behind)))
    = Some (Some 9000).
Proof.
  split; [|split; reflexivity].
  intros H.
  specialize (H session10 session10_ended eq_refl eq_refl eq_refl).
  vm_compute in H. discriminate.
Qed.

(** * Further properties of the code *)

(** ** Heartbeats and the sweep *)

Lemma beat_in t pid d p :
  In p (participants (update_participant_heartbeat t pid d)) ->
  p_id p = pid -> p_last_seen p = t /\ p_is_online p = true.
Proof.
  unfold update_participant_heartbeat; simpl. intros Hin Hid.
  apply in_map_iff in Hin. destruct Hin as [q [Hq Hin]].
  destruct (p_id q =? pid) eqn:E; subst p; [split; reflexivity|].
  apply Z.eqb_neq in E. contradiction.
Qed.

(** X1.  A heartbeat received at [t] shields the participant from every
    sweep that runs within the next 30 s: its rows pass the sweep untouched
    and no session they are bound to is touched by it. *)
Theorem heartbeat_shields_from_sweep
    (t t' : Timestamp) (pid : Id) (d : DB) (p : Participant)
    (Hsoon : t' - 30000 <= t)
    (Hin : In p (participants (update_participant_heartbeat t pid d)))
    (Hid : p_id p = pid) :
  let d1 := update_participant_heartbeat t pid d in
  In p (participants (cleanup_offline_participants t' d1)) /\
  (forall s, In s (chat_sessions d1) -> p_session_id p = Some (cs_id s) ->
             In s (chat_sessions (cleanup_offline_participants t' d1))).
Proof.
  cbv zeta. destruct (beat_in t pid d p Hin Hid) as [Hseen Honl].
  assert (Hst : stale t' p = false).
  { unfold stale. apply andb_false_iff. left. apply Z.ltb_ge. lia. }
  assert (Hkept : In p (mark_offline t'
                    (participants (update_participant_heartbeat t pid d)))).
  { unfold mark_offline. apply in_map_iff. exists p. now rewrite Hst. }
  split; [exact Hkept|].
  intros s Hs Hb. unfold cleanup_offline_participants, reap_sessions.
  cbn [chat_sessions]. apply in_map_iff. exists s. split; [|exact Hs].
  assert (Hg : group_all_offline
                 (mark_offline t'
                    (participants (update_participant_heartbeat t pid d)))
                 (cs_id s) = false).
  { destruct (group_all_offline _ (cs_id s)) eqn:E; [|reflexivity].
    apply group_all_offline_spec in E. destruct E as [_ Hall].
    specialize (Hall p Hkept Hb). congruence. }
  rewrite Hg, andb_false_r. reflexivity.
Qed.

Lemma heartbeat_shields_from_sweep_witness :
  30000 - 30000 <= 20000 /\
  In (beat_row 20000 (paired 10 bob))
     (participants (cleanup_offline_participants 30000
                      (update_participant_heartbeat 20000 2 (db chatting)))).
Proof.
  assert (H : 30000 - 30000 <= 20000) by lia.
  split; [exact H|].
  refine (proj1 (heartbeat_shields_from_sweep 20000 30000 2 (db chatting)
                   (beat_row 20000 (paired 10 bob)) H _ eq_refl)).
  simpl. tauto.
Defined.

(** X2.  A participant that a sweep marked offline does not come back into
    the pool when its heartbeats resume: the heartbeat turns [is_online] on
    again but leaves [is_waiting] off, so no search at any time, for any
    seeker, finds the row eligible. *)
Theorem swept_participant_stays_out
    (t1 t2 : Timestamp) (d : DB) (p : Participant)
    (Hin : In p (participants d))
    (Hexp : liveness_expired t1 p) :
  let p' := mkParticipant (p_id p) (p_session_id p) (p_name p) (p_gender p)
              (p_preferred_gender p) false (p_joined_at p) (p_left_at p)
              t2 true in
  In p' (participants (update_participant_heartbeat t2 (p_id p)
                         (cleanup_offline_participants t1 d))) /\
  forall t me, eligible t me p' = false.
Proof.
  cbv zeta. split; [|reflexivity].
  unfold update_participant_heartbeat, cleanup_offline_participants,
    mark_offline. cbn [participants].
  apply in_map_iff. exists (offline_row p). split.
  - simpl. rewrite Z.eqb_refl. reflexivity.
  - apply in_map_iff. exists p. split; [|exact Hin].
    apply stale_spec in Hexp. now rewrite Hexp.
Qed.

Lemma swept_participant_stays_out_witness :
  In ghost (participants (db pool)) /\ liveness_expired 100000 ghost /\
  In (mkParticipant 2 None (js "anon") any any false 5 None 100001 true)
     (participants (update_participant_heartbeat 100001 2
                      (cleanup_offline_participants 100000 (db pool)))).
Proof.
  assert (Hin : In ghost (participants (db pool))) by (simpl; tauto).
  assert (Hexp : liveness_expired 100000 ghost).
  { split; [reflexivity|]. simpl. lia. }
  split; [exact Hin|]. split; [exact Hexp|].
  exact (proj1 (swept_participant_stays_out 100000 100001 (db pool) ghost
                  Hin Hexp)).
Defined.

(** X3.  After a sweep at [t] every participant that is still online was
    seen within the last 30 s, every participant that is still waiting is
    online, and the sweep turned no flag on. *)
Theorem sweep_leaves_only_live_online (t : Timestamp) (d : DB) :
  (forall p, In p (participants (cleanup_offline_participants t d)) ->
             p_is_online p = true -> t - 30000 <= p_last_seen p) /\
  Forall2 (fun p p' =>
             (p_is_online p' = true -> p_is_online p = true) /\
             (p_is_waiting p' = true -> p_is_waiting p = true /\ p' = p))
          (participants d) (participants (cleanup_offline_participants t d)).
Proof.
  split.
  - intros p Hin Honl. unfold cleanup_offline_participants, mark_offline in Hin.
    cbn [participants] in Hin. apply in_map_iff in Hin.
    destruct Hin as [q [Hq Hin]].
    destruct (stale t q) eqn:E; subst p; [discriminate|].
    unfold stale in E. rewrite Honl, andb_true_r in E.
    apply Z.ltb_ge in E. exact E.
  - unfold cleanup_offline_participants, mark_offline. cbn [participants].
    apply Forall2_map_self. intros p.
    destruct (stale t p); simpl; split; auto; discriminate.
Qed.

(** X4.  A heartbeat for an id that has no row changes nothing, and a
    heartbeat repeated at the same instant changes nothing more. *)
Theorem heartbeat_edge_cases (t : Timestamp) (pid : Id) (d : DB) :
  (has_participant pid d = false -> update_participant_heartbeat t pid d = d) /\
  update_participant_heartbeat t pid (update_participant_heartbeat t pid d)
    = update_participant_heartbeat t pid d.
Proof.
  split.
  - intros H. unfold update_participant_heartbeat.
    unfold has_participant in H. rewrite existsb_false_forall in H.
    rewrite (map_ext_in _ (fun p => p)).
    + rewrite map_id. destruct d; reflexivity.
    + intros p Hp. now rewrite (H p Hp).
  - unfold update_participant_heartbeat. cbn [participants chat_sessions messages].
    rewrite map_map. f_equal. apply map_ext. intros p.
    destruct (p_id p =? pid) eqn:E; simpl; rewrite E; reflexivity.
Qed.

(** ** Compatibility *)

(** Mutual compatibility is symmetric: whoever I may be matched with may
    be matched with me. *)
Lemma mutually_compatible_sym (a b : Participant) :
  mutually_compatible a b = mutually_compatible b a.
Proof. unfold mutually_compatible. apply andb_comm. Qed.

(** X5.  Gender [any] is a value like the others, not a wildcard, on the
    side of the declared gender: a participant who declared [any] is
    compatible only with partners whose preference is [any], and a partner
    with a definite preference is compatible only with that very gender. *)
Theorem any_gender_matches_only_any_preference (me p : Participant) :
  mutually_compatible me p = true ->
  (p_gender me = any -> p_preferred_gender p = any) /\
  (p_preferred_gender p <> any -> p_gender me = p_preferred_gender p).
Proof.
  intros H. apply mutually_compatible_spec in H. destruct H as [[H|H] _].
  - split; [auto|congruence].
  - split; [congruence|auto].
Qed.

Lemma any_gender_matches_only_any_preference_witness :
  mutually_compatible seeker late_id = true /\
  (p_gender seeker = any -> p_preferred_gender late_id = any).
Proof.
  split; [reflexivity|].
  exact (proj1 (any_gender_matches_only_any_preference seeker late_id eq_refl)).
Defined.

(** ** The three outcomes of startChat *)

Lemma joined_in_pool o name g pg d :
  let p := joined o name g pg in
  let d1 := mkDB (chat_sessions d) (participants d ++ [p]) (messages d) in
  In p (participants (if fails o RpcCleanup then d1
                      else cleanup_offline_participants (now o) d1)).
Proof.
  cbv zeta. destruct (fails o RpcCleanup); simpl.
  - apply in_or_app. right. now left.
  - unfold mark_offline. apply in_map_iff. exists (joined o name g pg). split.
    + assert (Hs : stale (now o) (joined o name g pg) = false).
      { unfold stale, joined; simpl.
        apply andb_false_iff. left. apply Z.ltb_ge. lia. }
      now rewrite Hs.
    + apply in_or_app. right. now left.
Qed.

Lemma createMatchedSession_client o a b ty d c ts c' ts' :
  fst (createMatchedSession o a b ty (mkWorld d c ts))
  = fst (createMatchedSession o a b ty (mkWorld d c' ts')) /\
  db (snd (createMatchedSession o a b ty (mkWorld d c ts)))
  = db (snd (createMatchedSession o a b ty (mkWorld d c' ts'))).
Proof.
  rewrite !createMatchedSession_run. cbv zeta. cbn [db ui toasts].
  destruct (fails o InsertSession || has_session (uuid_session o) d).
  - split; [reflexivity|]. cbn [snd].
    destruct (fails o InsertSession && lost o InsertSession &&
              negb (has_session (uuid_session o) d)); reflexivity.
  - destruct (fails o BindParticipants); split; reflexivity.
Qed.

Lemma last_notice (ts : list Toast) x y : ts ++ [x] = ts ++ [y] -> x = y.
Proof. intros H. apply app_inj_tail in H. tauto. Qed.

(** X6.  [startChat] ends in exactly one of three ways, each announced by
    one notice, and which one is decided by its three steps: the insert of
    the participant, the search, the pairing.
    - "Searching" exactly when the insert is taken (the request is
      answered, the key free, the trimmed name not empty) and the search
      answers nobody.  Then the store is the one the search left, the new
      participant is in the pool and the client searches.
    - "Connected" with partner [f] exactly when the insert is taken, the
      search answers [f] and the pairing succeeds.  Then the partner is
      another participant, mutually compatible with the newcomer; the store
      holds the new matched session; every row of the newcomer and of the
      partner is bound to it and no longer waiting; the client holds that
      session and that partner.
    - "Failed" exactly when the insert is not taken, or the search answers
      a partner and the pairing fails.  Then the client neither searches
      nor has a heartbeat timer. *)
Theorem startChat_outcomes
    (o : Oracle) (name : jsstring) (g pg : GenderType) (ty : ChatType)
    (w : World) :
  let w' := run (startChat o name g pg ty) w in
  let p := joined o name g pg in
  let inserted := fails o InsertParticipant = false /\
                  has_participant (uuid_participant o) (db w) = false /\
                  trim name <> [] in
  let w1 := mkWorld (mkDB (chat_sessions (db w)) (participants (db w) ++ [p])
                       (messages (db w))) (ui w) (toasts w) in
  let search := findOnlineCompatiblePartner o p ty in
  let pairing := fun f => createMatchedSession o p f ty in
  (toasts w' = toasts w ++ [StartFailed] \/
   toasts w' = toasts w ++ [Searching] \/
   exists f, toasts w' = toasts w ++ [Connected (p_name f)] /\
             partner (ui w') = Some f) /\
  (toasts w' = toasts w ++ [Searching] <->
   inserted /\ result search w1 = Normal None) /\
  (forall f,
     toasts w' = toasts w ++ [Connected (p_name f)] /\
     partner (ui w') = Some f /\ isConnected (ui w') = true <->
     inserted /\ result search w1 = Normal (Some f) /\
     result (pairing f) (run search w1) = Normal (Some (new_session o ty))) /\
  (toasts w' = toasts w ++ [StartFailed] <->
   ~ inserted \/
   exists f, inserted /\ result search w1 = Normal (Some f) /\
             result (pairing f) (run search w1) = Normal None) /\
  (toasts w' = toasts w ++ [StartFailed] ->
   isSearching (ui w') = false /\ heartbeatInterval (ui w') = None /\
   currentSession (ui w') = currentSession (ui w)) /\
  (toasts w' = toasts w ++ [Searching] ->
   db w' = db (run search w1) /\
   In p (participants (db w')) /\ currentParticipant (ui w') = Some p /\
   isSearching (ui w') = true /\
   (fails o SelectCandidates = true \/
    forall q, In q (candidate_window (now o) p (db w')) ->
              mutually_compatible p q = false)) /\
  (forall f,
     toasts w' = toasts w ++ [Connected (p_name f)] ->
     partner (ui w') = Some f -> isConnected (ui w') = true ->
     db w' = db (run (pairing f) (run search w1)) /\
     currentSession (ui w') = Some (new_session o ty) /\
     currentParticipant (ui w') = Some p /\ isSearching (ui w') = false /\
     mutually_compatible p f = true /\ p_id f <> p_id p /\
     In (new_session o ty) (chat_sessions (db w')) /\
     (exists p' f', In p' (participants (db w')) /\ p_id p' = p_id p /\
                    In f' (participants (db w')) /\ p_id f' = p_id f) /\
     (forall q, In q (participants (db w')) ->
                p_id q = p_id p \/ p_id q = p_id f ->
                p_session_id q = Some (cs_id (new_session o ty)) /\
                p_is_waiting q = false)).
Proof.
  cbv zeta.
  assert (Hins : fails o InsertParticipant ||
                 has_participant (uuid_participant o) (db w) ||
                 (List.length (pg_trim (trim name)) =? 0)%nat = false <->
                 fails o InsertParticipant = false /\
                 has_participant (uuid_participant o) (db w) = false /\
                 trim name <> []).
  { rewrite pg_trim_trim, !orb_false_iff, Nat.eqb_neq.
    rewrite length_zero_iff_nil. tauto. }
  rewrite startChat_run. unfold result, run.
  rewrite findOnlineCompatiblePartner_run. cbv zeta. cbn [fst snd db ui toasts].
  destruct (fails o InsertParticipant ||
            has_participant (uuid_participant o) (db w) ||
            (List.length (pg_trim (trim name)) =? 0)%nat) eqn:Ec.
  { assert (Hn : ~ (fails o InsertParticipant = false /\
                    has_participant (uuid_participant o) (db w) = false /\
                    trim name <> [])).
    { intros H. apply Hins in H. discriminate. }
    cbn [db ui toasts gave_up isSearching heartbeatInterval currentSession
         partner isConnected].
    split; [now left|].
    split; [split; [intros H; apply last_notice in H; discriminate|tauto]|].
    split; [intros f; split;
            [intros (H & _); apply last_notice in H; discriminate|tauto]|].
    split; [split; [now left|reflexivity]|].
    split; [auto|].
    split; [intros H; apply last_notice in H; discriminate|].
    intros f H. apply last_notice in H. discriminate. }
  assert (Hi : fails o InsertParticipant = false /\
               has_participant (uuid_participant o) (db w) = false /\
               trim name <> []) by (now apply Hins).
  cbv zeta.
  pose proof (joined_in_pool o name g pg (db w)) as Hp. cbv zeta in Hp.
  set (p := joined o name g pg) in *.
  set (d2 := if fails o RpcCleanup
             then mkDB (chat_sessions (db w)) (participants (db w) ++ [p])
                    (messages (db w))
             else cleanup_offline_participants (now o)
                    (mkDB (chat_sessions (db w)) (participants (db w) ++ [p])
                       (messages (db w)))) in *.
  set (found := if fails o SelectCandidates then None
                else hd_error (filter (mutually_compatible p)
                                 (candidate_window (now o) p d2))).
  assert (Hnone : found = None ->
                  fails o SelectCandidates = true \/
                  forall q, In q (candidate_window (now o) p d2) ->
                            mutually_compatible p q = false).
  { unfold found. destruct (fails o SelectCandidates); [now left|].
    intros H. right. now apply hd_error_filter_none. }
  assert (Hsome : forall f, found = Some f ->
                  In f (participants d2) /\ mutually_compatible p f = true /\
                  p_id f <> p_id p).
  { unfold found. destruct (fails o SelectCandidates); [discriminate|].
    intros f Ef. pose proof (hd_error_In _ _ Ef) as Hf. apply filter_In in Hf.
    destruct Hf as [Hfw Hfc]. apply candidate_window_In in Hfw.
    destruct Hfw as [Hfin Hfe]. apply eligible_spec in Hfe. tauto. }
  destruct found as [f|] eqn:Ef.
  2:{ cbn [db ui toasts currentParticipant isSearching partner isConnected].
      split; [right; now left|].
      split; [tauto|].
      split; [intros f; split;
              [intros (H & _); apply last_notice in H; discriminate
              |intros (_ & H & _); discriminate]|].
      split; [split; [intros H; apply last_notice in H; discriminate
                     |intros [H|(f & _ & H & _)]; [tauto|discriminate]]|].
      split; [intros H; apply last_notice in H; discriminate|].
      split; [intros _; repeat split; auto|].
      intros f H. apply last_notice in H. discriminate. }
  destruct (Hsome f eq_refl) as (Hfin & Hfc & Hfid).
  destruct (createMatchedSession_client o p f ty d2
              (mkClient (currentSession (ui w)) (Some p) (partner (ui w))
                 (messages_state (ui w)) (isConnected (ui w)) true
                 (Some (p_id p))) (toasts w) (ui w) (toasts w))
    as [Hres Hdb].
  rewrite (createMatchedSession_run o p f ty
             (mkWorld d2
                (mkClient (currentSession (ui w)) (Some p) (partner (ui w))
                   (messages_state (ui w)) (isConnected (ui w)) true
                   (Some (p_id p))) (toasts w))) in Hres, Hdb |- *.
  cbv zeta in Hres, Hdb |- *. cbn [db ui toasts] in Hres, Hdb |- *.
  destruct (fails o InsertSession || has_session (uuid_session o) d2) eqn:E1;
    [|destruct (fails o BindParticipants) eqn:E2].
  - cbn [fst snd db ui toasts gave_up isSearching heartbeatInterval
         currentSession partner isConnected] in Hres, Hdb |- *.
    split; [now left|].
    split; [split; [intros H; apply last_notice in H; discriminate
                   |intros (_ & H); discriminate]|].
    split; [intros f'; split;
            [intros (H & _); apply last_notice in H; discriminate
            |intros (_ & H & H'); injection H as <-;
             rewrite <- Hres in H'; discriminate]|].
    split; [split; [intros _; right; exists f; auto|reflexivity]|].
    split; [auto|].
    split; [intros H; apply last_notice in H; discriminate|].
    intros f' H. apply last_notice in H. discriminate.
  - cbn [fst snd db ui toasts gave_up isSearching heartbeatInterval
         currentSession partner isConnected] in Hres, Hdb |- *.
    split; [now left|].
    split; [split; [intros H; apply last_notice in H; discriminate
                   |intros (_ & H); discriminate]|].
    split; [intros f'; split;
            [intros (H & _); apply last_notice in H; discriminate
            |intros (_ & H & H'); injection H as <-;
             rewrite <- Hres in H'; discriminate]|].
    split; [split; [intros _; right; exists f; auto|reflexivity]|].
    split; [auto|].
    split; [intros H; apply last_notice in H; discriminate|].
    intros f' H. apply last_notice in H. discriminate.
  - cbn [fst snd db ui toasts snd bind_participants participants chat_sessions
         currentSession currentParticipant partner isConnected isSearching]
      in Hres, Hdb |- *.
    split; [right; right; exists f; auto|].
    split; [split; [intros H; apply last_notice in H; discriminate
                   |intros (_ & H); discriminate]|].
    split.
    { intros f'. split.
      - intros (_ & H & _). injection H as <-. auto.
      - intros (_ & H & _). injection H as <-. auto. }
    split; [split; [intros H; apply last_notice in H; discriminate
                   |intros [H|(f' & _ & H & H')];
                    [tauto|injection H as <-; rewrite <- Hres in H';
                           discriminate]]|].
    split; [intros H; apply last_notice in H; discriminate|].
    split; [intros H; apply last_notice in H; discriminate|].
    intros f' _ Hpart _. injection Hpart as <-.
    split; [rewrite <- Hdb; reflexivity|].
    split; [reflexivity|]. split; [reflexivity|].
    split; [reflexivity|]. split; [exact Hfc|]. split; [exact Hfid|].
    split; [apply in_or_app; right; now left|].
    split.
    { exists (bind_row (uuid_session o) (now o) p),
             (bind_row (uuid_session o) (now o) f).
      repeat split.
      + apply in_map_iff. exists p. split; [|exact Hp].
        now rewrite Z.eqb_refl.
      + apply in_map_iff. exists f. split; [|exact Hfin].
        now rewrite Z.eqb_refl, orb_true_r. }
    intros q Hq Hor. apply in_map_iff in Hq. destruct Hq as [q0 [Hq0 _]].
    destruct ((p_id q0 =? p_id p) || (p_id q0 =? p_id f)) eqn:E; subst q;
      [split; reflexivity|].
    apply orb_false_iff in E. destruct E as [E3 E4].
    apply Z.eqb_neq in E3, E4. tauto.
Qed.

(** ** Reasoning about every step of an operation *)

Section StepsFacts.
Variable R : DB -> DB -> Prop.
Hypothesis Rrefl : forall d, R d d.
Hypothesis Rtrans : forall d1 d2 d3, R d1 d2 -> R d2 d3 -> R d1 d3.

Lemma steps_ret {A : Type} (a : A) : steps R (ret a).
Proof. intros w. apply Rrefl. Qed.

Lemma steps_throw {A : Type} (x : Exn) : steps R (@throw A x).
Proof. intros w. apply Rrefl. Qed.

Lemma steps_bind {A B : Type} (m : M A) (k : A -> M B) :
  steps R m -> (forall a, steps R (k a)) -> steps R (bind m k).
Proof.
  intros Hm Hk w. unfold bind. specialize (Hm w).
  destruct (m w) as [[a|x] w1]; simpl in *; [|exact Hm].
  eapply Rtrans; [exact Hm|apply Hk].
Qed.

Lemma steps_try {A : Type} (m : M A) (h : Exn -> M A) :
  steps R m -> (forall x, steps R (h x)) -> steps R (try_catch m h).
Proof.
  intros Hm Hh w. unfold try_catch. specialize (Hm w).
  destruct (m w) as [[a|x] w1]; simpl in *; [exact Hm|].
  eapply Rtrans; [exact Hm|apply Hh].
Qed.

Lemma steps_modify_ui f : steps R (modify_ui f).
Proof. intros w. apply Rrefl. Qed.

Lemma steps_toast t : steps R (toast t).
Proof. intros w. apply Rrefl. Qed.

Lemma steps_get_ui : steps R get_ui.
Proof. intros w. apply Rrefl. Qed.

Lemma steps_dropped {A : Type} (r : Request A) : steps R (dropped r).
Proof. intros w. apply Rrefl. Qed.

Lemma steps_await {A : Type} o site (r : Request A) :
  (forall d, R d (snd (r d))) -> steps R (await o site r).
Proof.
  intros H w. unfold await.
  destruct (fails o site); simpl; [apply Rrefl|].
  specialize (H (db w)). destruct (r (db w)) as [a d]. exact H.
Qed.

Lemma steps_await_lossy {A : Type} o site (r : Request A) :
  (forall d, R d (snd (r d))) -> steps R (await_lossy o site r).
Proof.
  intros H w. unfold await_lossy.
  destruct (fails o site); simpl.
  - destruct (lost o site); [apply H|apply Rrefl].
  - specialize (H (db w)). destruct (r (db w)) as [a d]. exact H.
Qed.

Lemma steps_moves tr :
  (forall o a w, R (db w) (db (step o a w))) ->
  forall d, R d (run_moves tr d).
Proof.
  intros H. unfold run_moves.
  induction tr as [|mv r IH]; intros d; simpl; [apply Rrefl|].
  eapply Rtrans; [|apply IH].
  apply (H (mv_oracle mv) (mv_action mv) (mkWorld d (mv_client mv) [])).
Qed.
End StepsFacts.

Lemma keeps_refl (I : DB -> Prop) d : keeps I d d.
Proof. intros H. exact H. Qed.

Lemma keeps_trans (I : DB -> Prop) d1 d2 d3 :
  keeps I d1 d2 -> keeps I d2 d3 -> keeps I d1 d3.
Proof. unfold keeps. auto. Qed.

(** One step of the decomposition of an operation; [req] closes the goal
    of a single request, [sub] that of a composite sub-operation. *)
Ltac steps_step R rfl trs req sub :=
  first
    [ sub
    | apply (steps_bind R trs); [|intros ?]
    | apply (steps_try R trs); [|intros ?]
    | apply (steps_ret R rfl)
    | apply (steps_throw R rfl)
    | apply (steps_modify_ui R rfl)
    | apply (steps_toast R rfl)
    | apply (steps_get_ui R rfl)
    | apply (steps_dropped R rfl)
    | apply (steps_await R rfl); intros ?; first [req | apply rfl]
    | apply (steps_await_lossy R rfl); intros ?; first [req | apply rfl]
    | match goal with
      | |- steps _ (match ?x with _ => _ end) => destruct x
      end ].

Ltac steps_all R rfl trs req sub :=
  unfold setCurrentSession, setCurrentParticipant, setPartner, setMessages,
    setIsConnected, setIsSearching, setHeartbeatInterval, stopHeartbeat,
    startHeartbeat, rpc_cleanup, rpc_heartbeat, select_candidates,
    select_messages, select_session, select_partners;
  repeat steps_step R rfl trs req sub.

(** ** What holds of every participant row *)

Section RowInvariant.
Variable P : Participant -> Prop.

Hypothesis Hbind : forall sid t p, P p -> P (bind_row sid t p).
Hypothesis Hrequeue : forall t p, P p -> P (requeue_row t p).
Hypothesis Hleave : forall t p, P p -> P (leave_row t p).
Hypothesis Hoffline : forall p, P p -> P (offline_row p).
Hypothesis Hbeat : forall t p, P p -> P (beat_row t p).
Hypothesis Hjoin : forall i n g pg t, P (mkParticipant i None n g pg true t None t true).


Lemma rows_same d d' : participants d' = participants d -> keeps (rows_all P) d d'.
Proof. intros H Hd p Hp. apply Hd. now rewrite <- H. Qed.

Lemma rows_map (g : Participant -> Participant) d d' :
  participants d' = map g (participants d) ->
  (forall p, P p -> P (g p)) -> keeps (rows_all P) d d'.
Proof.
  intros H Hg Hd p Hp. rewrite H in Hp. apply in_map_iff in Hp.
  destruct Hp as [q [<- Hq]]. apply Hg, Hd, Hq.
Qed.

Lemma rows_filter (f : Participant -> bool) d d' :
  participants d' = filter f (participants d) -> keeps (rows_all P) d d'.
Proof.
  intros H Hd p Hp. rewrite H in Hp. apply filter_In in Hp. apply Hd, Hp.
Qed.

Lemma rows_insert_session o ty st d : keeps (rows_all P) d (snd (insert_session o ty st d)).
Proof.
  unfold insert_session. destruct (has_session _ d); now apply rows_same.
Qed.

Lemma rows_insert_participant o n g pg d :
  keeps (rows_all P) d (snd (insert_participant o n g pg true true (now o) d)).
Proof.
  unfold insert_participant.
  destruct (has_participant _ d); [now apply rows_same|].
  destruct (List.length (pg_trim n) =? 0)%nat; [now apply rows_same|].
  intros Hd p Hp. simpl in Hp. apply in_app_or in Hp.
  destruct Hp as [Hp|[<-|[]]]; [now apply Hd|apply Hjoin].
Qed.

Lemma rows_insert_message o sid pid c d : keeps (rows_all P) d (snd (insert_message o sid pid c d)).
Proof.
  unfold insert_message.
  destruct (has_nul c); [now apply rows_same|].
  destruct (has_message _ d); [now apply rows_same|].
  destruct (negb _); [now apply rows_same|].
  destruct (List.length (pg_trim c) =? 0)%nat; now apply rows_same.
Qed.

Lemma rows_end_session o sid d : keeps (rows_all P) d (snd (end_session o sid d)).
Proof. now apply rows_same. Qed.

Lemma rows_bind o sid a b d : keeps (rows_all P) d (snd (bind_participants o sid a b d)).
Proof.
  eapply rows_map; [reflexivity|]. cbv beta. intros p Hp.
  destruct ((p_id p =? a) || (p_id p =? b)); [now apply Hbind|exact Hp].
Qed.

Lemma rows_requeue o pid d : keeps (rows_all P) d (snd (requeue_participant o pid d)).
Proof.
  unfold requeue_participant. destruct (single _); [|now apply rows_same].
  eapply rows_map; [reflexivity|]. cbv beta. intros p Hp.
  destruct (p_id p =? pid); [now apply Hrequeue|exact Hp].
Qed.

Lemma rows_leave o pid d : keeps (rows_all P) d (snd (leave_participant o pid d)).
Proof.
  eapply rows_map; [reflexivity|]. cbv beta. intros p Hp.
  destruct (p_id p =? pid); [now apply Hleave|exact Hp].
Qed.

Lemma rows_delete sid d : keeps (rows_all P) d (snd (delete_session sid d)).
Proof. eapply rows_filter. reflexivity. Qed.

Lemma rows_cleanup t d : keeps (rows_all P) d (cleanup_offline_participants t d).
Proof.
  eapply rows_map; [reflexivity|]. cbv beta. intros p Hp.
  destruct (stale t p); [now apply Hoffline|exact Hp].
Qed.

Lemma rows_heartbeat t pid d : keeps (rows_all P) d (update_participant_heartbeat t pid d).
Proof.
  eapply rows_map; [reflexivity|]. cbv beta. intros p Hp.
  destruct (p_id p =? pid); [now apply Hbeat|exact Hp].
Qed.

Ltac rows_req :=
  first [ apply rows_insert_session | apply rows_insert_participant
        | apply rows_insert_message | apply rows_end_session
        | apply rows_bind | apply rows_leave | apply rows_delete
        | apply rows_cleanup | apply rows_heartbeat ].

Ltac rows_ops sub :=
  steps_all (keeps (rows_all P)) (keeps_refl (rows_all P)) (keeps_trans (rows_all P)) rows_req sub.

Lemma rows_find o me ty : steps (keeps (rows_all P)) (findOnlineCompatiblePartner o me ty).
Proof. unfold findOnlineCompatiblePartner. rows_ops fail. Qed.

Lemma rows_create o a b ty : steps (keeps (rows_all P)) (createMatchedSession o a b ty).
Proof. unfold createMatchedSession. rows_ops fail. Qed.

Ltac rows_sub := first [apply rows_find | apply rows_create].

Lemma rows_startChat o n g pg ty : steps (keeps (rows_all P)) (startChat o n g pg ty).
Proof. unfold startChat. rows_ops rows_sub. Qed.

Lemma rows_sendMessage o c : steps (keeps (rows_all P)) (sendMessage o c).
Proof. unfold sendMessage. rows_ops rows_sub. Qed.

Lemma rows_skipChat o : steps (keeps (rows_all P)) (skipChat o).
Proof.
  unfold skipChat.
  steps_all (keeps (rows_all P)) (keeps_refl (rows_all P)) (keeps_trans (rows_all P))
    ltac:(first [rows_req | apply rows_requeue]) rows_sub.
Qed.

Lemma rows_stopChat o : steps (keeps (rows_all P)) (stopChat o).
Proof. unfold stopChat. rows_ops rows_sub. Qed.

Lemma rows_heartbeatTick o : steps (keeps (rows_all P)) (heartbeatTick o).
Proof. unfold heartbeatTick. rows_ops rows_sub. Qed.

Lemma rows_onParticipantInsert o p : steps (keeps (rows_all P)) (onParticipantInsert o p).
Proof. unfold onParticipantInsert. rows_ops rows_sub. Qed.

Lemma rows_onParticipantUpdate o p : steps (keeps (rows_all P)) (onParticipantUpdate o p).
Proof. unfold onParticipantUpdate. rows_ops rows_sub. Qed.

Lemma rows_onMessageInsert m : steps (keeps (rows_all P)) (onMessageInsert m).
Proof. unfold onMessageInsert. rows_ops rows_sub. Qed.

Lemma rows_loadMessages o : steps (keeps (rows_all P)) (loadMessages o).
Proof. unfold loadMessages. rows_ops rows_sub. Qed.

Lemma rows_onPartnerUpdate o p : steps (keeps (rows_all P)) (onPartnerUpdate o p).
Proof. unfold onPartnerUpdate. rows_ops rows_sub. Qed.

Lemma rows_unmount o : steps (keeps (rows_all P)) (unmount o).
Proof. unfold unmount. rows_ops rows_sub. Qed.

Lemma rows_reaper o : steps (keeps (rows_all P)) (reaper o).
Proof. unfold reaper. rows_ops rows_sub. Qed.

Lemma rows_step_but_skip o a w :
  a <> SkipChat -> rows_all P (db w) -> rows_all P (db (step o a w)).
Proof.
  intros Ha. unfold step, run.
  destruct a; simpl; try congruence;
    first [ apply rows_startChat | apply rows_sendMessage
          | apply rows_stopChat | apply rows_heartbeatTick
          | apply rows_onParticipantInsert | apply rows_onParticipantUpdate
          | apply rows_onMessageInsert | apply rows_loadMessages
          | apply rows_onPartnerUpdate | apply rows_unmount
          | apply rows_reaper ].
Qed.

Lemma rows_step o a w : rows_all P (db w) -> rows_all P (db (step o a w)).
Proof.
  destruct a; try (apply rows_step_but_skip; discriminate).
  unfold step, run. simpl. apply rows_skipChat.
Qed.
End RowInvariant.

(** X7.  A seeking participant is never bound: if every row with
    [is_waiting = true] has no bound session, the same holds after any run
    of the system, whatever the store answers. *)
Theorem seeking_is_never_bound
    (tr : list Move) (d : DB)
    (Hinit : seeking_unbound d) :
  seeking_unbound (run_moves tr d).
Proof.
  revert Hinit.
  apply (steps_moves (keeps seeking_unbound) (keeps_refl _) (keeps_trans _)).
  intros o a w0. unfold keeps.
  change (rows_all (fun p => p_is_waiting p = true -> p_session_id p = None)
            (db w0) ->
          rows_all (fun p => p_is_waiting p = true -> p_session_id p = None)
            (db (step o a w0))).
  apply rows_step; simpl; intros; auto; discriminate.
Qed.

Lemma seeking_is_never_bound_witness :
  seeking_unbound (db lobby) /\
  seeking_unbound
    (run_moves
       [mkMove (at_time 1000 10)
          (mkClient None (Some alice) None [] false true (Some 1))
          (ParticipantInserted bob);
        mkMove (at_time 2000 11) (ui bobs_view) SkipChat;
        mkMove (at_time 3000 12) (ui chatting) StopChat]
       (db lobby)).
Proof.
  assert (H : seeking_unbound (db lobby)).
  { intros p Hin _. unfold lobby, db, participants in Hin. by_rows; reflexivity. }
  split; [exact H|].
  apply seeking_is_never_bound. exact H.
Defined.

(** X8.  Every action except skip keeps offline participants out of the
    pool: if every row with [is_online = false] has [is_waiting = false],
    so it is afterwards. *)
Theorem offline_is_never_seeking_but_for_skip
    (o : Oracle) (a : Action) (w : World)
    (Hnot : a <> SkipChat)
    (Hinit : offline_idle (db w)) :
  offline_idle (db (step o a w)).
Proof.
  revert Hinit.
  change (rows_all (fun p => p_is_online p = false -> p_is_waiting p = false)
            (db w) ->
          rows_all (fun p => p_is_online p = false -> p_is_waiting p = false)
            (db (step o a w))).
  apply rows_step_but_skip; simpl; intros; auto; discriminate.
Qed.

Lemma offline_is_never_seeking_but_for_skip_witness :
  Reaper <> SkipChat /\ offline_idle (db pool) /\
  offline_idle (db (step (at_time 100000 0) Reaper pool)).
Proof.
  assert (Hn : Reaper <> SkipChat) by discriminate.
  assert (H : offline_idle (db pool)).
  { intros p Hin Hoff. unfold pool, db, participants in Hin.
    by_rows; discriminate. }
  split; [exact Hn|]. split; [exact H|].
  exact (offline_is_never_seeking_but_for_skip (at_time 100000 0) Reaper pool
           Hn H).
Defined.

(** X9.  Skip is the exception: it writes [is_waiting = true] without
    looking at [is_online].  When the invoker's row was offline (a sweep
    had marked it) then, unless the skip re-matched the invoker on the
    spot, the store afterwards holds a row that is seeking while offline. *)
Theorem skip_requeues_offline_invoker
    (o : Oracle) (w : World) (s : ChatSession) (me row : Participant)
    (Hok : no_faults o)
    (Hs : currentSession (ui w) = Some s)
    (Hme : currentParticipant (ui w) = Some me)
    (Hrow : filter (fun p => p_id p =? p_id me) (participants (db w)) = [row])
    (Hoff : p_is_online row = false) :
  isConnected (ui (run (skipChat o) w)) = true \/
  (In (requeue_row (now o) row) (participants (db (run (skipChat o) w))) /\
   p_is_waiting (requeue_row (now o) row) = true /\
   p_is_online (requeue_row (now o) row) = false /\
   ~ offline_idle (db (run (skipChat o) w))).
Proof.
  rewrite (skipChat_run o w s me row Hok Hs Hme Hrow). cbv zeta.
  assert (Hin : In (requeue_row (now o) row)
                  (participants
                     (cleanup_offline_participants (now o)
                        (snd (requeue_participant o (p_id me)
                                (snd (end_session o (cs_id s) (db w)))))))).
  { unfold requeue_participant, end_session.
    cbn [fst snd participants chat_sessions messages]. rewrite Hrow.
    cbn [single fst snd cleanup_offline_participants participants].
    unfold mark_offline. apply in_map_iff. exists (requeue_row (now o) row).
    split; [now rewrite stale_requeued|].
    apply in_map_iff. exists row. split.
    - assert (Hr : In row (filter (fun p => p_id p =? p_id me)
                             (participants (db w))))
        by (rewrite Hrow; now left).
      apply filter_In in Hr. destruct Hr as [_ Hr]. now rewrite Hr.
    - assert (Hr : In row (filter (fun p => p_id p =? p_id me)
                             (participants (db w))))
        by (rewrite Hrow; now left).
      apply filter_In in Hr. tauto. }
  assert (Hbreak : forall d, In (requeue_row (now o) row) (participants d) ->
                             ~ offline_idle d).
  { intros d Hd Hinv. specialize (Hinv _ Hd Hoff). discriminate. }
  destruct (hd_error _) as [f|].
  - destruct (has_session _ _).
    + right. cbn [db]. repeat split; auto.
    + left. reflexivity.
  - right. cbn [db]. repeat split; auto.
Qed.

Lemma skip_requeues_offline_invoker_witness :
  no_faults (at_time 41000 12) /\
  ~ offline_idle
      (db (run (skipChat (at_time 41000 12))
             (mkWorld (db partner_lost)
                (mkClient (Some session10) (Some bob_gone) None [] true false
                   (Some 2)) []))).
Proof.
  assert (Hok : no_faults (at_time 41000 12)) by (intros site; reflexivity).
  split; [exact Hok|].
  destruct (skip_requeues_offline_invoker (at_time 41000 12)
              (mkWorld (db partner_lost)
                 (mkClient (Some session10) (Some bob_gone) None [] true false
                    (Some 2)) [])
              session10 bob_gone bob_gone Hok eq_refl eq_refl eq_refl eq_refl)
    as [Hc|(_ & _ & _ & Hn)].
  - vm_compute in Hc. discriminate.
  - exact Hn.
Defined.

(** ** Keys, references and what is never lost *)

Lemma has_session_In sid d :
  has_session sid d = true <-> In sid (map cs_id (chat_sessions d)).
Proof.
  unfold has_session. rewrite existsb_exists, in_map_iff.
  split; intros [x [H1 H2]].
  - exists x. apply Z.eqb_eq in H2. tauto.
  - exists x. split; [exact H2|now apply Z.eqb_eq].
Qed.

Lemma has_participant_In pid d :
  has_participant pid d = true <-> In pid (map p_id (participants d)).
Proof.
  unfold has_participant. rewrite existsb_exists, in_map_iff.
  split; intros [x [H1 H2]].
  - exists x. apply Z.eqb_eq in H2. tauto.
  - exists x. split; [exact H2|now apply Z.eqb_eq].
Qed.

Lemma has_message_In mid d :
  has_message mid d = true <-> In mid (map m_id (messages d)).
Proof.
  unfold has_message. rewrite existsb_exists, in_map_iff.
  split; intros [x [H1 H2]].
  - exists x. apply Z.eqb_eq in H2. tauto.
  - exists x. split; [exact H2|now apply Z.eqb_eq].
Qed.

Lemma NoDup_snoc (l : list Z) x : NoDup l -> ~ In x l -> NoDup (l ++ [x]).
Proof.
  intros Hn Hx. eapply Permutation_NoDup; [apply Permutation_cons_append|].
  now constructor.
Qed.

Lemma not_true_false (b : bool) : b = false -> b <> true.
Proof. intros ->. discriminate. Qed.

Lemma evolves_refl d : evolves d d.
Proof.
  intros H. split; [exact H|]. repeat split; exists []; now rewrite app_nil_r.
Qed.

Lemma evolves_trans d1 d2 d3 : evolves d1 d2 -> evolves d2 d3 -> evolves d1 d3.
Proof.
  intros H12 H23 H1.
  destruct (H12 H1) as (H2 & [l1 E1] & [l2 E2] & [l3 E3]).
  destruct (H23 H2) as (H3 & [k1 F1] & [k2 F2] & [k3 F3]).
  split; [exact H3|]. repeat split.
  - exists (l1 ++ k1). now rewrite F1, E1, app_assoc.
  - exists (l2 ++ k2). now rewrite F2, E2, app_assoc.
  - exists (l3 ++ k3). now rewrite F3, E3, app_assoc.
Qed.

(** Rows are rewritten in place: keys stay, a bound-session reference stays
    or is cleared, messages stay. *)
Lemma evolves_rewrite (gs : ChatSession -> ChatSession)
    (gp : Participant -> Participant) d d' :
  chat_sessions d' = map gs (chat_sessions d) ->
  participants d' = map gp (participants d) ->
  messages d' = messages d ->
  (forall s, cs_id (gs s) = cs_id s) ->
  (forall p, p_id (gp p) = p_id p /\
             (p_session_id (gp p) = p_session_id p \/ p_session_id (gp p) = None)) ->
  evolves d d'.
Proof.
  intros Hs Hp Hm Hgs Hgp [(U1 & U2 & U3) (I1 & I2)].
  assert (Es : map cs_id (chat_sessions d') = map cs_id (chat_sessions d)).
  { rewrite Hs, map_map. apply map_ext. exact Hgs. }
  assert (Ep : map p_id (participants d') = map p_id (participants d)).
  { rewrite Hp, map_map. apply map_ext. intros p. apply Hgp. }
  split; [|repeat split; exists []; rewrite app_nil_r; auto].
  split; [repeat split; congruence|].
  split.
  - intros p' sid Hin Hb. rewrite Hp in Hin. apply in_map_iff in Hin.
    destruct Hin as [p [<- Hin]].
    apply has_session_In. rewrite Es. apply has_session_In.
    destruct (Hgp p) as [_ [E|E]]; [|congruence].
    apply (I1 p sid Hin). congruence.
  - intros m Hin. rewrite Hm in Hin. destruct (I2 m Hin) as [A B]. split.
    + apply has_session_In. rewrite Es. now apply has_session_In.
    + apply has_participant_In. rewrite Ep. now apply has_participant_In.
Qed.

Lemma evolves_insert_session o ty st d : evolves d (snd (insert_session o ty st d)).
Proof.
  unfold insert_session.
  destruct (has_session (uuid_session o) d) eqn:E; [apply evolves_refl|].
  intros [(U1 & U2 & U3) (I1 & I2)]. cbn [snd].
  split; [|repeat split; cbn [chat_sessions participants messages];
           [exists []; now rewrite app_nil_r
           |exists []; now rewrite app_nil_r
           |eexists; rewrite map_app; reflexivity]].
  split; [repeat split; cbn [chat_sessions participants messages]; auto|].
  - rewrite map_app. apply NoDup_snoc; [exact U1|].
    rewrite <- has_session_In. now apply not_true_false.
  - split.
    + intros p sid Hin Hb. apply has_session_In. cbn [chat_sessions].
      rewrite map_app. apply in_or_app. left.
      apply has_session_In. now apply (I1 p).
    + intros m Hin. destruct (I2 m Hin) as [A B]. split; [|exact B].
      apply has_session_In. cbn [chat_sessions].
      rewrite map_app. apply in_or_app. left. now apply has_session_In.
Qed.

Lemma evolves_insert_participant o n g pg wt onl seen d :
  evolves d (snd (insert_participant o n g pg wt onl seen d)).
Proof.
  unfold insert_participant.
  destruct (has_participant (uuid_participant o) d) eqn:E; [apply evolves_refl|].
  destruct (List.length (pg_trim n) =? 0)%nat; [apply evolves_refl|].
  intros [(U1 & U2 & U3) (I1 & I2)]. cbn [snd].
  split; [|repeat split; cbn [chat_sessions participants messages];
           [exists []; now rewrite app_nil_r
           |eexists; rewrite map_app; reflexivity
           |exists []; now rewrite app_nil_r]].
  split; [repeat split; cbn [chat_sessions participants messages]; auto|].
  - rewrite map_app. apply NoDup_snoc; [exact U2|].
    rewrite <- has_participant_In. now apply not_true_false.
  - split.
    + intros p sid Hin Hb. cbn [participants] in Hin.
      apply in_app_or in Hin. destruct Hin as [Hin|[<-|[]]]; [|discriminate].
      now apply (I1 p).
    + intros m Hin. destruct (I2 m Hin) as [A B]. split; [exact A|].
      apply has_participant_In. cbn [participants].
      rewrite map_app. apply in_or_app. left. now apply has_participant_In.
Qed.

Lemma evolves_insert_message o sid pid c d :
  evolves d (snd (insert_message o sid pid c d)).
Proof.
  unfold insert_message.
  destruct (has_nul c); [apply evolves_refl|].
  destruct (has_message (uuid_message o) d) eqn:E; [apply evolves_refl|].
  destruct (has_session sid d && has_participant pid d) eqn:F; simpl;
    [|apply evolves_refl].
  destruct (List.length (pg_trim c) =? 0)%nat; [apply evolves_refl|].
  apply andb_true_iff in F. destruct F as [F1 F2].
  intros [(U1 & U2 & U3) (I1 & I2)]. cbn [snd].
  split; [|repeat split; cbn [chat_sessions participants messages];
           [eexists; reflexivity
           |exists []; now rewrite app_nil_r
           |exists []; now rewrite app_nil_r]].
  split; [repeat split; cbn [chat_sessions participants messages]; auto|].
  - rewrite map_app. apply NoDup_snoc; [exact U3|].
    rewrite <- has_message_In. now apply not_true_false.
  - split; [exact I1|].
    intros m Hin. cbn [messages] in Hin.
    apply in_app_or in Hin. destruct Hin as [Hin|[<-|[]]]; [now apply I2|].
    split; assumption.
Qed.

Lemma evolves_end_session o sid d : evolves d (snd (end_session o sid d)).
Proof.
  apply (evolves_rewrite
           (fun s => if cs_id s =? sid then end_row (now o) s else s)
           (fun p => p)); try reflexivity.
  - simpl. now rewrite map_id.
  - intros s. destruct (cs_id s =? sid); reflexivity.
  - intros p. auto.
Qed.

Lemma evolves_requeue o pid d : evolves d (snd (requeue_participant o pid d)).
Proof.
  unfold requeue_participant. destruct (single _); [|apply evolves_refl].
  apply (evolves_rewrite (fun s => s)
           (fun q => if p_id q =? pid then requeue_row (now o) q else q));
    try reflexivity.
  - simpl. now rewrite map_id.
  - intros p. destruct (p_id p =? pid); simpl; auto.
Qed.

Lemma evolves_leave o pid d : evolves d (snd (leave_participant o pid d)).
Proof.
  apply (evolves_rewrite (fun s => s)
           (fun q => if p_id q =? pid then leave_row (now o) q else q));
    try reflexivity.
  - simpl. now rewrite map_id.
  - intros p. destruct (p_id p =? pid); simpl; auto.
Qed.

Lemma evolves_cleanup t d : evolves d (cleanup_offline_participants t d).
Proof.
  eapply (evolves_rewrite _ (fun p => if stale t p then offline_row p else p));
    try reflexivity; cbv beta.
  - intros s. match goal with |- context [if ?c then _ else _] => destruct c end;
      reflexivity.
  - intros p. destruct (stale t p); simpl; auto.
Qed.

Lemma evolves_heartbeat t pid d : evolves d (update_participant_heartbeat t pid d).
Proof.
  apply (evolves_rewrite (fun s => s)
           (fun q => if p_id q =? pid then beat_row t q else q));
    try reflexivity.
  - simpl. now rewrite map_id.
  - intros p. destruct (p_id p =? pid); simpl; auto.
Qed.

Lemma steps_evolves_find o me ty :
  steps evolves (findOnlineCompatiblePartner o me ty).
Proof.
  intros w. rewrite findOnlineCompatiblePartner_run. cbv zeta. simpl.
  destruct (fails o RpcCleanup); [apply evolves_refl|apply evolves_cleanup].
Qed.

(** The store after a pairing went through, from a store in which the
    session key was free. *)
Lemma evolves_pairing o ida idb ty d :
  has_session (uuid_session o) d = false ->
  evolves d (snd (bind_participants o (uuid_session o) ida idb
                    (mkDB (chat_sessions d ++ [new_session o ty])
                       (participants d) (messages d)))).
Proof.
  intros Hfresh.
  pose proof (evolves_insert_session o ty matched d) as Hins.
  unfold insert_session in Hins. rewrite Hfresh in Hins. cbn [snd] in Hins.
  eapply evolves_trans; [exact Hins|].
  intros [(U1 & U2 & U3) (I1 & I2)].
  assert (Ep : map p_id (participants (snd (bind_participants o (uuid_session o)
                  ida idb
                  (mkDB (chat_sessions d ++ [new_session o ty])
                     (participants d) (messages d)))))
               = map p_id (participants d)).
  { cbn [snd bind_participants participants].
    apply map_ids. intros p. apply bind_or_same. }
  cbn [chat_sessions participants messages] in *.
  split; [|repeat split; exists []; rewrite app_nil_r; auto].
  split; [repeat split; auto|].
  + now rewrite Ep.
  + split.
    * intros p' sid Hin Hb. cbn [snd bind_participants participants] in Hin.
      apply in_map_iff in Hin. destruct Hin as [p [<- Hin]].
      apply has_session_In. cbn [snd bind_participants chat_sessions].
      destruct ((p_id p =? ida) || (p_id p =? idb)).
      -- simpl in Hb. injection Hb as <-. rewrite map_app.
         apply in_or_app. right. now left.
      -- pose proof (I1 p sid Hin Hb) as Hh.
         apply has_session_In in Hh. exact Hh.
    * intros m Hin. cbn [snd bind_participants messages] in Hin.
      destruct (I2 m Hin) as [A B]. split; [exact A|].
      apply has_participant_In. rewrite Ep. now apply has_participant_In.
Qed.

Lemma evolves_session_only o ty d :
  has_session (uuid_session o) d = false ->
  evolves d (mkDB (chat_sessions d ++ [new_session o ty]) (participants d)
               (messages d)).
Proof.
  intros Hfresh.
  pose proof (evolves_insert_session o ty matched d) as Hins.
  unfold insert_session in Hins. rewrite Hfresh in Hins. exact Hins.
Qed.

(** Unless the bind of a pairing is carried out and reported as failed, the
    pairing loses nothing. *)
Lemma steps_evolves_create o a b ty :
  lost o BindParticipants = false ->
  steps evolves (createMatchedSession o a b ty).
Proof.
  intros Hl w. rewrite createMatchedSession_run. cbv zeta. rewrite Hl.
  destruct (fails o InsertSession || has_session (uuid_session o) (db w)) eqn:E1.
  { cbn [snd].
    destruct (fails o InsertSession && lost o InsertSession &&
              negb (has_session (uuid_session o) (db w))) eqn:E;
      [|apply evolves_refl].
    apply andb_true_iff in E. destruct E as [_ E].
    apply negb_true_iff in E. cbn [db]. now apply evolves_session_only. }
  apply orb_false_iff in E1. destruct E1 as [_ Hfresh].
  destruct (fails o BindParticipants); cbn [snd db].
  - destruct (fails o DeleteSession); [now apply evolves_session_only|].
    intros Hwf. rewrite (rollback_restores o ty (db w) (proj2 Hwf) Hfresh).
    now apply evolves_refl.
  - now apply evolves_pairing.
Qed.

Ltac evolves_req :=
  first [ apply evolves_insert_session | apply evolves_insert_participant
        | apply evolves_insert_message | apply evolves_end_session
        | apply evolves_requeue | apply evolves_leave
        | apply evolves_cleanup | apply evolves_heartbeat ].

Ltac evolves_ops :=
  steps_all evolves evolves_refl evolves_trans evolves_req
    ltac:(first [ apply steps_evolves_find
                | apply steps_evolves_create; assumption ]).

Lemma evolves_step o a w :
  lost o BindParticipants = false -> evolves (db w) (db (step o a w)).
Proof.
  intros Hl. unfold step, run.
  destruct a; simpl;
    [ unfold startChat | unfold sendMessage | unfold skipChat
    | unfold stopChat | unfold heartbeatTick | unfold onParticipantInsert
    | unfold onParticipantUpdate | unfold onMessageInsert
    | unfold loadMessages | unfold onPartnerUpdate | unfold unmount
    | unfold reaper ];
    match goal with |- evolves (db ?w) (db (snd (?m ?w))) =>
      revert w; change (steps evolves m)
    end; evolves_ops.
Qed.

Lemma evolves_moves tr d : no_lost_bind tr -> evolves d (run_moves tr d).
Proof.
  unfold no_lost_bind, run_moves. intros H. revert d.
  induction H as [|mv r Hmv Hr IH]; intros d; simpl; [apply evolves_refl|].
  eapply evolves_trans; [|apply IH].
  apply (evolves_step (mv_oracle mv) (mv_action mv)
           (mkWorld d (mv_client mv) [])). exact Hmv.
Qed.

(** *** Keys and references alone *)

Lemma wf_of_evolves d d' : evolves d d' -> keeps well_formed d d'.
Proof. intros H Hwf. exact (proj1 (H Hwf)). Qed.

Lemma wf_steps_of_evolves {A : Type} (m : M A) :
  steps evolves m -> steps (keeps well_formed) m.
Proof. intros H w. apply wf_of_evolves, H. Qed.

(** The cascade of a delete leaves no reference dangling. *)
Lemma wf_without ida idb d :
  well_formed d ->
  well_formed
    (mkDB (chat_sessions d)
       (filter (fun p => negb ((p_id p =? ida) || (p_id p =? idb)))
          (participants d))
       (filter (fun m => negb ((m_participant_id m =? ida) ||
                               (m_participant_id m =? idb)))
          (messages d))).
Proof.
  intros [(U1 & U2 & U3) (I1 & I2)]. split.
  - repeat split; cbn [chat_sessions participants messages];
      [exact U1|now apply NoDup_ids_filter|now apply NoDup_ids_filter].
  - split.
    + intros p sid Hin Hb. cbn [participants] in Hin.
      apply filter_In in Hin. destruct Hin as [Hin _].
      exact (I1 p sid Hin Hb).
    + intros m Hin. cbn [messages] in Hin. apply filter_In in Hin.
      destruct Hin as [Hin Hkeep]. destruct (I2 m Hin) as [A B].
      split; [exact A|].
      unfold has_participant in *. cbn [participants].
      apply existsb_exists in B. destruct B as [p0 [Hp0 He]].
      apply existsb_exists. exists p0. split; [|exact He].
      apply filter_In. split; [exact Hp0|].
      apply Z.eqb_eq in He. now rewrite He.
Qed.

Lemma wf_create o a b ty :
  steps (keeps well_formed) (createMatchedSession o a b ty).
Proof.
  destruct (lost o BindParticipants) eqn:Hl;
    [|now apply wf_steps_of_evolves, steps_evolves_create].
  intros w. rewrite createMatchedSession_run. cbv zeta. rewrite Hl.
  destruct (fails o InsertSession || has_session (uuid_session o) (db w)) eqn:E1.
  { cbn [snd].
    destruct (fails o InsertSession && lost o InsertSession &&
              negb (has_session (uuid_session o) (db w))) eqn:E;
      [|apply keeps_refl].
    apply andb_true_iff in E. destruct E as [_ E].
    apply negb_true_iff in E. cbn [db].
    now apply wf_of_evolves, evolves_session_only. }
  apply orb_false_iff in E1. destruct E1 as [_ Hfresh].
  destruct (fails o BindParticipants); cbn [snd db].
  - destruct (fails o DeleteSession).
    + now apply wf_of_evolves, evolves_pairing.
    + intros Hwf.
      rewrite (rollback_cascades o ty (p_id a) (p_id b) (db w) (proj2 Hwf)
                 Hfresh).
      now apply wf_without.
  - now apply wf_of_evolves, evolves_pairing.
Qed.

Ltac wf_req := apply wf_of_evolves; evolves_req.

Ltac wf_ops :=
  steps_all (keeps well_formed) (keeps_refl well_formed)
    (keeps_trans well_formed) wf_req
    ltac:(first [ apply wf_steps_of_evolves, steps_evolves_find
                | apply wf_create ]).

Lemma wf_step o a w : keeps well_formed (db w) (db (step o a w)).
Proof.
  unfold step, run.
  destruct a; simpl;
    [ unfold startChat | unfold sendMessage | unfold skipChat
    | unfold stopChat | unfold heartbeatTick | unfold onParticipantInsert
    | unfold onParticipantUpdate | unfold onMessageInsert
    | unfold loadMessages | unfold onPartnerUpdate | unfold unmount
    | unfold reaper ];
    match goal with |- keeps well_formed (db ?w) (db (snd (?m ?w))) =>
      revert w; change (steps (keeps well_formed) m)
    end; wf_ops.
Qed.

Lemma wf_moves tr d : keeps well_formed d (run_moves tr d).
Proof.
  apply (steps_moves (keeps well_formed) (keeps_refl well_formed)
           (keeps_trans well_formed)).
  intros o a w0. apply wf_step.
Qed.

(** X10.  Whatever the clients do and whatever the store answers, a store
    that started empty has unique keys in its three tables and no dangling
    reference: every bound-session reference and both references of every
    message point at a row that exists.  The store refuses an insert with
    a taken key and a message with a broken reference; the reference that a
    pairing writes into a participant is never checked, it is sound by the
    order of the hook's own requests. *)
Theorem store_stays_well_formed (tr : list Move) :
  well_formed (run_moves tr empty_store).
Proof.
  apply (wf_moves tr empty_store).
  split.
  - repeat split; constructor.
  - split; [intros p sid []|intros m []].
Qed.

(** X11.  Nothing that was stored is lost, and no message is rewritten, as
    long as no bind update of a pairing is carried out by the store and
    reported as failed: after any such run from a well-formed store the
    messages are the old messages, unchanged and in their order, followed
    by the new ones, and no participant and no session has disappeared.
    The condition is needed: the rollback that answers such an error
    deletes the session, and the two participants and their messages with
    it. *)
Theorem nothing_stored_is_lost
    (tr : list Move) (d : DB)
    (Hwf : well_formed d)
    (Hanswers : no_lost_bind tr) :
  (exists l, messages (run_moves tr d) = messages d ++ l) /\
  (exists l, map p_id (participants (run_moves tr d))
             = map p_id (participants d) ++ l) /\
  (exists l, map cs_id (chat_sessions (run_moves tr d))
             = map cs_id (chat_sessions d) ++ l).
Proof. exact (proj2 (evolves_moves tr d Hanswers Hwf)). Qed.

Lemma chatting_well_formed : well_formed (db chatting).
Proof.
  split.
  - repeat split; simpl; repeat constructor; simpl; intuition discriminate.
  - split.
    + intros p sid Hin Hb. unfold chatting, db, participants in Hin.
      by_rows; vm_compute in Hb; injection Hb as <-; reflexivity.
    + intros m [].
Defined.

Lemma nothing_stored_is_lost_witness :
  well_formed (db chatting) /\
  no_lost_bind [mkMove (at_time 2000 30) (ui chatting) (SendMessage (js "hi"));
                mkMove (at_time 3000 11) (ui bobs_view) SkipChat] /\
  exists l,
    messages (run_moves [mkMove (at_time 2000 30) (ui chatting)
                           (SendMessage (js "hi"));
                         mkMove (at_time 3000 11) (ui bobs_view) SkipChat]
                (db chatting))
    = messages (db chatting) ++ l.
Proof.
  assert (Ha : no_lost_bind
                 [mkMove (at_time 2000 30) (ui chatting) (SendMessage (js "hi"));
                  mkMove (at_time 3000 11) (ui bobs_view) SkipChat])
    by (repeat constructor).
  split; [exact chatting_well_formed|]. split; [exact Ha|].
  exact (proj1 (nothing_stored_is_lost
                  [mkMove (at_time 2000 30) (ui chatting)
                     (SendMessage (js "hi"));
                   mkMove (at_time 3000 11) (ui bobs_view) SkipChat]
                  (db chatting) chatting_well_formed Ha)).
Defined.

(** ** Learning of a match from the change feed *)

Lemma onParticipantUpdate_store o p w : db (run (onParticipantUpdate o p) w) = db w.
Proof.
  unfold run, onParticipantUpdate, bind, get_ui, try_catch, await,
    select_session, select_partners, setCurrentParticipant, setCurrentSession,
    setPartner, setIsConnected, setIsSearching, modify_ui, toast, ret.
  simpl. destruct (currentParticipant (ui w)) as [me|]; [|reflexivity].
  destruct (negb (p_is_waiting me && negb (isConnected (ui w)))); [reflexivity|].
  destruct (negb (p_id p =? p_id me)); [reflexivity|]. simpl.
  destruct (p_session_id p) as [sid|]; [|reflexivity].
  destruct (currentSession (ui w)); [reflexivity|].
  destruct (fails o SelectSession); simpl;
    destruct (fails o SelectPartners); simpl; try reflexivity.
  - destruct (single _); reflexivity.
  - destruct (single _); [|reflexivity].
    destruct (filter _ _); reflexivity.
Qed.

Lemma onParticipantUpdate_run o upd w me sid :
  currentParticipant (ui w) = Some me ->
  p_is_waiting me = true -> isConnected (ui w) = false ->
  currentSession (ui w) = None ->
  p_id upd = p_id me -> p_session_id upd = Some sid ->
  fails o SelectSession = false -> fails o SelectPartners = false ->
  run (onParticipantUpdate o upd) w =
  match single (filter (fun s => cs_id s =? sid) (chat_sessions (db w))),
        filter (fun p => refers sid (p_session_id p) &&
                         negb (p_id p =? p_id me) && p_is_online p)
          (participants (db w)) with
  | Data s, p0 :: _ =>
      mkWorld (db w)
        (mkClient (Some s) (Some upd) (Some p0) (messages_state (ui w)) true
           false (heartbeatInterval (ui w)))
        (toasts w ++ [Connected (p_name p0)])
  | _, _ =>
      mkWorld (db w)
        (mkClient None (Some upd) (partner (ui w)) (messages_state (ui w))
           false (isSearching (ui w)) (heartbeatInterval (ui w)))
        (toasts w)
  end.
Proof.
  intros Hme Hw Hc Hs Hid Hb F1 F2.
  unfold run, onParticipantUpdate, bind, get_ui, try_catch, await,
    select_session, select_partners, setCurrentParticipant, setCurrentSession,
    setPartner, setIsConnected, setIsSearching, modify_ui, toast, ret.
  simpl. rewrite Hme, Hw, Hc, Hid, Z.eqb_refl, Hb, Hs, F1, F2. simpl.
  destruct (single _); simpl; rewrite ?Hs, ?Hc; [|reflexivity].
  destruct (filter _ (participants (db w))); simpl; rewrite ?Hs, ?Hc;
    reflexivity.
Qed.

(** The store after a [startChat] that connected. *)
Lemma startChat_connected o name g pg ty w f :
  toasts (run (startChat o name g pg ty) w) = toasts w ++ [Connected (p_name f)] ->
  partner (ui (run (startChat o name g pg ty) w)) = Some f ->
  exists d2,
    (well_formed (db w) -> well_formed d2) /\
    has_session (uuid_session o) d2 = false /\
    In (joined o name g pg) (participants d2) /\
    In f (participants d2) /\ p_id f <> uuid_participant o /\
    currentSession (ui (run (startChat o name g pg ty) w))
      = Some (new_session o ty) /\
    db (run (startChat o name g pg ty) w) =
      mkDB (chat_sessions d2 ++ [new_session o ty])
           (map (fun q => if (p_id q =? uuid_participant o) || (p_id q =? p_id f)
                          then bind_row (uuid_session o) (now o) q else q)
              (participants d2))
           (messages d2).
Proof.
  rewrite startChat_run.
  destruct (fails o InsertParticipant ||
            has_participant (uuid_participant o) (db w) ||
            (List.length (pg_trim (trim name)) =? 0)%nat) eqn:Eins.
  { cbn [toasts]. intros Hf. apply app_inv_head in Hf. discriminate. }
  cbv zeta.
  pose proof (joined_in_pool o name g pg (db w)) as Hp. cbv zeta in Hp.
  set (p := joined o name g pg) in *.
  set (d1 := mkDB (chat_sessions (db w)) (participants (db w) ++ [p])
               (messages (db w))) in *.
  assert (Hwf1 : well_formed (db w) -> well_formed d1).
  { intros Hwf.
    pose proof (evolves_insert_participant o (trim name) g pg true true
                  (now o) (db w) Hwf) as H1.
    unfold insert_participant in H1.
    apply orb_false_iff in Eins. destruct Eins as [Eins E3].
    apply orb_false_iff in Eins. destruct Eins as [E1 E2].
    rewrite E2, E3 in H1. exact (proj1 H1). }
  assert (Hwf2 : well_formed (db w) ->
                 well_formed (if fails o RpcCleanup then d1
                              else cleanup_offline_participants (now o) d1)).
  { intros Hwf. destruct (fails o RpcCleanup); [now apply Hwf1|].
    exact (proj1 (evolves_cleanup (now o) d1 (Hwf1 Hwf))). }
  set (d2 := if fails o RpcCleanup then d1
             else cleanup_offline_participants (now o) d1) in *.
  destruct (fails o SelectCandidates).
  { cbn [toasts]. intros Hf. apply app_inv_head in Hf. discriminate. }
  destruct (hd_error (filter (mutually_compatible p)
                        (candidate_window (now o) p d2))) as [f0|] eqn:Ef.
  2:{ cbn [toasts]. intros Hf. apply app_inv_head in Hf. discriminate. }
  rewrite createMatchedSession_run. cbn [db ui toasts].
  destruct (fails o InsertSession || has_session (uuid_session o) d2) eqn:Efresh.
  { cbn [toasts]. intros Hf. apply app_inv_head in Hf. discriminate. }
  cbv zeta. destruct (fails o BindParticipants).
  { cbn [toasts]. intros Hf. apply app_inv_head in Hf. discriminate. }
  cbn [db ui toasts snd bind_participants partner currentSession
       participants chat_sessions messages].
  intros _ Hpf. injection Hpf as ->.
  apply orb_false_iff in Efresh. destruct Efresh as [_ Hfresh].
  pose proof (hd_error_In _ _ Ef) as Hf. apply filter_In in Hf.
  destruct Hf as [Hfw _]. apply candidate_window_In in Hfw.
  destruct Hfw as [Hfin Hfe]. apply eligible_spec in Hfe.
  destruct Hfe as (_ & _ & Hfid & _).
  exists d2.
  split; [exact Hwf2|]. split; [exact Hfresh|]. split; [exact Hp|].
  split; [exact Hfin|]. split; [exact Hfid|]. split; reflexivity.
Qed.

(** X12.  The two ways of learning of a match agree.  When Bob's
    [startChat] connected him with the waiting Alice, and Alice's client is
    then handed the update of her own row by the change feed, her client
    ends up in the very session Bob's client holds, with Bob as partner,
    connected and no longer searching; the handler reads the store and
    writes nothing. *)
Theorem pushed_match_agrees_with_pairing
    (o o2 : Oracle) (name : jsstring) (g pg : GenderType) (ty : ChatType)
    (w : World) (alices : Client) (ts : list Toast) (a f a' : Participant)
    (Hwf : well_formed (db w))
    (Hconn : toasts (run (startChat o name g pg ty) w)
             = toasts w ++ [Connected (p_name f)])
    (Hpartner : partner (ui (run (startChat o name g pg ty) w)) = Some f)
    (Hreach : fails o2 SelectSession = false /\ fails o2 SelectPartners = false)
    (Halice : currentParticipant alices = Some a /\ p_is_waiting a = true /\
              isConnected alices = false /\ currentSession alices = None)
    (Hsame : p_id a = p_id f)
    (Hrow : In a' (participants (db (run (startChat o name g pg ty) w))) /\
            p_id a' = p_id a) :
  let bobs := run (startChat o name g pg ty) w in
  let w' := run (onParticipantUpdate o2 a') (mkWorld (db bobs) alices ts) in
  currentSession (ui w') = currentSession (ui bobs) /\
  currentSession (ui w') = Some (new_session o ty) /\
  (exists pb, partner (ui w') = Some pb /\ p_id pb = uuid_participant o /\
              p_session_id pb = Some (uuid_session o)) /\
  isConnected (ui w') = true /\ isSearching (ui w') = false /\
  db w' = db bobs.
Proof.
  cbv zeta. destruct Hreach as [F1 F2].
  destruct Halice as (Ha & Hwait & Hnc & Hns). destruct Hrow as [Hin Hid'].
  destruct (startChat_connected o name g pg ty w f Hconn Hpartner)
    as (d2 & Hwf2 & Hfresh & Hp & Hfin & Hfid & Hcs & Hdb).
  specialize (Hwf2 Hwf). destruct Hwf2 as [_ [I1 _]].
  set (B := fun q => if (p_id q =? uuid_participant o) || (p_id q =? p_id f)
                     then bind_row (uuid_session o) (now o) q else q) in *.
  assert (Hbound : p_session_id a' = Some (uuid_session o)).
  { rewrite Hdb in Hin. cbn [participants] in Hin.
    apply in_map_iff in Hin. destruct Hin as [q0 [Hq0 _]].
    assert (Hq0f : (p_id q0 =? p_id f) = true).
    { apply Z.eqb_eq. subst a'. unfold B in Hid'.
      rewrite bind_or_same in Hid'. congruence. }
    unfold B in Hq0. rewrite Hq0f, orb_true_r in Hq0. now subst a'. }
  assert (Hsess : filter (fun s => cs_id s =? uuid_session o)
                    (chat_sessions d2 ++ [new_session o ty])
                  = [new_session o ty]).
  { rewrite filter_app. simpl. rewrite Z.eqb_refl.
    rewrite filter_none; [reflexivity|].
    intros x Hx. unfold has_session in Hfresh.
    rewrite existsb_false_forall in Hfresh. exact (Hfresh x Hx). }
  assert (Hall : forall q, In q (filter
                     (fun q => refers (uuid_session o) (p_session_id q) &&
                               negb (p_id q =? p_id a) && p_is_online q)
                     (map B (participants d2))) ->
                 p_id q = uuid_participant o /\
                 p_session_id q = Some (uuid_session o)).
  { intros q Hq. apply filter_In in Hq. destruct Hq as [Hq Hc].
    apply andb_true_iff in Hc. destruct Hc as [Hc _].
    apply andb_true_iff in Hc. destruct Hc as [Hr Hne].
    apply refers_eq in Hr. split; [|exact Hr].
    apply negb_true_iff, Z.eqb_neq in Hne.
    apply in_map_iff in Hq. destruct Hq as [q0 [Hq0 Hq0in]]. unfold B in Hq0.
    destruct (p_id q0 =? uuid_participant o) eqn:E1.
    - apply Z.eqb_eq in E1. subst q. simpl. exact E1.
    - destruct (p_id q0 =? p_id f) eqn:E2; simpl in Hq0; subst q.
      + apply Z.eqb_eq in E2. simpl in Hne. congruence.
      + specialize (I1 q0 _ Hq0in Hr). congruence. }
  assert (Hne : In (B (joined o name g pg))
                  (filter (fun q => refers (uuid_session o) (p_session_id q) &&
                                    negb (p_id q =? p_id a) && p_is_online q)
                     (map B (participants d2)))).
  { apply filter_In. split; [now apply in_map|].
    assert (HB : B (joined o name g pg)
                 = bind_row (uuid_session o) (now o) (joined o name g pg)).
    { unfold B. simpl. now rewrite Z.eqb_refl. }
    rewrite HB. simpl. rewrite Z.eqb_refl. simpl. rewrite andb_true_r.
    apply negb_true_iff, Z.eqb_neq. congruence. }
  rewrite (onParticipantUpdate_run o2 a' _ a (uuid_session o));
    cbn [db ui toasts]; auto.
  rewrite Hdb. cbn [chat_sessions participants]. rewrite Hsess.
  cbn [single].
  destruct (filter _ (map B (participants d2))) as [|pb rest] eqn:Efil;
    [destruct Hne|].
  cbn [db ui currentSession partner isConnected isSearching].
  destruct (Hall pb (or_introl eq_refl)) as [Hpb1 Hpb2].
  repeat split; auto.
  exists pb. auto.
Qed.

Lemma pushed_match_agrees_with_pairing_witness :
  well_formed (mkDB [] [alice] []) /\
  currentSession
    (ui (run (onParticipantUpdate (at_time 1600 0) (bind_row 50 1500 alice))
           (mkWorld
              (db (run (startChat (at_time 1500 50) (js "bob") male female text)
                     (mkWorld (mkDB [] [alice] []) idle [])))
              (mkClient None (Some alice) None [] false true (Some 1)) [])))
  = Some (new_session (at_time 1500 50) text).
Proof.
  assert (Hwf : well_formed (mkDB [] [alice] [])).
  { split.
    - repeat split; simpl; repeat constructor; simpl; tauto.
    - split; [|intros m []].
      intros p sid Hin Hb. simpl in Hin. destruct Hin as [<-|[]]. discriminate. }
  split; [exact Hwf|].
  refine (proj1 (proj2 (pushed_match_agrees_with_pairing
            (at_time 1500 50) (at_time 1600 0) (js "bob") male female text
            (mkWorld (mkDB [] [alice] []) idle [])
            (mkClient None (Some alice) None [] false true (Some 1)) []
            alice alice (bind_row 50 1500 alice)
            Hwf eq_refl eq_refl (conj eq_refl eq_refl) _ eq_refl _))).
  - repeat split; reflexivity.
  - split; [vm_compute; tauto|reflexivity].
Defined.

(** ** The waiting client and a newcomer *)

(** X13.  The handler of "a new participant was inserted" changes the
    store or the client only when the client has a waiting participant, is
    not connected and holds no session, and the newcomer is another
    participant who is waiting, online and mutually compatible; in every
    other case the event is ignored. *)
Theorem newcomer_is_paired_only_under_guard
    (o : Oracle) (p : Participant) (w : World)
    (Hchanged : run (onParticipantInsert o p) w <> w) :
  exists me,
    currentParticipant (ui w) = Some me /\ p_is_waiting me = true /\
    isConnected (ui w) = false /\ currentSession (ui w) = None /\
    p_is_waiting p = true /\ p_is_online p = true /\ p_id p <> p_id me /\
    mutually_compatible me p = true.
Proof.
  revert Hchanged.
  unfold run, onParticipantInsert, bind, get_ui, ret. simpl.
  destruct (currentParticipant (ui w)) as [me|]; [|intros H; now elim H].
  destruct (p_is_waiting me) eqn:E1; simpl; [|intros H; now elim H].
  destruct (isConnected (ui w)) eqn:E2; simpl; [intros H; now elim H|].
  destruct (p_is_waiting p) eqn:E3; simpl; [|intros H; now elim H].
  destruct (p_id p =? p_id me) eqn:E4; simpl; [intros H; now elim H|].
  destruct (p_is_online p) eqn:E5; simpl; [|intros H; now elim H].
  destruct (mutually_compatible me p) eqn:E6; simpl; [|intros H; now elim H].
  destruct (currentSession (ui w)) eqn:E7; simpl; [intros H; now elim H|].
  intros _. exists me. apply Z.eqb_neq in E4. repeat split; auto.
Qed.

Lemma newcomer_is_paired_only_under_guard_witness :
  run (onParticipantInsert (at_time 1000 10) bob)
      (mkWorld (db lobby)
         (mkClient None (Some alice) None [] false true (Some 1)) [])
  <> mkWorld (db lobby)
       (mkClient None (Some alice) None [] false true (Some 1)) [] /\
  mutually_compatible alice bob = true.
Proof.
  assert (H : run (onParticipantInsert (at_time 1000 10) bob)
                (mkWorld (db lobby)
                   (mkClient None (Some alice) None [] false true (Some 1)) [])
              <> mkWorld (db lobby)
                   (mkClient None (Some alice) None [] false true (Some 1)) []).
  { intros E. apply (f_equal toasts) in E. vm_compute in E. discriminate. }
  split; [exact H|].
  destruct (newcomer_is_paired_only_under_guard (at_time 1000 10) bob _ H)
    as (me & Hme & _ & _ & _ & _ & _ & _ & Hc).
  injection Hme as <-. exact Hc.
Defined.

(** X14.  The two pairing paths can both fire for one pair.  Bob's
    [startChat] has connected him with the waiting Alice; Alice's client,
    still waiting, is now handed the insert of Bob's row.  Its handler
    pairs the two once more: a second session is created, both rows are
    moved to it, Alice's client holds the second session while Bob's holds
    the first, which stays matched in the store with nobody bound to it. *)
Theorem newcomer_event_pairs_a_second_time
    (o o2 : Oracle) (name : jsstring) (g pg : GenderType) (ty : ChatType)
    (w : World) (alices : Client) (ts : list Toast) (a f : Participant)
    (Hwf : well_formed (db w))
    (Hconn : toasts (run (startChat o name g pg ty) w)
             = toasts w ++ [Connected (p_name f)])
    (Hpartner : partner (ui (run (startChat o name g pg ty) w)) = Some f)
    (Hreach : fails o2 InsertSession = false /\
              fails o2 BindParticipants = false /\
              has_session (uuid_session o2)
                (db (run (startChat o name g pg ty) w)) = false)
    (Halice : currentParticipant alices = Some a /\ p_is_waiting a = true /\
              isConnected alices = false /\ currentSession alices = None)
    (Hsame : p_id a = p_id f)
    (Hcompat : mutually_compatible a (joined o name g pg) = true) :
  let bobs := run (startChat o name g pg ty) w in
  let w' := run (onParticipantInsert o2 (joined o name g pg))
              (mkWorld (db bobs) alices ts) in
  currentSession (ui bobs) = Some (new_session o ty) /\
  currentSession (ui w') = Some (new_session o2 text) /\
  uuid_session o2 <> uuid_session o /\
  session_status (db w') (uuid_session o) = Some matched /\
  session_status (db w') (uuid_session o2) = Some matched /\
  (forall q, In q (participants (db w')) ->
             p_session_id q <> Some (uuid_session o)) /\
  (forall q, In q (participants (db w')) ->
             p_id q = p_id a \/ p_id q = uuid_participant o ->
             p_session_id q = Some (uuid_session o2)).
Proof.
  cbv zeta. destruct Hreach as (F1 & F2 & Hfresh2).
  destruct Halice as (Ha & Hwait & Hnc & Hns).
  destruct (startChat_connected o name g pg ty w f Hconn Hpartner)
    as (d2 & Hwf2 & Hfresh & Hp & Hfin & Hfid & Hcs & Hdb).
  specialize (Hwf2 Hwf). destruct Hwf2 as [_ [I1 _]].
  set (B := fun q => if (p_id q =? uuid_participant o) || (p_id q =? p_id f)
                     then bind_row (uuid_session o) (now o) q else q) in *.
  remember (run (startChat o name g pg ty) w) as bobs eqn:Hbobs.
  clear Hbobs Hconn Hpartner.
  assert (Hne : uuid_session o2 <> uuid_session o).
  { intros E. rewrite E, Hdb in Hfresh2. unfold has_session in Hfresh2.
    cbn [chat_sessions] in Hfresh2. rewrite existsb_app in Hfresh2.
    simpl in Hfresh2. rewrite Z.eqb_refl in Hfresh2.
    rewrite orb_true_r in Hfresh2. discriminate. }
  assert (Hrun : run (onParticipantInsert o2 (joined o name g pg))
                   (mkWorld (db bobs) alices ts)
                 = mkWorld
                     (snd (bind_participants o2 (uuid_session o2) (p_id a)
                             (uuid_participant o)
                             (mkDB (chat_sessions (db bobs)
                                      ++ [new_session o2 text])
                                (participants (db bobs))
                                (messages (db bobs)))))
                     (mkClient (Some (new_session o2 text)) (Some a)
                        (Some (joined o name g pg)) (messages_state alices)
                        true false (heartbeatInterval alices))
                     (ts ++ [Connected (trim name)])).
  { unfold run, onParticipantInsert, bind, get_ui. cbn [fst snd ui].
    rewrite Ha, Hwait, Hnc, Hns, Hcompat. cbn [negb andb orb p_is_waiting
      p_is_online joined p_id].
    assert (E : (uuid_participant o =? p_id a) = false).
    { apply Z.eqb_neq. congruence. }
    rewrite E. cbn [negb andb orb].
    rewrite createMatchedSession_run. cbn [db ui toasts].
    rewrite F1, Hfresh2, F2. cbn [orb]. cbv zeta.
    unfold setCurrentSession, setPartner, setIsConnected, setIsSearching,
      modify_ui, toast, bind.
    cbn [fst snd db ui toasts currentSession currentParticipant partner
         messages_state isConnected isSearching heartbeatInterval joined
         p_name p_id].
    rewrite Ha. reflexivity. }
  rewrite Hrun. cbn [db ui currentSession snd bind_participants participants
                     chat_sessions messages].
  rewrite Hdb. cbn [chat_sessions participants messages].
  split; [exact Hcs|]. split; [reflexivity|]. split; [exact Hne|].
  assert (Hold : forall x, In x (chat_sessions d2) ->
                           (cs_id x =? uuid_session o) = false).
  { unfold has_session in Hfresh. rewrite existsb_false_forall in Hfresh.
    exact Hfresh. }
  assert (Hold2 : forall x, In x (chat_sessions d2) ->
                            (cs_id x =? uuid_session o2) = false).
  { intros x Hx. rewrite Hdb in Hfresh2. unfold has_session in Hfresh2.
    cbn [chat_sessions] in Hfresh2. rewrite existsb_false_forall in Hfresh2.
    apply Hfresh2. apply in_or_app. now left. }
  split.
  { unfold session_status, find_session. cbn [chat_sessions].
    rewrite <- app_assoc.
    assert (Hnone : find (fun s => cs_id s =? uuid_session o) (chat_sessions d2)
                    = None).
    { destruct (find _ (chat_sessions d2)) as [x|] eqn:E; [|reflexivity].
      apply find_some in E. destruct E as [E1 E2].
      rewrite (Hold x E1) in E2. discriminate. }
    assert (Happ : forall l, find (fun s => cs_id s =? uuid_session o)
                               (chat_sessions d2 ++ l)
                             = find (fun s => cs_id s =? uuid_session o) l).
    { intros l. revert Hnone. generalize (chat_sessions d2).
      induction l0 as [|x r IH]; simpl; [reflexivity|].
      destruct (cs_id x =? uuid_session o); [discriminate|exact IH]. }
    rewrite Happ. simpl. rewrite Z.eqb_refl. reflexivity. }
  split.
  { unfold session_status, find_session. cbn [chat_sessions].
    rewrite <- app_assoc.
    assert (Hnone : find (fun s => cs_id s =? uuid_session o2) (chat_sessions d2)
                    = None).
    { destruct (find _ (chat_sessions d2)) as [x|] eqn:E; [|reflexivity].
      apply find_some in E. destruct E as [E1 E2].
      rewrite (Hold2 x E1) in E2. discriminate. }
    assert (Happ : forall l, find (fun s => cs_id s =? uuid_session o2)
                               (chat_sessions d2 ++ l)
                             = find (fun s => cs_id s =? uuid_session o2) l).
    { intros l. revert Hnone. generalize (chat_sessions d2).
      induction l0 as [|x r IH]; simpl; [reflexivity|].
      destruct (cs_id x =? uuid_session o2); [discriminate|exact IH]. }
    rewrite Happ. simpl.
    assert (E : (uuid_session o =? uuid_session o2) = false)
      by (apply Z.eqb_neq; congruence).
    rewrite E, Z.eqb_refl. reflexivity. }
  assert (Hrows : forall q, In q (map (fun p => if (p_id p =? p_id a) ||
                                                  (p_id p =? uuid_participant o)
                                               then bind_row (uuid_session o2) (now o2) p
                                               else p)
                                    (map B (participants d2))) ->
            (p_id q = p_id a \/ p_id q = uuid_participant o ->
             p_session_id q = Some (uuid_session o2)) /\
            p_session_id q <> Some (uuid_session o)).
  { intros q Hq. apply in_map_iff in Hq. destruct Hq as [q1 [Hq1 Hin1]].
    apply in_map_iff in Hin1. destruct Hin1 as [q0 [Hq0 Hin0]].
    destruct ((p_id q1 =? p_id a) || (p_id q1 =? uuid_participant o)) eqn:E.
    - subst q. simpl. split; [reflexivity|]. congruence.
    - subst q. apply orb_false_iff in E. destruct E as [E1 E2].
      apply Z.eqb_neq in E1, E2. split; [tauto|].
      unfold B in Hq0.
      destruct ((p_id q0 =? uuid_participant o) || (p_id q0 =? p_id f)) eqn:E0.
      + subst q1. simpl in E1, E2. apply orb_true_iff in E0.
        destruct E0 as [E0|E0]; apply Z.eqb_eq in E0; congruence.
      + subst q1. intros Hb. specialize (I1 q0 _ Hin0 Hb). congruence. }
  split; intros q Hq; apply Hrows; exact Hq.
Qed.

Lemma newcomer_event_pairs_a_second_time_witness :
  well_formed (mkDB [] [alice] []) /\
  currentSession
    (ui (run (onParticipantInsert (at_time 1600 60)
                (joined (at_time 1500 50) (js "bob") male female))
           (mkWorld
              (db (run (startChat (at_time 1500 50) (js "bob") male female text)
                     (mkWorld (mkDB [] [alice] []) idle [])))
              (mkClient None (Some alice) None [] false true (Some 1)) [])))
  = Some (new_session (at_time 1600 60) text).
Proof.
  assert (Hwf : well_formed (mkDB [] [alice] [])).
  { split.
    - repeat split; simpl; repeat constructor; simpl; tauto.
    - split; [|intros m []].
      intros p sid Hin Hb. simpl in Hin. destruct Hin as [<-|[]]. discriminate. }
  split; [exact Hwf|].
  refine (proj1 (proj2 (newcomer_event_pairs_a_second_time
            (at_time 1500 50) (at_time 1600 60) (js "bob") male female text
            (mkWorld (mkDB [] [alice] []) idle [])
            (mkClient None (Some alice) None [] false true (Some 1)) []
            alice alice Hwf eq_refl eq_refl _ _ eq_refl eq_refl))).
  - repeat split; reflexivity.
  - repeat split; reflexivity.
Defined.

(** ** What the change feed puts on the screen *)

Lemma appendMessage_members m prev x :
  (In x (appendMessage m prev) -> In x prev \/ x = m) /\
  (In x prev -> In x (appendMessage m prev)).
Proof.
  unfold appendMessage.
  destruct (existsb (fun msg => m_id msg =? m_id m) prev); [tauto|].
  rewrite sort_by_In, in_app_iff. simpl. split.
  - intros [H|[<-|[]]]; auto.
  - auto.
Qed.

(** X15.  While the client is in a session, the change feed alters nothing
    but the transcript, and the transcript gains exactly the feed: an id is
    shown afterwards iff it was shown before or a delivered message of the
    current session carries it; every message shown was shown before or
    was delivered for this session; nothing shown before is dropped. *)
Theorem feed_reaches_transcript
    (feed : list Message) (w : World) (s : ChatSession)
    (Hs : currentSession (ui w) = Some s) :
  let w' := deliver feed w in
  db w' = db w /\ currentSession (ui w') = Some s /\
  partner (ui w') = partner (ui w) /\ toasts w' = toasts w /\
  (forall i, In i (map m_id (messages_state (ui w'))) <->
             In i (map m_id (messages_state (ui w))) \/
             exists m, In m feed /\ m_session_id m = cs_id s /\ m_id m = i) /\
  (forall x, In x (messages_state (ui w')) ->
             In x (messages_state (ui w)) \/
             (In x feed /\ m_session_id x = cs_id s)) /\
  (forall x, In x (messages_state (ui w)) -> In x (messages_state (ui w'))).
Proof.
  cbv zeta. unfold deliver. revert w Hs.
  induction feed as [|m feed IH]; intros w Hs; simpl.
  - repeat split; auto.
    + intros [H|[m [[] _]]]. exact H.
  - pose proof (onMessageInsert_run m w s Hs) as Hrun.
    assert (Hs1 : currentSession (ui (run (onMessageInsert m) w)) = Some s)
      by (rewrite Hrun; reflexivity).
    destruct (IH _ Hs1) as (Hd & Hc & Hp & Ht & Hids & Hfrom & Hkeep).
    rewrite Hd, Hc, Hp, Ht. rewrite Hrun at 1 2 3. simpl.
    split; [reflexivity|]. split; [reflexivity|]. split; [reflexivity|].
    split; [reflexivity|].
    assert (Hms : messages_state (ui (run (onMessageInsert m) w)) =
                  if m_session_id m =? cs_id s
                  then appendMessage m (messages_state (ui w))
                  else messages_state (ui w))
      by (rewrite Hrun; reflexivity).
    split; [|split].
    + intros i. rewrite Hids, Hms.
      destruct (m_session_id m =? cs_id s) eqn:E.
      * apply Z.eqb_eq in E. rewrite appendMessage_ids. split.
        -- intros [[H| ->]|[x [Hx [Hsx Hi]]]].
           ++ now left.
           ++ right. exists m. auto.
           ++ right. exists x. auto.
        -- intros [H|[x [[<-|Hx] [Hsx Hi]]]].
           ++ left. now left.
           ++ left. right. now symmetry.
           ++ right. exists x. auto.
      * apply Z.eqb_neq in E. split.
        -- intros [H|[x [Hx [Hsx Hi]]]]; [now left|]. right. exists x. auto.
        -- intros [H|[x [[<-|Hx] [Hsx Hi]]]]; [now left|contradiction|].
           right. exists x. auto.
    + intros x Hx. destruct (Hfrom x Hx) as [H|[H1 H2]]; [|now auto].
      rewrite Hms in H. destruct (m_session_id m =? cs_id s) eqn:E; [|now left].
      apply Z.eqb_eq in E.
      destruct (proj1 (appendMessage_members m _ x) H) as [H'| ->]; auto.
    + intros x Hx. apply Hkeep. rewrite Hms.
      destruct (m_session_id m =? cs_id s); [|exact Hx].
      now apply appendMessage_members.
Qed.

Lemma feed_reaches_transcript_witness :
  currentSession (ui chatting) = Some session10 /\
  db (deliver [msg 3 9; msg 3 9; msg 2 7] chatting) = db chatting.
Proof.
  split; [reflexivity|].
  exact (proj1 (feed_reaches_transcript [msg 3 9; msg 3 9; msg 2 7] chatting
                  session10 eq_refl)).
Defined.

(** ** The pages *)

Lemma trim_trim s : trim (trim s) = trim s.
Proof. unfold trim. apply strip_strip. auto. Qed.

Lemma sendMessage_messages o content w :
  result (sendMessage o content) w = Normal tt /\
  (run (sendMessage o content) w = w \/
   run (sendMessage o content) w
     = mkWorld (db w) (ui w) (toasts w ++ [MessageFailed]) \/
   exists s me,
     currentSession (ui w) = Some s /\ currentParticipant (ui w) = Some me /\
     ui (run (sendMessage o content) w) = ui w /\
     toasts (run (sendMessage o content) w) = toasts w /\
     chat_sessions (db (run (sendMessage o content) w)) = chat_sessions (db w) /\
     messages (db (run (sendMessage o content) w))
       = messages (db w) ++
         [mkMessage (uuid_message o) (cs_id s) (p_id me) (trim content) (now o)]).
Proof.
  unfold run, result.
  destruct (currentSession (ui w)) as [s|] eqn:Hs;
    [|rewrite sendMessage_idle by auto; simpl; auto].
  destruct (currentParticipant (ui w)) as [me|] eqn:Hme;
    [|rewrite sendMessage_idle by auto; simpl; auto].
  destruct (trim content) as [|c r] eqn:Ht;
    [rewrite sendMessage_idle by auto; simpl; auto|].
  rewrite (sendMessage_run o content w s me Hs Hme) by (rewrite Ht; discriminate).
  destruct (message_refused o s me (trim content) (db w)).
  - simpl. auto.
  - cbv zeta. simpl. split; [reflexivity|]. right. right. exists s, me.
    rewrite Ht. destruct (fails o RpcHeartbeat); simpl; auto 10.
Qed.

(** X16.  What the chat room sends.  A press of send stores at most one
    message, and only when the client is connected and the input, trimmed
    of white space, has between 1 and 500 code units; the stored content
    is that trimmed input, sessions and client state are untouched.
    Otherwise the press changes nothing, the input field included. *)
Theorem room_sends_trimmed_text_up_to_500
    (o : Oracle) (r : ChatRoomState) (w : World) :
  let text_sent := trim (messageInput r) in
  let w' := run (handleSendMessage o r) w in
  (isConnected (ui w) = false \/ text_sent = [] \/
   (500 < List.length text_sent)%nat ->
   handleSendMessage o r w = (Normal r, w)) /\
  ui w' = ui w /\ chat_sessions (db w') = chat_sessions (db w) /\
  (messages (db w') = messages (db w) \/
   exists s me,
     currentSession (ui w) = Some s /\ currentParticipant (ui w) = Some me /\
     isConnected (ui w) = true /\
     (1 <= List.length text_sent <= 500)%nat /\
     result (handleSendMessage o r) w
       = Normal (mkChatRoom [] (showSkipDialog r) false) /\
     messages (db w') = messages (db w) ++
       [mkMessage (uuid_message o) (cs_id s) (p_id me) text_sent (now o)]).
Proof.
  cbv zeta. unfold run, result, handleSendMessage, bind, get_ui.
  cbn [fst snd].
  destruct (negb (List.length (trim (messageInput r)) =? 0)%nat &&
            isConnected (ui w) &&
            (List.length (trim (messageInput r)) <=? 500)%nat) eqn:G.
  - apply andb_true_iff in G. destruct G as [G G3].
    apply andb_true_iff in G. destruct G as [G1 G2].
    apply negb_true_iff, Nat.eqb_neq in G1. apply Nat.leb_le in G3.
    split.
    { intros [H|[H|H]].
      - congruence.
      - rewrite H in G1. simpl in G1. lia.
      - lia. }
    destruct (sendMessage_messages o (trim (messageInput r)) w)
      as [Hres Hrun].
    unfold run, result in Hres, Hrun.
    destruct (sendMessage o (trim (messageInput r)) w) as [c w1] eqn:E.
    simpl in Hres, Hrun. subst c. unfold ret. simpl.
    destruct Hrun as [-> | [-> | (s & me & Hs & Hme & Hu & _ & Hcs & Hm)]].
    + auto.
    + simpl. auto.
    + split; [exact Hu|]. split; [exact Hcs|]. right. exists s, me.
      rewrite trim_trim in Hm. repeat split; auto; lia.
  - unfold ret. simpl. split; [reflexivity|]. auto.
Qed.

(** X17.  The input field of the chat room never holds more than 500 code
    units: a longer value is not taken, so a field within the bound stays
    within it whatever is typed or pasted; and with such a field, a press
    of send while connected is refused only for blank input. *)
Theorem room_input_stays_within_500
    (o : Oracle) (values : list jsstring) (r : ChatRoomState) (w : World)
    (Hr : (List.length (messageInput r) <= 500)%nat) :
  let r' := fold_left (fun acc v => handleInputChange v acc) values r in
  (List.length (messageInput r') <= 500)%nat /\
  (isConnected (ui w) = true -> trim (messageInput r') <> [] ->
   result (handleSendMessage o r') w
     = Normal (mkChatRoom [] (showSkipDialog r') false)).
Proof.
  cbv zeta.
  assert (Hlen : (List.length
                    (messageInput
                       (fold_left (fun acc v => handleInputChange v acc) values r))
                  <= 500)%nat).
  { revert r Hr. induction values as [|v vs IH]; intros r Hr; simpl; [exact Hr|].
    apply IH. unfold handleInputChange.
    destruct (List.length v <=? 500)%nat eqn:E; [|exact Hr].
    simpl. now apply Nat.leb_le. }
  split; [exact Hlen|].
  set (r' := fold_left (fun acc v => handleInputChange v acc) values r) in *.
  intros Hc Hne.
  assert (Htrim : (List.length (trim (messageInput r')) <= 500)%nat).
  { unfold trim, strip.
    destruct (drop_while_suffix is_js_space (messageInput r')) as [pre Hpre].
    destruct (drop_while_suffix is_js_space
                (rev (drop_while is_js_space (messageInput r')))) as [post Hpost].
    apply (f_equal (@List.length N)) in Hpre, Hpost.
    rewrite length_app in Hpre, Hpost. rewrite length_rev in Hpost |- *. lia. }
  unfold result, handleSendMessage, bind, get_ui. cbn [fst snd].
  rewrite Hc.
  assert (G1 : (List.length (trim (messageInput r')) =? 0)%nat = false).
  { apply Nat.eqb_neq. intros E. apply length_zero_iff_nil in E. contradiction. }
  rewrite G1. apply Nat.leb_le in Htrim. rewrite Htrim. cbn [negb andb].
  pose proof (proj1 (sendMessage_messages o (trim (messageInput r')) w)) as Hres.
  unfold result in Hres.
  destruct (sendMessage o (trim (messageInput r')) w) as [c w1].
  simpl in Hres. subst c. reflexivity.
Qed.

Lemma room_input_stays_within_500_witness :
  (List.length (messageInput (mkChatRoom [] false false)) <= 500)%nat /\
  (List.length
     (messageInput
        (fold_left (fun acc v => handleInputChange v acc)
           [js "hello"; long_content; js "hi"] (mkChatRoom [] false false)))
   <= 500)%nat.
Proof.
  split; [simpl; lia|].
  refine (proj1 (room_input_stays_within_500 (at_time 2000 7)
                   [js "hello"; long_content; js "hi"]
                   (mkChatRoom [] false false) chatting _)).
  simpl. lia.
Defined.

(** X18.  What the setup form starts.  A blank name starts nothing.  Any
    other name moves the page to the chat room whatever becomes of the
    start, and runs [startChat] with the trimmed name; the store's check on
    names never refuses it: unless the insert fails or the key is taken,
    the client holds the new participant, whose name is the trimmed input,
    not empty, with no blank at either end. *)
Theorem setup_form_starts_with_trimmed_name
    (o : Oracle) (f : UserSetupState) (i : IndexState) (w : World) :
  let name := trim (us_name f) in
  let p := joined o (us_name f) (us_gender f) (us_preferredGender f) in
  (name = [] -> handleStart o f i w = (Normal i, w)) /\
  (name <> [] ->
   result (handleStart o f i) w = Normal (mkIndex chat (selectedChatType i)) /\
   run (handleStart o f i) w
     = run (startChat o (us_name f) (us_gender f) (us_preferredGender f)
              (selectedChatType i)) w /\
   p_name p = name /\ pg_trim (p_name p) = p_name p /\
   (fails o InsertParticipant = false ->
    has_participant (uuid_participant o) (db w) = false ->
    currentParticipant (ui (run (handleStart o f i) w)) = Some p)).
Proof.
  cbv zeta. unfold handleStart. split.
  - intros H. rewrite H. reflexivity.
  - intros H.
    assert (G : (List.length (trim (us_name f)) =? 0)%nat = false).
    { apply Nat.eqb_neq. intros E. apply length_zero_iff_nil in E.
      contradiction. }
    rewrite G. cbn [negb].
    assert (Hsame : forall g pg ty,
              startChat o (trim (us_name f)) g pg ty w
              = startChat o (us_name f) g pg ty w).
    { intros g pg ty. unfold startChat. rewrite trim_trim. reflexivity. }
    assert (Hnormal : exists w1,
              startChat o (us_name f) (us_gender f) (us_preferredGender f)
                (selectedChatType i) w = (Normal tt, w1)).
    { unfold startChat, try_catch.
      match goal with
      | |- exists w1, match ?b with _ => _ end = _ => destruct b as [[[]|e] w2]
      end.
      - now exists w2.
      - unfold bind, setIsSearching, stopHeartbeat, setHeartbeatInterval,
          modify_ui, toast. simpl. eexists. reflexivity. }
    destruct Hnormal as [w1 Hw1].
    unfold result, run, handleUserSetup, bind. rewrite Hsame, Hw1.
    cbn [fst snd ret].
    split; [reflexivity|]. split; [reflexivity|].
    split; [reflexivity|]. split; [apply pg_trim_trim|].
    intros F1 F2.
    assert (Hrun : w1 = run (startChat o (us_name f) (us_gender f)
                              (us_preferredGender f) (selectedChatType i)) w)
      by (unfold run; now rewrite Hw1).
    rewrite Hrun, startChat_run, F1, F2.
    assert (G' : (List.length (pg_trim (trim (us_name f))) =? 0)%nat = false)
      by (rewrite pg_trim_trim; exact G).
    rewrite G'. cbn [orb]. cbv zeta.
    match goal with
    | |- context [match ?x with None => _ | Some f0 => _ end] => destruct x
    end; [|reflexivity].
    match goal with
    | |- context [createMatchedSession ?a ?b ?c ?d ?e] =>
        destruct (createMatchedSession a b c d e) as [[[ns|]|e0] w4]
    end; reflexivity.
Qed.

(** ** Leaving *)

Lemma heartbeatTick_unarmed o w :
  heartbeatInterval (ui w) = None -> run (heartbeatTick o) w = w.
Proof.
  intros H. unfold run, heartbeatTick, bind, get_ui. simpl. rewrite H.
  reflexivity.
Qed.

Lemma found_is_waiting o me ty w f :
  result (findOnlineCompatiblePartner o me ty) w = Normal (Some f) ->
  exists f0, In f0 (participants (db w)) /\ p_id f0 = p_id f /\
             p_is_waiting f0 = true /\ p_is_online f0 = true /\ f = f0.
Proof.
  unfold result. rewrite findOnlineCompatiblePartner_run. cbv zeta. cbn [fst].
  destruct (fails o SelectCandidates); [discriminate|].
  intros [= H]. apply hd_error_In in H. apply filter_In in H.
  destruct H as [H _]. apply candidate_window_In in H. destruct H as [Hin He].
  apply eligible_spec in He. destruct He as (Hw & Hon & _).
  exists f. split; [|auto].
  destruct (fails o RpcCleanup); [exact Hin|].
  simpl in Hin. unfold mark_offline in Hin. apply in_map_iff in Hin.
  destruct Hin as [q [Hq Hin]].
  pose proof (offline_or_same (now o) q) as Hsame. cbv zeta in Hsame.
  rewrite Hq in Hsame. destruct Hsame as (_ & _ & _ & Heq).
  rewrite (Heq Hw). exact Hin.
Qed.

(** X19.  Who stopped is out of the pool.  When the participant update of
    [stopChat] reaches the store, the client is idle, its heartbeat timer
    does nothing any more, every row of the participant is offline, not
    waiting and stamped as left, and no search made on that store, by
    whomever and whenever, answers this participant. *)
Theorem stopped_participant_is_never_found
    (o : Oracle) (w : World) (me : Participant)
    (Hme : currentParticipant (ui w) = Some me)
    (Hok : fails o UpdateParticipant = false) :
  let w' := run (stopChat o) w in
  ui w' = idle /\ toasts w' = toasts w /\
  (forall o2, run (heartbeatTick o2) w' = w') /\
  (forall q, In q (participants (db w')) -> p_id q = p_id me ->
             p_is_waiting q = false /\ p_is_online q = false /\
             p_left_at q = Some (now o)) /\
  (forall o2 seeking ty c2 ts2 f,
     result (findOnlineCompatiblePartner o2 seeking ty)
       (mkWorld (db w') c2 ts2) = Normal (Some f) ->
     p_id f <> p_id me).
Proof.
  cbv zeta.
  assert (Hrows : forall q, In q (participants (db (run (stopChat o) w))) ->
                            p_id q = p_id me ->
                            p_is_waiting q = false /\ p_is_online q = false /\
                            p_left_at q = Some (now o)).
  { unfold run. rewrite (stopChat_run o w me Hme), Hok. cbv zeta.
    cbn [snd db leave_participant participants].
    intros q Hin Hid. apply in_map_iff in Hin. destruct Hin as [q0 [Hq Hin]].
    destruct (p_id q0 =? p_id me) eqn:E.
    - subst q. auto.
    - subst q. apply Z.eqb_neq in E. contradiction. }
  assert (Hui : ui (run (stopChat o) w) = idle)
    by (unfold run; rewrite (stopChat_run o w me Hme); reflexivity).
  split; [exact Hui|].
  split; [unfold run; rewrite (stopChat_run o w me Hme); reflexivity|].
  split; [intros o2; apply heartbeatTick_unarmed; now rewrite Hui|].
  split; [exact Hrows|].
  intros o2 seeking ty c2 ts2 f Hf Hid.
  apply found_is_waiting in Hf. destruct Hf as (f0 & Hin & _ & Hw & _ & ->).
  cbn [db] in Hin. destruct (Hrows f0 Hin Hid) as [Hnw _]. congruence.
Qed.

Lemma stopped_participant_is_never_found_witness :
  currentParticipant (ui chatting) = Some (paired 10 alice) /\
  fails (at_time 9000 11) UpdateParticipant = false /\
  ui (run (stopChat (at_time 9000 11)) chatting) = idle.
Proof.
  split; [reflexivity|]. split; [reflexivity|].
  exact (proj1 (stopped_participant_is_never_found (at_time 9000 11) chatting
                  (paired 10 alice) eq_refl eq_refl)).
Defined.

(** X20.  A stop that does not reach the store is not noticed.  When the
    participant update fails, [stopChat] clears the client all the same and
    raises no notice, while no participant row has changed: the pool
    offers exactly the candidates it offered before, the participant who
    left among them if it was one. *)
Theorem failed_stop_leaves_the_row_in_the_pool
    (o : Oracle) (w : World) (me : Participant)
    (Hme : currentParticipant (ui w) = Some me)
    (Hfail : fails o UpdateParticipant = true) :
  let w' := run (stopChat o) w in
  ui w' = idle /\ toasts w' = toasts w /\
  participants (db w') = participants (db w) /\
  messages (db w') = messages (db w) /\
  (forall t seeking, candidate_window t seeking (db w')
                     = candidate_window t seeking (db w)).
Proof.
  cbv zeta. unfold run. rewrite (stopChat_run o w me Hme), Hfail. cbv zeta.
  cbn [snd db ui toasts].
  assert (Hp : participants
                 match currentSession (ui w) with
                 | Some s => if fails o UpdateSession then db w
                             else snd (end_session o (cs_id s) (db w))
                 | None => db w
                 end = participants (db w)).
  { destruct (currentSession (ui w)); [|reflexivity].
    destruct (fails o UpdateSession); reflexivity. }
  split; [reflexivity|]. split; [reflexivity|]. split; [exact Hp|].
  split.
  - destruct (currentSession (ui w)); [|reflexivity].
    destruct (fails o UpdateSession); reflexivity.
  - intros t seeking. unfold candidate_window. now rewrite Hp.
Qed.

Lemma failed_stop_leaves_the_row_in_the_pool_witness :
  currentParticipant (ui (mkWorld (db lobby)
     (mkClient None (Some alice) None [] false true (Some 1)) []))
    = Some alice /\
  fails (failing UpdateParticipant 2000 50) UpdateParticipant = true /\
  candidate_window 2000 bob
    (db (run (stopChat (failing UpdateParticipant 2000 50))
           (mkWorld (db lobby)
              (mkClient None (Some alice) None [] false true (Some 1)) [])))
  = candidate_window 2000 bob (db lobby).
Proof.
  split; [reflexivity|]. split; [reflexivity|].
  exact (proj2 (proj2 (proj2 (proj2
    (failed_stop_leaves_the_row_in_the_pool (failing UpdateParticipant 2000 50)
       (mkWorld (db lobby)
          (mkClient None (Some alice) None [] false true (Some 1)) [])
       alice eq_refl eq_refl)))) 2000 bob).
Defined.

(** ** A skip that fails half-way *)

Lemma has_participant_filter pid d :
  has_participant pid d = false ->
  filter (fun p => p_id p =? pid) (participants d) = [].
Proof.
  unfold has_participant. rewrite existsb_false_forall. apply filter_none.
Qed.

(** X21.  A skip whose participant update fails (the store does not
    answer, or the participant's row is gone) has ended the session all the
    same when the session update went through: every session row with the
    id of the client's session is ended, while participants and messages
    are untouched, the client still shows the old session as connected,
    and the notice is "skip failed". *)
Theorem failed_skip_has_ended_the_session
    (o : Oracle) (w : World) (s : ChatSession) (me : Participant)
    (Hs : currentSession (ui w) = Some s)
    (Hme : currentParticipant (ui w) = Some me)
    (Hfail : fails o UpdateParticipant = true \/
             has_participant (p_id me) (db w) = false) :
  let w' := run (skipChat o) w in
  ui w' = ui w /\ toasts w' = toasts w ++ [SkipFailed] /\
  participants (db w') = participants (db w) /\
  messages (db w') = messages (db w) /\
  (fails o UpdateSession = false ->
   forall r, In r (chat_sessions (db w')) -> cs_id r = cs_id s ->
             cs_status r = ended /\ cs_ended_at r = Some (now o)).
Proof.
  cbv zeta.
  assert (Hrun : run (skipChat o) w =
                 mkWorld (if fails o UpdateSession then db w
                          else snd (end_session o (cs_id s) (db w)))
                   (ui w) (toasts w ++ [SkipFailed])).
  { unfold run, skipChat, bind, get_ui. cbn [fst snd]. rewrite Hs, Hme.
    unfold try_catch, bind, await, throw, toast.
    destruct w as [d c ts]. cbn [db ui toasts] in *.
    destruct (fails o UpdateSession); cbn [fst snd db ui toasts end_session].
    - destruct (fails o UpdateParticipant) eqn:F; [reflexivity|].
      destruct Hfail as [Hf|Hf]; [discriminate|].
      unfold requeue_participant. cbn [participants].
      rewrite (has_participant_filter _ _ Hf). reflexivity.
    - destruct (fails o UpdateParticipant) eqn:F; [reflexivity|].
      destruct Hfail as [Hf|Hf]; [discriminate|].
      unfold requeue_participant. cbn [participants].
      rewrite (has_participant_filter _ _ Hf). reflexivity. }
  rewrite Hrun. cbn [db ui toasts].
  split; [reflexivity|]. split; [reflexivity|].
  split; [destruct (fails o UpdateSession); reflexivity|].
  split; [destruct (fails o UpdateSession); reflexivity|].
  intros F r Hin Hid. rewrite F in Hin. cbn [snd end_session chat_sessions] in Hin.
  apply in_map_iff in Hin. destruct Hin as [r0 [Hr Hin]].
  destruct (cs_id r0 =? cs_id s) eqn:E.
  - subst r. auto.
  - subst r. apply Z.eqb_neq in E. contradiction.
Qed.

Lemma failed_skip_has_ended_the_session_witness :
  currentSession (ui chatting) = Some session10 /\
  fails (failing UpdateParticipant 5000 11) UpdateParticipant = true /\
  toasts (run (skipChat (failing UpdateParticipant 5000 11)) chatting)
    = [SkipFailed] /\
  ui (run (skipChat (failing UpdateParticipant 5000 11)) chatting) = ui chatting.
Proof.
  split; [reflexivity|]. split; [reflexivity|].
  pose proof (failed_skip_has_ended_the_session
                (failing UpdateParticipant 5000 11) chatting session10
                (paired 10 alice) eq_refl eq_refl (or_introl eq_refl)) as H.
  cbv zeta in H. destruct H as (Hu & Ht & _). split; [exact Ht|exact Hu].
Defined.

(** ** Whom a skip can bring *)

(** X22.  The partner a skip reconnects with was in the pool before the
    skip: a row of the store as it was, waiting, online, seen within the
    last 30 seconds, not the invoker, and mutually compatible with the
    invoker.  So it is never a participant that was not waiting, the
    partner just skipped among them as long as that one is still bound. *)
Theorem skip_reconnects_only_with_the_waiting
    (o : Oracle) (w : World) (s : ChatSession) (me row f : Participant)
    (Hok : no_faults o)
    (Hs : currentSession (ui w) = Some s)
    (Hme : currentParticipant (ui w) = Some me)
    (Hrow : filter (fun p => p_id p =? p_id me) (participants (db w)) = [row])
    (Hf : partner (ui (run (skipChat o) w)) = Some f) :
  In f (participants (db w)) /\
  p_is_waiting f = true /\ p_is_online f = true /\
  now o - 30000 <= p_last_seen f /\ p_id f <> p_id me /\
  mutually_compatible (requeue_row (now o) row) f = true /\
  isConnected (ui (run (skipChat o) w)) = true /\
  currentSession (ui (run (skipChat o) w)) = Some (new_session o text) /\
  (NoDup (map p_id (participants (db w))) ->
   forall q, In q (participants (db w)) -> p_is_waiting q = false ->
             p_id f <> p_id q).
Proof.
  rewrite (skipChat_run o w s me row Hok Hs Hme Hrow) in Hf |- *.
  cbv zeta in Hf |- *.
  set (me' := requeue_row (now o) row) in *.
  set (d3 := cleanup_offline_participants (now o)
               (snd (requeue_participant o (p_id me)
                       (snd (end_session o (cs_id s) (db w)))))) in *.
  destruct (hd_error (filter (mutually_compatible me')
                        (candidate_window (now o) me' d3))) as [f'|] eqn:Hhd;
    [|discriminate].
  destruct (has_session (uuid_session o) d3); [discriminate|].
  cbn [ui partner reconnected] in Hf. injection Hf as ->.
  apply hd_error_In, filter_In in Hhd. destruct Hhd as [Hwin Hcompat].
  apply candidate_window_In in Hwin. destruct Hwin as [Hin He].
  apply eligible_spec in He. destruct He as (Hw & Hon & Hne & Hseen).
  assert (Hin0 : In f (participants (db w))).
  { unfold d3, cleanup_offline_participants, requeue_participant in Hin.
    cbn [end_session snd participants] in Hin. rewrite Hrow in Hin.
    cbn [single snd participants mark_offline] in Hin.
    unfold mark_offline in Hin.
    apply in_map_iff in Hin. destruct Hin as [q1 [Hq1 Hin]].
    pose proof (offline_or_same (now o) q1) as Hsame. cbv zeta in Hsame.
    rewrite Hq1 in Hsame. destruct Hsame as (_ & _ & _ & Heq).
    specialize (Heq Hw). subst q1.
    apply in_map_iff in Hin. destruct Hin as [q0 [Hq0 Hin]].
    destruct (p_id q0 =? p_id me) eqn:E.
    - subst f. simpl in Hne. apply Z.eqb_eq in E.
      assert (Hr : In q0 (filter (fun p => p_id p =? p_id me)
                            (participants (db w))))
        by (apply filter_In; split; [exact Hin|now apply Z.eqb_eq]).
      rewrite Hrow in Hr. destruct Hr as [<-|[]]. simpl in Hne.
      unfold me' in Hne. simpl in Hne. contradiction.
    - now subst q0. }
  assert (Hid : p_id f <> p_id me).
  { intros E. assert (Hr : In f (filter (fun p => p_id p =? p_id me)
                                   (participants (db w))))
      by (apply filter_In; split; [exact Hin0|now apply Z.eqb_eq]).
    rewrite Hrow in Hr. destruct Hr as [<-|[]]. apply Hne. reflexivity. }
  split; [exact Hin0|]. split; [exact Hw|]. split; [exact Hon|].
  split; [exact Hseen|]. split; [exact Hid|]. split; [exact Hcompat|].
  split; [reflexivity|]. split; [reflexivity|].
  intros Hpk q Hq Hnw E.
  rewrite (unique_row _ f q Hpk Hin0 Hq E) in Hw. congruence.
Qed.

Lemma skip_reconnects_only_with_the_waiting_witness :
  no_faults (at_time 5000 11) /\
  In carol (participants (db (mkWorld
     (mkDB [session10] [paired 10 alice; paired 10 bob; carol] [])
     (ui bobs_view) []))) /\
  p_is_waiting carol = true.
Proof.
  assert (Hok : no_faults (at_time 5000 11)) by (intros site; reflexivity).
  split; [exact Hok|].
  pose proof (skip_reconnects_only_with_the_waiting (at_time 5000 11)
                (mkWorld (mkDB [session10] [paired 10 alice; paired 10 bob; carol] [])
                   (ui bobs_view) [])
                session10 (paired 10 bob) (paired 10 bob) carol
                Hok eq_refl eq_refl eq_refl eq_refl) as H.
  split; [exact (proj1 H)|exact (proj1 (proj2 H))].
Defined.

(** ** Sending and liveness *)



(** ** The first revision of the hook *)

Lemma legacy_startChat_run o name g pg ty w :
  run (legacy_startChat o name g pg ty) w =
  if fails o InsertParticipant || has_participant (uuid_participant o) (db w) ||
     (List.length (pg_trim name) =? 0)%nat
  then mkWorld (db w)
         (mkClient (currentSession (ui w)) (currentParticipant (ui w))
            (partner (ui w)) (messages_state (ui w)) (isConnected (ui w))
            false (heartbeatInterval (ui w)))
         (toasts w ++ [StartFailed])
  else
    let p := legacy_joined o name g pg in
    let d1 := mkDB (chat_sessions (db w)) (participants (db w) ++ [p])
                (messages (db w)) in
    if fails o SelectCandidates
    then mkWorld d1 (legacy_started (ui w) p false) (toasts w ++ [StartFailed])
    else
      match filter (legacy_accepts (p_id p) g pg) (participants d1) with
      | [] => mkWorld d1 (legacy_started (ui w) p true) (toasts w ++ [Searching])
      | waitingPartner :: _ =>
          if fails o InsertSession || has_session (uuid_session o) d1
          then mkWorld d1 (legacy_started (ui w) p false)
                 (toasts w ++ [StartFailed])
          else
            let d2 := mkDB (chat_sessions d1 ++ [new_session o ty])
                        (participants d1) (messages d1) in
            mkWorld
              (if fails o BindParticipants then d2
               else snd (legacy_bind_participants (uuid_session o) (p_id p)
                           (p_id waitingPartner) d2))
              (mkClient (Some (new_session o ty)) (Some p)
                 (Some waitingPartner) (messages_state (ui w)) true false
                 (heartbeatInterval (ui w)))
              (toasts w ++ [Connected (p_name waitingPartner)])
      end.
Proof.
  unfold run, legacy_startChat, try_catch, bind, await, setIsSearching,
    setCurrentParticipant, setCurrentSession, setPartner, setIsConnected,
    modify_ui, toast, ret, throw, insert_participant, insert_session,
    legacy_select_waiting, legacy_joined, legacy_started, new_session.
  unfold bind.
  cbn [fst snd db ui toasts currentSession currentParticipant partner
       messages_state isConnected isSearching heartbeatInterval].
  destruct (fails o InsertParticipant); [reflexivity|].
  destruct (has_participant (uuid_participant o) (db w)); [reflexivity|].
  destruct (List.length (pg_trim name) =? 0)%nat; [reflexivity|].
  cbn [orb fst snd db ui toasts currentSession currentParticipant partner
       messages_state isConnected isSearching heartbeatInterval p_id
       participants chat_sessions messages].
  destruct (fails o SelectCandidates); [reflexivity|].
  cbn [fst snd db ui toasts participants p_id].
  destruct (filter _ (participants (db w) ++ _)) as [|wp rest];
    [reflexivity|].
  cbn [firstn fst snd db ui toasts].
  destruct (fails o InsertSession); [reflexivity|].
  cbn [orb fst snd db ui toasts chat_sessions has_session].
  match goal with
  | |- context [has_session ?a ?b] => destruct (has_session a b)
  end; [reflexivity|].
  cbn [fst snd db ui toasts cs_id].
  destruct (fails o BindParticipants); reflexivity.
Qed.

Lemma legacy_onMessageInsert_run m w s :
  currentSession (ui w) = Some s ->
  run (legacy_onMessageInsert m) w =
  mkWorld (db w)
    (mkClient (Some s) (currentParticipant (ui w)) (partner (ui w))
       (messages_state (ui w) ++
        (if m_session_id m =? cs_id s then [m] else []))
       (isConnected (ui w)) (isSearching (ui w)) (heartbeatInterval (ui w)))
    (toasts w).
Proof.
  intros Hs. destruct w as [d c ts]. destruct c as [cs cp pt ms ic isr hb].
  simpl in Hs. subst cs.
  unfold run, legacy_onMessageInsert, bind, get_ui, setMessages, modify_ui, ret.
  simpl. destruct (m_session_id m =? cs_id s); [reflexivity|].
  now rewrite app_nil_r.
Qed.

(** X24.  The first revision shows the change feed as it comes: the
    transcript after a feed is the transcript before, followed by the
    delivered messages of the current session in arrival order, repeats
    included.  A message that the initial load already fetched and the
    feed delivers too is therefore shown twice. *)
Theorem legacy_transcript_repeats_the_feed
    (o : Oracle) (feed : list Message) (w : World) (s : ChatSession)
    (Hs : currentSession (ui w) = Some s) :
  messages_state (ui (legacy_deliver feed w))
    = messages_state (ui w) ++
      filter (fun m => m_session_id m =? cs_id s) feed /\
  db (legacy_deliver feed w) = db w /\
  (fails o SelectMessages = false ->
   messages_state (ui (legacy_deliver feed (run (legacy_loadMessages o) w)))
     = history (cs_id s) (db w) ++
       filter (fun m => m_session_id m =? cs_id s) feed).
Proof.
  assert (Hgen : forall feed w, currentSession (ui w) = Some s ->
            messages_state (ui (legacy_deliver feed w))
              = messages_state (ui w) ++
                filter (fun m => m_session_id m =? cs_id s) feed /\
            db (legacy_deliver feed w) = db w).
  { clear. unfold legacy_deliver.
    induction feed as [|m feed IH]; intros w Hs; simpl.
    - now rewrite app_nil_r.
    - pose proof (legacy_onMessageInsert_run m w s Hs) as Hrun.
      assert (Hs1 : currentSession (ui (run (legacy_onMessageInsert m) w))
                    = Some s) by (rewrite Hrun; reflexivity).
      destruct (IH _ Hs1) as [Hm Hd]. rewrite Hm, Hd, Hrun. simpl.
      split; [|reflexivity].
      destruct (m_session_id m =? cs_id s); simpl.
      + now rewrite <- app_assoc.
      + now rewrite app_nil_r. }
  destruct (Hgen feed w Hs) as [H1 H2].
  split; [exact H1|]. split; [exact H2|].
  intros F.
  assert (Hload : run (legacy_loadMessages o) w =
                  mkWorld (db w)
                    (mkClient (Some s) (currentParticipant (ui w))
                       (partner (ui w)) (history (cs_id s) (db w))
                       (isConnected (ui w)) (isSearching (ui w))
                       (heartbeatInterval (ui w)))
                    (toasts w)).
  { destruct w as [d c ts]. destruct c as [cs cp pt ms ic isr hb].
    simpl in Hs. subst cs.
    unfold run, legacy_loadMessages, bind, get_ui, await, setMessages,
      modify_ui, select_messages. simpl. rewrite F. reflexivity. }
  destruct (Hgen feed (run (legacy_loadMessages o) w)) as [H3 _].
  { rewrite Hload. reflexivity. }
  rewrite H3, Hload. reflexivity.
Qed.

Lemma legacy_transcript_repeats_the_feed_witness :
  currentSession (ui (mkWorld tied_messages (ui chatting) [])) = Some session10 /\
  messages_state
    (ui (legacy_deliver [msg 2 7; msg 2 7]
           (run (legacy_loadMessages (at_time 10 0))
              (mkWorld tied_messages (ui chatting) []))))
  = [msg 2 7; msg 1 7; msg 2 7; msg 2 7].
Proof.
  split; [reflexivity|].
  exact (proj2 (proj2 (legacy_transcript_repeats_the_feed (at_time 10 0)
                         [msg 2 7; msg 2 7]
                         (mkWorld tied_messages (ui chatting) [])
                         session10 eq_refl)) eq_refl).
Defined.

(** X25.  Whom the first revision pairs.  The partner its [startChat]
    connects with is a waiting row other than the newcomer's whose
    preference is [any] or the newcomer's gender and whose gender is [any]
    or the newcomer's preference.  On the candidate's side [any] is thus a
    value, not "no preference asked": a newcomer who prefers [any] is
    paired only with partners of gender [any]. *)
Theorem legacy_no_preference_meets_only_unspecified
    (o : Oracle) (name : jsstring) (g pg : GenderType) (ty : ChatType)
    (w : World) (f : Participant)
    (Hnone : partner (ui w) = None)
    (Hf : partner (ui (run (legacy_startChat o name g pg ty) w)) = Some f) :
  In f (participants (db w)) /\
  p_is_waiting f = true /\ p_id f <> uuid_participant o /\
  (p_preferred_gender f = any \/ p_preferred_gender f = g) /\
  (p_gender f = any \/ p_gender f = pg) /\
  (pg = any -> p_gender f = any) /\
  toasts (run (legacy_startChat o name g pg ty) w)
    = toasts w ++ [Connected (p_name f)].
Proof.
  rewrite legacy_startChat_run in Hf |- *.
  destruct (fails o InsertParticipant ||
            has_participant (uuid_participant o) (db w) ||
            (List.length (pg_trim name) =? 0)%nat) eqn:G.
  { simpl in Hf. congruence. }
  cbv zeta in Hf |- *.
  destruct (fails o SelectCandidates); [simpl in Hf; congruence|].
  cbn [legacy_joined p_id participants] in Hf |- *.
  destruct (filter (legacy_accepts (uuid_participant o) g pg)
              (participants (db w) ++ [legacy_joined o name g pg]))
    as [|wp rest] eqn:E; [simpl in Hf; congruence|].
  assert (Hin : In wp (filter (legacy_accepts (uuid_participant o) g pg)
                         (participants (db w) ++ [legacy_joined o name g pg])))
    by (rewrite E; now left).
  apply filter_In in Hin. destruct Hin as [Hin Hacc].
  unfold legacy_accepts in Hacc.
  apply andb_true_iff in Hacc. destruct Hacc as [Hacc A4].
  apply andb_true_iff in Hacc. destruct Hacc as [Hacc A3].
  apply andb_true_iff in Hacc. destruct Hacc as [A1 A2].
  apply negb_true_iff, Z.eqb_neq in A2.
  assert (Hwp : wp = f).
  { destruct (fails o InsertSession ||
              has_session (uuid_session o)
                (mkDB (chat_sessions (db w))
                   (participants (db w) ++ [legacy_joined o name g pg])
                   (messages (db w)))); simpl in Hf; congruence. }
  subst wp.
  assert (Hg : forall a b, GenderType_eqb a b = true -> a = b)
    by (intros [] []; simpl; congruence).
  split.
  { apply in_app_or in Hin. destruct Hin as [Hin|[<-|[]]]; [exact Hin|].
    simpl in A2. contradiction. }
  split; [exact A1|]. split; [exact A2|].
  split.
  { apply orb_true_iff in A3. destruct A3 as [A3|A3]; apply Hg in A3; auto. }
  split.
  { apply orb_true_iff in A4. destruct A4 as [A4|A4]; apply Hg in A4; auto. }
  split.
  { intros ->. apply orb_true_iff in A4.
    destruct A4 as [A4|A4]; apply Hg in A4; auto. }
  destruct (fails o InsertSession ||
            has_session (uuid_session o)
              (mkDB (chat_sessions (db w))
                 (participants (db w) ++ [legacy_joined o name g pg])
                 (messages (db w)))); simpl in Hf |- *; [congruence|reflexivity].
Qed.

Lemma legacy_no_preference_meets_only_unspecified_witness :
  partner (ui pool) = None /\
  p_gender late_id = any /\
  toasts (run (legacy_startChat (at_time 100000 40) (js "zed") male any text)
            (mkWorld (mkDB [] [alice; late_id] []) idle []))
  = [Connected (js "anon")].
Proof.
  split; [reflexivity|].
  pose proof (legacy_no_preference_meets_only_unspecified (at_time 100000 40)
                (js "zed") male any text
                (mkWorld (mkDB [] [alice; late_id] []) idle []) late_id
                eq_refl eq_refl) as H.
  destruct H as (_ & _ & _ & _ & _ & Hany & Ht).
  split; [exact (Hany eq_refl)|exact Ht].
Defined.

(** X26.  The first revision announces a connection it did not make.  The
    update that binds the pair is awaited but its outcome is not looked
    at: when it fails, the client is told "connected" and holds the new
    session and the partner, the session is in the store as matched, and
    yet no participant row has changed: the partner is still waiting, the
    newcomer's row is as inserted, and (in a store without dangling
    references) nobody is bound to the new session. *)
Theorem legacy_connects_without_binding
    (o : Oracle) (name : jsstring) (g pg : GenderType) (ty : ChatType)
    (w : World)
    (Hbefore : isConnected (ui w) = false)
    (Hfail : fails o BindParticipants = true)
    (Hconn : isConnected (ui (run (legacy_startChat o name g pg ty) w)) = true) :
  let w' := run (legacy_startChat o name g pg ty) w in
  exists f,
    toasts w' = toasts w ++ [Connected (p_name f)] /\
    partner (ui w') = Some f /\
    currentSession (ui w') = Some (new_session o ty) /\
    chat_sessions (db w') = chat_sessions (db w) ++ [new_session o ty] /\
    participants (db w') = participants (db w) ++ [legacy_joined o name g pg] /\
    In f (participants (db w)) /\ p_is_waiting f = true /\
    (referential_integrity (db w) ->
     forall q, In q (participants (db w')) ->
               p_session_id q <> Some (uuid_session o)).
Proof.
  cbv zeta. rewrite legacy_startChat_run in Hconn |- *.
  destruct (fails o InsertParticipant ||
            has_participant (uuid_participant o) (db w) ||
            (List.length (pg_trim name) =? 0)%nat).
  { simpl in Hconn. congruence. }
  cbv zeta in Hconn |- *.
  destruct (fails o SelectCandidates); [simpl in Hconn; congruence|].
  cbn [legacy_joined p_id participants] in Hconn |- *.
  destruct (filter (legacy_accepts (uuid_participant o) g pg)
              (participants (db w) ++ [legacy_joined o name g pg]))
    as [|wp rest] eqn:E; [simpl in Hconn; congruence|].
  assert (Hin : In wp (filter (legacy_accepts (uuid_participant o) g pg)
                         (participants (db w) ++ [legacy_joined o name g pg])))
    by (rewrite E; now left).
  apply filter_In in Hin. destruct Hin as [Hin Hacc].
  unfold legacy_accepts in Hacc.
  apply andb_true_iff in Hacc. destruct Hacc as [Hacc _].
  apply andb_true_iff in Hacc. destruct Hacc as [Hacc _].
  apply andb_true_iff in Hacc. destruct Hacc as [A1 A2].
  apply negb_true_iff, Z.eqb_neq in A2.
  destruct (fails o InsertSession ||
            has_session (uuid_session o)
              (mkDB (chat_sessions (db w))
                 (participants (db w) ++ [legacy_joined o name g pg])
                 (messages (db w)))) eqn:G; [simpl in Hconn; congruence|].
  apply orb_false_iff in G. destruct G as [_ Hfresh].
  rewrite Hfail. cbn [db ui toasts chat_sessions participants partner
                      currentSession].
  exists wp.
  split; [reflexivity|]. split; [reflexivity|]. split; [reflexivity|].
  split; [reflexivity|]. split; [reflexivity|].
  split.
  { apply in_app_or in Hin. destruct Hin as [Hin|[<-|[]]]; [exact Hin|].
    simpl in A2. contradiction. }
  split; [exact A1|].
  intros [I1 _] q Hq Hb. apply in_app_or in Hq.
  destruct Hq as [Hq|[<-|[]]]; [|discriminate].
  specialize (I1 q _ Hq Hb). unfold has_session in Hfresh, I1.
  cbn [chat_sessions] in Hfresh. congruence.
Qed.

Lemma legacy_connects_without_binding_witness :
  isConnected (ui lobby) = false /\
  fails (failing BindParticipants 2000 50) BindParticipants = true /\
  participants
    (db (run (legacy_startChat (failing BindParticipants 2000 50) (js "dave")
                male female text) lobby))
  = [alice; bob; carol;
     legacy_joined (failing BindParticipants 2000 50) (js "dave") male female].
Proof.
  split; [reflexivity|]. split; [reflexivity|].
  destruct (legacy_connects_without_binding (failing BindParticipants 2000 50)
              (js "dave") male female text lobby eq_refl eq_refl eq_refl)
    as (f & _ & _ & _ & _ & Hp & _).
  exact Hp.
Defined.

Lemma legacy_skipChat_run o w s me :
  currentSession (ui w) = Some s -> currentParticipant (ui w) = Some me ->
  legacy_skipChat o w =
  let d1 := if fails o UpdateSession then db w
            else snd (end_session o (cs_id s) (db w)) in
  let d2 := if fails o UpdateParticipant then d1
            else snd (legacy_requeue_participant o (p_id me) d1) in
  (Normal (Some me),
   mkWorld d2
     (mkClient None (Some me) None [] false true (heartbeatInterval (ui w)))
     (toasts w)).
Proof.
  intros Hs Hme.
  unfold legacy_skipChat, bind, get_ui. cbn [fst snd]. rewrite Hs, Hme.
  unfold try_catch, bind, await, setCurrentSession, setPartner, setMessages,
    setIsConnected, setIsSearching, modify_ui, ret.
  destruct w as [d c ts]. cbn [db ui toasts] in *.
  destruct (fails o UpdateSession), (fails o UpdateParticipant);
    cbn [fst snd db ui toasts end_session legacy_requeue_participant
         currentSession currentParticipant partner messages_state isConnected
         isSearching heartbeatInterval]; rewrite ?Hme; reflexivity.
Qed.

(** X27.  The first revision's skip can pair a participant with itself.
    Skip puts the participant's row back into the pool and, a second
    later, calls [startChat] again, which inserts a second row for the same
    person and searches among the waiting rows other than that new one.
    When nobody else is waiting and the person's own gender and preference
    accept each other, the search answers the old row: the client is told
    "connected", its partner is its own former row, and both rows are
    bound to the new session. *)
Theorem legacy_skip_pairs_the_skipper_with_itself
    (o o2 : Oracle) (w : World) (s : ChatSession) (me row : Participant)
    (Hs : currentSession (ui w) = Some s)
    (Hme : currentParticipant (ui w) = Some me)
    (Hreq : fails o UpdateParticipant = false)
    (Hrow : In row (participants (db w)) /\ p_id row = p_id me)
    (Hsame : forall q, In q (participants (db w)) -> p_id q = p_id me ->
                       p_gender q = p_gender me /\
                       p_preferred_gender q = p_preferred_gender me)
    (Halone : forall q, In q (participants (db w)) -> p_id q <> p_id me ->
                        p_is_waiting q = false)
    (Hself : (p_preferred_gender me = any \/
              p_preferred_gender me = p_gender me) /\
             (p_gender me = any \/ p_gender me = p_preferred_gender me))
    (Hname : pg_trim (p_name me) <> [])
    (Htimer : no_faults o2 /\
              has_participant (uuid_participant o2)
                (db (run (legacy_skipChat o) w)) = false /\
              has_session (uuid_session o2)
                (db (run (legacy_skipChat o) w)) = false) :
  let w1 := run (legacy_skipChat o) w in
  let w2 := run (legacy_skipTimer o2 me) w1 in
  let again := legacy_joined o2 (p_name me) (p_gender me)
                 (p_preferred_gender me) in
  result (legacy_skipChat o) w = Normal (Some me) /\
  exists f,
    partner (ui w2) = Some f /\ p_id f = p_id me /\
    currentParticipant (ui w2) = Some again /\ p_id again <> p_id me /\
    isConnected (ui w2) = true /\
    toasts w2 = toasts w ++ [Connected (p_name f)] /\
    (forall q, In q (participants (db w2)) ->
               p_id q = p_id me \/ p_id q = p_id again ->
               p_session_id q = Some (uuid_session o2)).
Proof.
  cbv zeta. destruct Htimer as (Hok & Hfp & Hfs).
  destruct Hrow as [Hrin Hrid].
  unfold result, run in *. rewrite (legacy_skipChat_run o w s me Hs Hme) in *.
  cbv zeta in *. rewrite Hreq in *. cbn [fst snd] in *.
  split; [reflexivity|].
  set (d1 := if fails o UpdateSession then db w
             else snd (end_session o (cs_id s) (db w))) in *.
  assert (Hd1 : participants d1 = participants (db w)).
  { unfold d1. destruct (fails o UpdateSession); reflexivity. }
  set (w1 := mkWorld (snd (legacy_requeue_participant o (p_id me) d1))
               (mkClient None (Some me) None [] false true
                  (heartbeatInterval (ui w))) (toasts w)) in *.
  set (R := fun p => if p_id p =? p_id me
                     then legacy_requeue_row (now o) p else p).
  assert (Hps : participants (db w1) = map R (participants (db w))).
  { unfold w1. cbn [db snd legacy_requeue_participant participants].
    now rewrite Hd1. }
  assert (Hnew : uuid_participant o2 <> p_id me).
  { intros E. cbn [db] in Hfp.
    assert (H : has_participant (uuid_participant o2) (db w1) = true).
    { apply has_participant_In. rewrite Hps. apply in_map_iff.
      exists (R row). split; [|now apply in_map].
      unfold R. destruct (p_id row =? p_id me); simpl; congruence. }
    first [congruence | unfold w1 in *; cbn [db] in *; congruence]. }
  pose proof (legacy_startChat_run o2 (p_name me) (p_gender me)
                (p_preferred_gender me) text w1) as Hrun.
  unfold run in Hrun. unfold legacy_skipTimer. rewrite Hrun. clear Hrun.
  rewrite !Hok.
  replace (has_participant (uuid_participant o2) (db w1)) with false
    by (symmetry; exact Hfp).
  assert (G : (List.length (pg_trim (p_name me)) =? 0)%nat = false).
  { apply Nat.eqb_neq. intros E. apply length_zero_iff_nil in E.
    contradiction. }
  rewrite G. cbn [orb]. cbv zeta.
  cbn [legacy_joined p_id participants chat_sessions messages].
  set (again := legacy_joined o2 (p_name me) (p_gender me)
                  (p_preferred_gender me)).
  fold again.
  assert (Hgrefl : forall a, GenderType_eqb a a = true) by (intros []; reflexivity).
  assert (Hacc : legacy_accepts (uuid_participant o2) (p_gender me)
                   (p_preferred_gender me) (R row) = true).
  { destruct (Hsame row Hrin Hrid) as [Hg Hp].
    unfold R. rewrite Hrid, Z.eqb_refl. unfold legacy_accepts.
    cbn [legacy_requeue_row p_is_waiting p_id p_preferred_gender p_gender].
    rewrite Hg, Hp.
    assert (E : (p_id row =? uuid_participant o2) = false)
      by (apply Z.eqb_neq; congruence).
    rewrite E. cbn [negb andb].
    apply andb_true_iff. split; apply orb_true_iff.
    - destruct Hself as [[H1|H1] _]; [left|right]; rewrite H1; apply Hgrefl.
    - destruct Hself as [_ [H2|H2]]; [left|right]; rewrite H2; apply Hgrefl. }
  destruct (filter (legacy_accepts (uuid_participant o2) (p_gender me)
                      (p_preferred_gender me))
              (participants (db w1) ++ [again])) as [|wp rest] eqn:E.
  { exfalso.
    assert (H : In (R row)
                  (filter (legacy_accepts (uuid_participant o2) (p_gender me)
                             (p_preferred_gender me))
                     (participants (db w1) ++ [again]))).
    { apply filter_In. split; [|exact Hacc].
      apply in_or_app. left. rewrite Hps. now apply in_map. }
    rewrite E in H. exact H. }
  assert (Hwp : In wp (filter (legacy_accepts (uuid_participant o2) (p_gender me)
                                 (p_preferred_gender me))
                         (participants (db w1) ++ [again])))
    by (rewrite E; now left).
  apply filter_In in Hwp. destruct Hwp as [Hin Ha].
  unfold legacy_accepts in Ha.
  apply andb_true_iff in Ha. destruct Ha as [Ha _].
  apply andb_true_iff in Ha. destruct Ha as [Ha _].
  apply andb_true_iff in Ha. destruct Ha as [A1 A2].
  apply negb_true_iff, Z.eqb_neq in A2.
  assert (Hwid : p_id wp = p_id me).
  { apply in_app_or in Hin. destruct Hin as [Hin|[<-|[]]].
    - rewrite Hps in Hin. apply in_map_iff in Hin.
      destruct Hin as [q [Hq Hin]]. unfold R in Hq.
      destruct (p_id q =? p_id me) eqn:Eq.
      + subst wp. simpl. now apply Z.eqb_eq.
      + subst wp. apply Z.eqb_neq in Eq.
        rewrite (Halone q Hin Eq) in A1. discriminate.
    - simpl in A2. contradiction. }
  replace (has_session (uuid_session o2)
             (mkDB (chat_sessions (db w1)) (participants (db w1) ++ [again])
                (messages (db w1)))) with false
    by (symmetry; exact Hfs).
  cbn [orb snd db ui toasts partner currentParticipant isConnected
       legacy_bind_participants participants].
  exists wp.
  split; [reflexivity|]. split; [exact Hwid|]. split; [reflexivity|].
  split; [exact Hnew|]. split; [reflexivity|]. split; [reflexivity|].
  intros q Hq Hid. apply in_map_iff in Hq. destruct Hq as [q0 [Hq0 Hq]].
  destruct ((p_id q0 =? uuid_participant o2) || (p_id q0 =? p_id wp)) eqn:Eb.
  - subst q. reflexivity.
  - subst q. apply orb_false_iff in Eb. destruct Eb as [E1 E2].
    apply Z.eqb_neq in E1, E2. cbn [again legacy_joined p_id] in Hid.
    destruct Hid; congruence.
Qed.

Lemma legacy_skip_pairs_the_skipper_with_itself_witness :
  currentSession (ui (mkWorld (mkDB [session10]
     [paired 10 seeker; paired 10 late_id] [])
     (mkClient (Some session10) (Some seeker) (Some late_id) [] true false None)
     [])) = Some session10 /\
  toasts (run (legacy_skipTimer (at_time 7000 60) seeker)
            (run (legacy_skipChat (at_time 6000 0))
               (mkWorld (mkDB [session10]
                  [paired 10 seeker; paired 10 late_id] [])
                  (mkClient (Some session10) (Some seeker) (Some late_id) []
                     true false None) [])))
  = [Connected (js "anon")].
Proof.
  split; [reflexivity|].
  assert (Hok : no_faults (at_time 7000 60)) by (intros site; reflexivity).
  destruct (legacy_skip_pairs_the_skipper_with_itself
              (at_time 6000 0) (at_time 7000 60)
              (mkWorld (mkDB [session10]
                 [paired 10 seeker; paired 10 late_id] [])
                 (mkClient (Some session10) (Some seeker) (Some late_id) []
                    true false None) [])
              session10 seeker (paired 10 seeker) eq_refl eq_refl eq_refl)
    as (_ & f & Hp & _ & _ & _ & _ & Ht & _).
  - split; [now left|reflexivity].
  - intros q Hq Hid. simpl in Hq. destruct Hq as [<-|[<-|[]]].
    + split; reflexivity.
    + discriminate.
  - intros q Hq Hne. simpl in Hq. destruct Hq as [<-|[<-|[]]].
    + now elim Hne.
    + reflexivity.
  - split; left; reflexivity.
  - vm_compute. discriminate.
  - split; [exact Hok|]. split; reflexivity.
  - rewrite Ht. vm_compute in Hp. injection Hp as <-. reflexivity.
Defined.

(** ** The cleanup of the participant effect *)

Lemma unmount_run o w :
  run (unmount o) w =
  mkWorld (db w)
    (mkClient (currentSession (ui w)) (currentParticipant (ui w))
       (partner (ui w)) (messages_state (ui w)) (isConnected (ui w))
       (isSearching (ui w)) None)
    (toasts w).
Proof.
  unfold run, unmount, bind, get_ui, stopHeartbeat, setHeartbeatInterval,
    modify_ui, dropped, ret.
  cbn [fst snd db ui toasts]. destruct (currentParticipant (ui w)); reflexivity.
Qed.

(** X28.  The heartbeat does not survive the cleanup of the effect that is
    keyed on the current participant.  [startChat] has put a participant
    into the pool and armed the heartbeat; then that cleanup runs.  It
    writes nothing to the store (its update is built and dropped) and
    disarms the timer: from then on a tick does nothing, and unless the
    participant sends a message or skips, a sweep later than 30 seconds
    after the start finds every row of the participant offline and not
    waiting, so that no search answers it. *)
Theorem heartbeat_does_not_survive_cleanup
    (o o1 : Oracle) (name : jsstring) (g pg : GenderType) (ty : ChatType)
    (w : World) (t : Timestamp)
    (Hsearching : toasts (run (startChat o name g pg ty) w)
                  = toasts w ++ [Searching])
    (Hlater : now o + 30000 < t) :
  let w1 := run (startChat o name g pg ty) w in
  let w2 := run (unmount o1) w1 in
  heartbeatInterval (ui w1) = Some (uuid_participant o) /\
  db w2 = db w1 /\ toasts w2 = toasts w1 /\
  (forall o2, run (heartbeatTick o2) w2 = w2) /\
  (exists q, In q (participants (cleanup_offline_participants t (db w2))) /\
             p_id q = uuid_participant o) /\
  (forall q, In q (participants (cleanup_offline_participants t (db w2))) ->
             p_id q = uuid_participant o ->
             p_is_online q = false /\ p_is_waiting q = false) /\
  (forall o2 seeking ty2 c2 ts2 f,
     result (findOnlineCompatiblePartner o2 seeking ty2)
       (mkWorld (cleanup_offline_participants t (db w2)) c2 ts2)
     = Normal (Some f) ->
     p_id f <> uuid_participant o).
Proof.
  cbv zeta. rewrite unmount_run. cbn [db ui toasts heartbeatInterval].
  assert (Hshape : heartbeatInterval (ui (run (startChat o name g pg ty) w))
                   = Some (uuid_participant o) /\
                   has_participant (uuid_participant o) (db w) = false /\
                   participants (db (run (startChat o name g pg ty) w))
                   = (if fails o RpcCleanup
                      then participants (db w) ++ [joined o name g pg]
                      else mark_offline (now o)
                             (participants (db w) ++ [joined o name g pg]))).
  { rewrite startChat_run in Hsearching |- *.
    destruct (fails o InsertParticipant) eqn:F1.
    { simpl in Hsearching. apply app_inj_tail in Hsearching.
      destruct Hsearching as [_ H]. discriminate. }
    destruct (has_participant (uuid_participant o) (db w)) eqn:F2.
    { simpl in Hsearching. apply app_inj_tail in Hsearching.
      destruct Hsearching as [_ H]. discriminate. }
    destruct (List.length (pg_trim (trim name)) =? 0)%nat.
    { simpl in Hsearching. apply app_inj_tail in Hsearching.
      destruct Hsearching as [_ H]. discriminate. }
    cbn [orb] in Hsearching |- *. cbv zeta in Hsearching |- *.
    match goal with
    | |- context [match ?x with None => _ | Some f0 => _ end] =>
        destruct x as [f|]
    end.
    - match type of Hsearching with
      | context [createMatchedSession ?a ?b ?c ?d ?e] =>
          destruct (createMatchedSession a b c d e) as [[[ns|]|e0] w4]
      end; simpl in Hsearching; apply app_inj_tail in Hsearching;
        destruct Hsearching as [_ H]; discriminate.
    - cbn [ui db heartbeatInterval joined p_id].
      split; [reflexivity|]. split; [reflexivity|].
      destruct (fails o RpcCleanup); reflexivity. }
  destruct Hshape as (Hhb & Hfresh & Hps).
  split; [exact Hhb|]. split; [reflexivity|]. split; [reflexivity|].
  split.
  { intros o2. apply heartbeatTick_unarmed. reflexivity. }
  assert (Hold : forall q0, In q0 (participants (db w)) ->
                            p_id q0 <> uuid_participant o).
  { intros q0 Hq0 E. unfold has_participant in Hfresh.
    rewrite existsb_false_forall in Hfresh. specialize (Hfresh q0 Hq0).
    apply Z.eqb_neq in Hfresh. contradiction. }
  assert (Hmine : forall q1,
            In q1 (participants (db (run (startChat o name g pg ty) w))) ->
            p_id q1 = uuid_participant o ->
            q1 = joined o name g pg \/ q1 = offline_row (joined o name g pg)).
  { intros q1 Hq1 Hid. rewrite Hps in Hq1.
    destruct (fails o RpcCleanup).
    - apply in_app_or in Hq1. destruct Hq1 as [Hq1|[<-|[]]]; [|now left].
      elim (Hold q1 Hq1 Hid).
    - unfold mark_offline in Hq1. apply in_map_iff in Hq1.
      destruct Hq1 as [q0 [Hq0 Hin]].
      apply in_app_or in Hin. destruct Hin as [Hin|[<-|[]]].
      + pose proof (offline_or_same (now o) q0) as Hs. cbv zeta in Hs.
        rewrite Hq0 in Hs. destruct Hs as [Hs _]. rewrite Hs in Hid.
        elim (Hold q0 Hin Hid).
      + destruct (stale (now o) (joined o name g pg)); auto. }
  assert (Hstale : stale t (joined o name g pg) = true).
  { unfold stale. cbn [joined p_last_seen p_is_online].
    assert (E : (now o <? t - 30000) = true) by (apply Z.ltb_lt; lia).
    now rewrite E. }
  assert (Hrows : forall q,
            In q (participants
                    (cleanup_offline_participants t
                       (db (run (startChat o name g pg ty) w)))) ->
            p_id q = uuid_participant o ->
            p_is_online q = false /\ p_is_waiting q = false).
  { intros q Hq Hid. cbn [cleanup_offline_participants participants] in Hq.
    unfold mark_offline in Hq. apply in_map_iff in Hq.
    destruct Hq as [q1 [Hq1 Hin]].
    assert (Hid1 : p_id q1 = uuid_participant o).
    { pose proof (offline_or_same t q1) as Hs. cbv zeta in Hs.
      rewrite Hq1 in Hs. destruct Hs as [Hs _]. congruence. }
    destruct (Hmine q1 Hin Hid1) as [-> | ->].
    - rewrite Hstale in Hq1. subst q. split; reflexivity.
    - destruct (stale t (offline_row (joined o name g pg))); subst q;
        split; reflexivity. }
  split.
  { assert (Hin : In (joined o name g pg) (participants (db w) ++
                                            [joined o name g pg]))
      by (apply in_or_app; right; now left).
    cbn [cleanup_offline_participants participants]. rewrite Hps.
    destruct (fails o RpcCleanup).
    - exists (offline_row (joined o name g pg)). split; [|reflexivity].
      unfold mark_offline. apply in_map_iff.
      exists (joined o name g pg). rewrite Hstale. auto.
    - exists (if stale t (if stale (now o) (joined o name g pg)
                          then offline_row (joined o name g pg)
                          else joined o name g pg)
              then offline_row (if stale (now o) (joined o name g pg)
                                then offline_row (joined o name g pg)
                                else joined o name g pg)
              else (if stale (now o) (joined o name g pg)
                    then offline_row (joined o name g pg)
                    else joined o name g pg)).
      split.
      + unfold mark_offline. rewrite map_map. apply in_map_iff.
        exists (joined o name g pg). auto.
      + destruct (stale (now o) (joined o name g pg));
          match goal with
          | |- p_id (if ?b then _ else _) = _ => destruct b
          end; reflexivity. }
  split; [exact Hrows|].
  intros o2 seeking ty2 c2 ts2 f Hf Hid.
  apply found_is_waiting in Hf. destruct Hf as (f0 & Hin & _ & Hw & _ & ->).
  cbn [db] in Hin. destruct (Hrows f0 Hin Hid) as [_ Hnw]. congruence.
Qed.

Lemma heartbeat_does_not_survive_cleanup_witness :
  toasts (run (startChat (at_time 2000 50) (js "zoe") female female text) lobby)
    = toasts lobby ++ [Searching] /\
  now (at_time 2000 50) + 30000 < 40000 /\
  db (run (unmount (at_time 2001 0))
        (run (startChat (at_time 2000 50) (js "zoe") female female text) lobby))
  = db (run (startChat (at_time 2000 50) (js "zoe") female female text) lobby).
Proof.
  split; [reflexivity|]. split; [simpl; lia|].
  refine (proj1 (proj2 (heartbeat_does_not_survive_cleanup
                          (at_time 2000 50) (at_time 2001 0) (js "zoe")
                          female female text lobby 40000 eq_refl _))).
  simpl. lia.
Defined.
